(** * Milestone Counter: the time decomposition and the message resolver

    A shallow embedding of the calendar logic of the application script,
    in its revision with the slider and the messages triggered by a date
    ([getTimerValues], [applySlider], [getActiveMessage], [formatDate]),
    together with the part of the ECMAScript [Date] object these functions
    rely on; and of what surrounds them: the wallpaper themes, the cards
    of the timer list and the markup of the message, the list of messages
    of the form, and saving and deleting a timer.

    The calendar logic is given twice.  The first sections have it in the
    zone of offset zero and for the date strings the date inputs supply.
    The module [Zoned] has the same functions with the time zone and the
    parser of the engine as a parameter; in a zone whose offset never
    changes the two agree up to a shift of the clock
    ([timerValuesBetween_fixed]).  What depends on the local calendar, on
    daylight saving or on what the parser accepts is stated over [Zoned].

    Conventions of the embedding.
    - A JavaScript number that is known to be an integer is a [Z]; a number
      that may be [NaN] is an [option Z] with [None] for [NaN].
    - A [Date] object is its time value, milliseconds since the epoch.
      Outside the module [Zoned] local time is UTC.
    - The wall clock ([new Date()]) and the module level variables
      ([sliderPosition], the active timer of [appState]) are explicit
      arguments.
    - Quotients of time differences by the length of a day are computed
      exactly; for time values of the years 0 to 9999, which is all a date
      string of the program denotes, the double precision quotient has the
      same floor and the same rounding.
    - The document is not part of the model: a function that fills an
      element is the text or the markup it puts there.  The photo store is
      a list of pairs of a timer id and a photo; whether a request to it
      succeeds is an argument of the function that makes the request. *)

From Stdlib Require Import ZArith Lia Bool List String Ascii.
From Stdlib Require Import DecimalString.
From Stdlib Require Import Permutation.
Import ListNotations.

Local Open Scope string_scope.
Local Open Scope Z_scope.

(* ================================================================== *)
(** ** The ECMAScript time functions (ECMA-262, Date objects) *)
(* ================================================================== *)

Module JSDate.

Definition msPerSecond : Z := 1000.
Definition msPerMinute : Z := 60000.
Definition msPerHour   : Z := 3600000.
Definition msPerDay    : Z := 86400000.

Definition Day (t : Z) : Z := t / msPerDay.
Definition TimeWithinDay (t : Z) : Z := t mod msPerDay.

Definition DaysInYear (y : Z) : Z :=
  if negb (y mod 4 =? 0) then 365
  else if negb (y mod 100 =? 0) then 366
  else if negb (y mod 400 =? 0) then 365
  else 366.

Definition DayFromYear (y : Z) : Z :=
  365 * (y - 1970) + (y - 1969) / 4 - (y - 1901) / 100 + (y - 1601) / 400.

Definition TimeFromYear (y : Z) : Z := msPerDay * DayFromYear y.

(** The largest [y] with [TimeFromYear y <= t], found from an estimate that
    is off by at most one year (see [YearFromDay_spec]). *)
Definition YearFromDay (d : Z) : Z :=
  let y0 := 1970 + (400 * d) / 146097 in
  if DayFromYear (y0 + 1) <=? d then y0 + 1
  else if DayFromYear y0 <=? d then y0
  else y0 - 1.

Definition YearFromTime (t : Z) : Z := YearFromDay (Day t).

Definition InLeapYearOf (y : Z) : Z := if DaysInYear y =? 366 then 1 else 0.
Definition InLeapYear (t : Z) : Z := InLeapYearOf (YearFromTime t).

Definition DayWithinYear (t : Z) : Z := Day t - DayFromYear (YearFromTime t).

(** Month number (0 = January) of the day [dwy] of a year, [leap] being 1
    in a leap year and 0 otherwise. *)
Definition MonthOfYearDay (dwy leap : Z) : Z :=
  if dwy <? 31 then 0
  else if dwy <? 59 + leap then 1
  else if dwy <? 90 + leap then 2
  else if dwy <? 120 + leap then 3
  else if dwy <? 151 + leap then 4
  else if dwy <? 181 + leap then 5
  else if dwy <? 212 + leap then 6
  else if dwy <? 243 + leap then 7
  else if dwy <? 273 + leap then 8
  else if dwy <? 304 + leap then 9
  else if dwy <? 334 + leap then 10
  else 11.

(** Number of the first day of month [m] (0 to 11) within its year. *)
Definition MonthStart (m leap : Z) : Z :=
  if m =? 0 then 0
  else if m =? 1 then 31
  else if m =? 2 then 59 + leap
  else if m =? 3 then 90 + leap
  else if m =? 4 then 120 + leap
  else if m =? 5 then 151 + leap
  else if m =? 6 then 181 + leap
  else if m =? 7 then 212 + leap
  else if m =? 8 then 243 + leap
  else if m =? 9 then 273 + leap
  else if m =? 10 then 304 + leap
  else 334 + leap.

Definition MonthFromTime (t : Z) : Z :=
  MonthOfYearDay (DayWithinYear t) (InLeapYear t).

Definition DateFromTime (t : Z) : Z :=
  DayWithinYear t - MonthStart (MonthFromTime t) (InLeapYear t) + 1.

Definition HourFromTime (t : Z) : Z := (t / msPerHour) mod 24.
Definition MinFromTime (t : Z) : Z := (t / msPerMinute) mod 60.
Definition SecFromTime (t : Z) : Z := (t / msPerSecond) mod 60.
Definition msFromTime (t : Z) : Z := t mod msPerSecond.

Definition MakeTime (hour min sec ms : Z) : Z :=
  hour * msPerHour + min * msPerMinute + sec * msPerSecond + ms.

(** [MakeDay]: months outside 0..11 carry into the year, and a day of the
    month past the end of the month runs on into the following month. *)
Definition MakeDay (year month date : Z) : Z :=
  let ym := year + month / 12 in
  let mn := month mod 12 in
  DayFromYear ym + MonthStart mn (InLeapYearOf ym) + date - 1.

Definition MakeDate (day time : Z) : Z := day * msPerDay + time.

(** *** The methods of [Date.prototype] the program calls.  Local time is
    UTC (see the conventions above), and time values stay far inside the
    range [TimeClip] accepts. *)

Definition getFullYear (t : Z) : Z := YearFromTime t.
Definition getMonth (t : Z) : Z := MonthFromTime t.
Definition getDate (t : Z) : Z := DateFromTime t.

Definition setFullYear (t year : Z) : Z :=
  MakeDate (MakeDay year (MonthFromTime t) (DateFromTime t)) (TimeWithinDay t).

Definition setMonth (t month : Z) : Z :=
  MakeDate (MakeDay (YearFromTime t) month (DateFromTime t)) (TimeWithinDay t).

Definition setHours (t hour min sec ms : Z) : Z :=
  MakeDate (Day t) (MakeTime hour min sec ms).

End JSDate.

Import JSDate.

(* ================================================================== *)
(** ** Parsing and formatting of dates *)
(* ================================================================== *)

(** A small option monad: [None] stands for [NaN] (an invalid [Date]). *)
Definition bind {A B : Type} (x : option A) (f : A -> option B) : option B :=
  match x with
  | Some a => f a
  | None => None
  end.

Notation "x <- c ;; k" := (bind c (fun x => k))
  (at level 61, c at next level, right associativity).

Definition guard (b : bool) : option unit := if b then Some tt else None.

Definition digit (c : ascii) : option Z :=
  let n := Z.of_N (N_of_ascii c) in
  if (48 <=? n) && (n <=? 57) then Some (n - 48) else None.

Definition digits2 (a b : ascii) : option Z :=
  x <- digit a ;; y <- digit b ;; Some (10 * x + y).

Definition digits4 (a b c d : ascii) : option Z :=
  x <- digits2 a b ;; y <- digits2 c d ;; Some (100 * x + y).

Definition isChar (c : ascii) (s : string) : bool := String.eqb (String c EmptyString) s.

(** [new Date(s)] for a string in the date-time form
    [YYYY-MM-DDTHH:mm:ss], which has no offset and is therefore local
    time.  The fields are checked against the ranges of the grammar (the
    day of the month against 01 to 31, whatever the month), and a day past
    the end of its month runs on into the next one through [MakeDay].
    Every other string is taken for an invalid [Date] here; the engine
    reads more of them, which is in [Zoned.newDate]. *)
Definition newDate (s : string) : option Z :=
  match s with
  | String y1 (String y2 (String y3 (String y4 (String s1
    (String m1 (String m2 (String s2 (String d1 (String d2 (String sT
    (String h1 (String h2 (String s3 (String n1 (String n2 (String s4
    (String c1 (String c2 EmptyString)))))))))))))))))) =>
      _ <- guard (isChar s1 "-" && isChar s2 "-" && isChar sT "T"
                  && isChar s3 ":" && isChar s4 ":") ;;
      y <- digits4 y1 y2 y3 y4 ;;
      m <- digits2 m1 m2 ;;
      d <- digits2 d1 d2 ;;
      h <- digits2 h1 h2 ;;
      n <- digits2 n1 n2 ;;
      c <- digits2 c1 c2 ;;
      _ <- guard ((1 <=? m) && (m <=? 12) && (1 <=? d) && (d <=? 31)) ;;
      _ <- guard ((h <=? 23) && (n <=? 59) && (c <=? 59)
                  || (h =? 24) && (n =? 0) && (c =? 0)) ;;
      Some (MakeDate (MakeDay y (m - 1) d) (MakeTime h n c 0))
  | _ => None
  end.

Definition monthName (m : Z) : string :=
  nth (Z.to_nat m)
    ["January"; "February"; "March"; "April"; "May"; "June"; "July";
     "August"; "September"; "October"; "November"; "December"] "".

Definition String_of_Z (z : Z) : string := NilZero.string_of_int (Z.to_int z).

(** The year as the format writes it, the year of the era without the
    era: the year 0 is written 1, the year before it 2. *)
Definition yearOfEra (y : Z) : Z := if y <=? 0 then 1 - y else y.

(** [d.toLocaleDateString('en-GB', { day: 'numeric', month: 'long',
    year: 'numeric' })]. *)
Definition toLocaleDateString (d : option Z) : string :=
  match d with
  | None => "Invalid Date"
  | Some t =>
      String_of_Z (getDate t) ++ " " ++ monthName (getMonth t) ++ " "
        ++ String_of_Z (yearOfEra (getFullYear t))
  end.

Definition formatDate (dateStr : string) : string :=
  let d := newDate (dateStr ++ "T00:00:00") in
  toLocaleDateString d.

(* ================================================================== *)
(** ** The data of the application *)
(* ================================================================== *)

(** A message of a timer.  A field that is absent from the stored object
    ([undefined]) is [None]. *)
Record Message : Type := mkMessage {
  text        : option string;
  triggerType : option string;
  triggerDate : option string
}.

(** Timer shape: [{ id, name, date: "YYYY-MM-DD", mode:
    'countdown'|'countup', messages }]. *)
Record Timer : Type := mkTimer {
  id       : string;
  name     : string;
  date     : string;
  mode     : string;
  messages : option (list Message)
}.

Record TimerValues : Type := mkTimerValues {
  years     : Z;
  months    : Z;
  weeks     : Z;
  days      : Z;
  totalDays : Z;
  isExpired : bool
}.

Record SliderValues : Type := mkSliderValues {
  dispYears  : Z;
  dispMonths : Z;
  dispWeeks  : Z;
  dispDays   : Z
}.

Record ActiveMessage : Type := mkActiveMessage {
  am_text      : string;
  daysUntil    : Z;
  triggerLabel : string
}.

(** JavaScript truthiness of a value that is a string or [undefined]. *)
Definition truthy (s : option string) : bool :=
  match s with
  | Some EmptyString => false
  | Some _ => true
  | None => false
  end.

(** [s === lit] for a value that is a string or [undefined]. *)
Definition strictEq (s : option string) (lit : string) : bool :=
  match s with
  | Some v => String.eqb v lit
  | None => false
  end.

Definition toStr (s : option string) : string :=
  match s with
  | Some v => v
  | None => "undefined"
  end.

(* ================================================================== *)
(** ** 5. Time calculation helpers *)
(* ================================================================== *)

(** [Math.floor(a / b)] for integers [a] and a positive integer [b]. *)
Definition Math_floor_div (a b : Z) : Z := a / b.

(** [Math.round(a / b)] for integers [a] and a positive integer [b]:
    halves round towards plus infinity. *)
Definition Math_round_div (a b : Z) : Z := (2 * a + b) / (2 * b).

(** The remainder operator [%]: the sign of the result is that of the
    dividend. *)
Definition js_rem (a b : Z) : Z := Z.rem a b.

(** The [fromDate] and [toDate] of a timer: [target] is the anchor date at
    local midnight, [now] the clock. *)
Definition fromDateOf (timer : Timer) (target now : Z) : Z :=
  if String.eqb (mode timer) "countup" then target else now.

Definition toDateOf (timer : Timer) (target now : Z) : Z :=
  if String.eqb (mode timer) "countup" then now else target.

(** The body of [getTimerValues] once [fromDate] and [toDate] are known. *)
Definition timerValuesBetween (fromDate toDate : Z) : TimerValues :=
  let isExpired := toDate <? fromDate in
  if isExpired then mkTimerValues 0 0 0 0 0 true
  else
    (* Years *)
    let years := getFullYear toDate - getFullYear fromDate in
    let afterYears := setFullYear fromDate (getFullYear fromDate + years) in
    let '(years, afterYears) :=
      if toDate <? afterYears
      then (years - 1, setFullYear afterYears (getFullYear afterYears - 1))
      else (years, afterYears) in
    (* Months after years *)
    let months := (getFullYear toDate - getFullYear afterYears) * 12
                  + (getMonth toDate - getMonth afterYears) in
    let months := if getDate toDate <? getDate afterYears then months - 1 else months in
    let months := if months <? 0 then 0 else months in
    let afterMonths := setMonth afterYears (getMonth afterYears + months) in
    (* Weeks and days after months *)
    let remainingMs := toDate - afterMonths in
    let remainingDays := Math_floor_div remainingMs msPerDay in
    let weeks := Math_floor_div remainingDays 7 in
    let days := js_rem remainingDays 7 in
    let totalDays := Math_floor_div (toDate - fromDate) msPerDay in
    mkTimerValues years months weeks days totalDays isExpired.

(** [getTimerValues(timer)] at clock reading [now].  The result is [None]
    when [timer.date] does not parse: the anchor is then an invalid [Date]
    and every number the function returns is [NaN]. *)
Definition getTimerValues (now : Z) (timer : Timer) : option TimerValues :=
  target <- newDate (date timer ++ "T00:00:00") ;;
  let fromDate := fromDateOf timer target now in
  let toDate := toDateOf timer target now in
  Some (timerValuesBetween fromDate toDate).

(* ================================================================== *)
(** ** 9. The slider of the detail screen *)
(* ================================================================== *)

(** The months branch of [applySlider] once [fromDate] and [toDate] are
    known. *)
Definition sliderMonthsBetween (fromDate toDate : Z) : SliderValues :=
  let totalMonths := (getFullYear toDate - getFullYear fromDate) * 12
                     + (getMonth toDate - getMonth fromDate) in
  let totalMonths := if getDate toDate <? getDate fromDate then totalMonths - 1 else totalMonths in
  let totalMonths := if totalMonths <? 0 then 0 else totalMonths in
  let afterMonths := setMonth fromDate (getMonth fromDate + totalMonths) in
  let remDays := Math_floor_div (toDate - afterMonths) msPerDay in
  mkSliderValues 0 totalMonths (Math_floor_div remDays 7) (js_rem remDays 7).

(** [applySlider(vals)] with the module variable [sliderPosition], the
    active timer of [appState] and the clock as arguments.  [None] as for
    [getTimerValues]. *)
Definition applySlider (sliderPosition : Z) (timer : Timer) (now : Z)
    (vals : TimerValues) : option SliderValues :=
  if isExpired vals then Some (mkSliderValues 0 0 0 0)
  else if sliderPosition =? 0 then
    (* Normal: years is the largest unit *)
    Some (mkSliderValues (years vals) (months vals) (weeks vals) (days vals))
  else if sliderPosition =? 1 then
    (* Months is largest *)
    target <- newDate (date timer ++ "T00:00:00") ;;
    let fromDate := fromDateOf timer target now in
    let toDate := toDateOf timer target now in
    Some (sliderMonthsBetween fromDate toDate)
  else if sliderPosition =? 2 then
    (* Weeks is largest *)
    let totalWeeks := Math_floor_div (totalDays vals) 7 in
    let remDays := js_rem (totalDays vals) 7 in
    Some (mkSliderValues 0 0 totalWeeks remDays)
  else
    (* Days is largest *)
    Some (mkSliderValues 0 0 0 (totalDays vals)).

(** What [updateDetailDisplay] computes for the active timer: the values
    of [getTimerValues] and what [applySlider] makes of them, both at the
    clock reading [now]. *)
Definition decompose (timer : Timer) (now : Z) (pivot : Z)
    : option (TimerValues * SliderValues) :=
  vals <- getTimerValues now timer ;;
  disp <- applySlider pivot timer now vals ;;
  Some (vals, disp).

(* ================================================================== *)
(** ** 11. Messages *)
(* ================================================================== *)

(** The state of the loop of [getActiveMessage]: [best] and
    [bestDaysUntil], the latter [None] while it is [Infinity]. *)
Definition BestState : Type := (option ActiveMessage * option Z)%type.

(** [a < b] where [b] may be [Infinity]. *)
Definition ltInf (a : Z) (b : option Z) : bool :=
  match b with
  | None => true
  | Some v => a <? v
  end.

(** One iteration of the loop, [today] being local midnight of the current
    day.  [daysUntil] is [None] when it is [NaN]. *)
Definition messageStep (today : Z) (st : BestState) (msg : Message) : BestState :=
  if negb (truthy (text msg)) then st
  else if strictEq (triggerType msg) "date" && truthy (triggerDate msg) then
    (* Date trigger *)
    let triggerDay := newDate (toStr (triggerDate msg) ++ "T00:00:00") in
    let daysUntil :=
      match triggerDay with
      | Some t => Some (Math_round_div (t - today) msPerDay)
      | None => None
      end in
    let triggerLabel := "📅 " ++ formatDate (toStr (triggerDate msg)) in
    match daysUntil with
    | Some du =>
        let inWindow := du <=? 0 in
        if inWindow && ltInf du (snd st)
        then (Some (mkActiveMessage (toStr (text msg)) du triggerLabel), Some du)
        else st
    | None => st
    end
  else st.

(** [getActiveMessage(timer, totalDays)] at clock reading [now]. *)
Definition getActiveMessage (now : Z) (timer : Timer) (totalDays : Z)
    : option ActiveMessage :=
  let messages := match messages timer with Some l => l | None => [] end in
  match messages with
  | [] => None
  | _ =>
      let today := setHours now 0 0 0 0 in
      fst (fold_left (messageStep today) messages (None, None))
  end.

(* ================================================================== *)
(** ** The specification's vocabulary *)
(* ================================================================== *)

(** The definitions of this section follow the words of the design
    specification, not the code; the theorems below compare the two. *)
Module Spec.

(** Whole 24-hour days from [a] to [b], truncated downwards. *)
Definition wholeDaysBetween (a b : Z) : Z := (b - a) / msPerDay.

(** Whole calendar months from [a] to [b]: the difference of the year
    and month numbers, one less when the day of the month of [b] is
    earlier than that of [a], and never below zero. *)
Definition wholeMonthsBetween (a b : Z) : Z :=
  let diff := 12 * (getFullYear b - getFullYear a) + (getMonth b - getMonth a) in
  let borrow := if getDate b <? getDate a then 1 else 0 in
  Z.max 0 (diff - borrow).

(** Advance a date by [n] months, or by [n] years, with the calendar
    primitive of the language. *)
Definition addMonths (a n : Z) : Z := setMonth a (getMonth a + n).
Definition addYears (a n : Z) : Z := setFullYear a (getFullYear a + n).

(** The days a message has until its trigger date, for a message as the
    interface of the specification describes it, by its text and trigger
    date alone, when its date has arrived. *)
Definition interfaceDaysUntil (today : Z) (msg : Message) : option Z :=
  _ <- guard (truthy (text msg)) ;;
  _ <- guard (truthy (triggerDate msg)) ;;
  t <- newDate (toStr (triggerDate msg) ++ "T00:00:00") ;;
  let du := Math_round_div (t - today) msPerDay in
  _ <- guard (du <=? 0) ;;
  Some du.

End Spec.

Import Spec.

(** *** Names for steps of the code *)

(** The years of [getTimerValues]: the difference of the year numbers,
    one less when [a] advanced by that many years lies after [b]. *)
Definition wholeYearsBetween (a b : Z) : Z :=
  let diff := getFullYear b - getFullYear a in
  if b <? addYears a diff then diff - 1 else diff.

(** The [afterYears] of [getTimerValues]: [a] advanced by the difference
    of the year numbers and, where one year was taken back, the advanced
    date set back by a year. *)
Definition afterYearsOf (a b : Z) : Z :=
  let diff := getFullYear b - getFullYear a in
  let adv := addYears a diff in
  if b <? adv then addYears adv (-1) else adv.

(** The days a message has until its trigger date, when the message is
    one the loop of [getActiveMessage] considers at all and its date has
    arrived: a text, the trigger type 'date', a trigger date that parses,
    and no days left. *)
Definition activeDaysUntil (today : Z) (msg : Message) : option Z :=
  _ <- guard (truthy (text msg)) ;;
  _ <- guard (strictEq (triggerType msg) "date") ;;
  _ <- guard (truthy (triggerDate msg)) ;;
  t <- newDate (toStr (triggerDate msg) ++ "T00:00:00") ;;
  let du := Math_round_div (t - today) msPerDay in
  _ <- guard (du <=? 0) ;;
  Some du.

(** What the resolver returns for a selected message. *)
Definition resultOf (msg : Message) (du : Z) : ActiveMessage :=
  mkActiveMessage (toStr (text msg)) du
    ("📅 " ++ formatDate (toStr (triggerDate msg))).

(** The messages of a timer, [timer.messages || []]. *)
Definition messagesOf (timer : Timer) : list Message :=
  match messages timer with
  | Some l => l
  | None => []
  end.

Definition withMessages (timer : Timer) (l : list Message) : Timer :=
  mkTimer (id timer) (name timer) (date timer) (mode timer) (Some l).

(** What the loop of [getActiveMessage] has established about the
    messages [msgs] it has gone through when its state is [st]: either no
    message was active, or the state holds the first of the active
    messages with the least number of days. *)
Definition Selected (today : Z) (msgs : list Message) (st : BestState) : Prop :=
  match fst st with
  | None =>
      snd st = None /\ forall m, In m msgs -> activeDaysUntil today m = None
  | Some r =>
      exists (i : nat) (m : Message) (du : Z),
        nth_error msgs i = Some m /\
        activeDaysUntil today m = Some du /\
        r = resultOf m du /\
        snd st = Some du /\
        forall (j : nat) (m' : Message) (du' : Z),
          nth_error msgs j = Some m' ->
          activeDaysUntil today m' = Some du' ->
          du <= du' /\ ((j < i)%nat -> du < du')
  end.

(* ================================================================== *)
(** ** Examples and the properties of the specification *)
(* ================================================================== *)

(** A message as [addMessageToForm] stores it. *)
Definition dateMessage (txt d : string) : Message :=
  mkMessage (Some txt) (Some "date") (Some d).

(** A timer of the given date and mode with the given messages. *)
Definition timerOn (d m : string) (l : list Message) : Timer :=
  mkTimer "t1" "Example" d m (Some l).

(** The instant [h]:[mi] on the day [d] of month [m] (1 = January) of the
    year [y]. *)
Definition instant (y m d h mi : Z) : Z :=
  MakeDate (MakeDay y (m - 1) d) (MakeTime h mi 0 0).

(** "Most recently triggered wins": no active message has more days
    than the one returned. *)
Definition ReturnsLargest (now : Z) (timer : Timer) (totalDays : Z) : Prop :=
  forall m du,
    In m (messagesOf timer) ->
    activeDaysUntil (setHours now 0 0 0 0) m = Some du ->
    exists r, getActiveMessage now timer totalDays = Some r /\ du <= daysUntil r.

(** The result is none exactly when no message with a text and a trigger
    date that parses is active. *)
Definition NoneIffNoInterfaceActive (now : Z) (timer : Timer) (totalDays : Z) : Prop :=
  getActiveMessage now timer totalDays = None <->
  forall m, In m (messagesOf timer) ->
            interfaceDaysUntil (setHours now 0 0 0 0) m = None.

(** Of the active messages that share the most recent trigger date, the
    earliest in the list is returned. *)
Definition ReturnsFirstOfMostRecent (now : Z) (timer : Timer) (totalDays : Z) : Prop :=
  let today := setHours now 0 0 0 0 in
  forall (i : nat) (m : Message) (du : Z),
    nth_error (messagesOf timer) i = Some m ->
    activeDaysUntil today m = Some du ->
    (forall (j : nat) (m' : Message) (du' : Z),
        nth_error (messagesOf timer) j = Some m' ->
        activeDaysUntil today m' = Some du' ->
        du' <= du /\ ((j < i)%nat -> du' < du)) ->
    getActiveMessage now timer totalDays = Some (resultOf m du).

Definition isDateMessage (m : Message) : bool := strictEq (triggerType m) "date".


(** A timer anchored on the current date counts zero whole days and is
    not expired. *)
Definition AnchorTodayNotExpired (now : Z) (timer : Timer) : Prop :=
  forall target vals,
    newDate (date timer ++ "T00:00:00") = Some target ->
    getFullYear now = getFullYear target ->
    getMonth now = getMonth target ->
    getDate now = getDate target ->
    getTimerValues now timer = Some vals ->
    totalDays vals = 0 /\ isExpired vals = false.

(** *** Months on one line *)

(** The number of the month of a time value, counted from January of the
    year 0. *)
Definition monthIndex (t : Z) : Z := 12 * getFullYear t + getMonth t.

(** The day number of the first day of the month of index [k]. *)
Definition FirstDayOfMonth (k : Z) : Z :=
  DayFromYear (k / 12) + MonthStart (k mod 12) (InLeapYearOf (k / 12)).

Definition DaysInMonth (k : Z) : Z := FirstDayOfMonth (k + 1) - FirstDayOfMonth k.

(* ================================================================== *)
(** ** 1. Built-in wallpaper themes *)
(* ================================================================== *)

Record Theme : Type := mkTheme {
  key   : string;
  label : string;
  css   : string
}.

Definition WALLPAPER_THEMES : list Theme :=
  [ mkTheme "dawn" "Dawn"
      "linear-gradient(160deg, #1a0533 0%, #3d1a6e 30%, #c2185b 65%, #ff8a65 100%)";
    mkTheme "ocean" "Ocean"
      "linear-gradient(180deg, #001e3c 0%, #0a3d62 25%, #1565c0 55%, #29b6f6 80%, #4dd0e1 100%)";
    mkTheme "sunset" "Sunset"
      "linear-gradient(170deg, #1a0533 0%, #7b1fa2 25%, #e91e63 55%, #ff6f00 80%, #ffca28 100%)";
    mkTheme "forest" "Forest"
      "linear-gradient(160deg, #0a1a0f 0%, #1b5e20 35%, #2e7d32 60%, #558b2f 80%, #8bc34a 100%)";
    mkTheme "gold" "Gold"
      "linear-gradient(165deg, #1a1200 0%, #3e2800 30%, #b8860b 60%, #ffd700 85%, #fffde7 100%)";
    mkTheme "aurora" "Aurora"
      "linear-gradient(155deg, #000814 0%, #001d3d 25%, #003566 45%, #006466 65%, #0ead69 85%, #b5ead7 100%)"
  ].

(** [getThemeByKey(key)]; the key of a timer stored before there were
    wallpapers is [undefined]. *)
Definition getThemeByKey (k : option string) : option Theme :=
  find (fun t => strictEq k (key t)) WALLPAPER_THEMES.

(** [getWallpaperCss(timer, photoDataUrl)], of which only
    [timer.wallpaper] is read. *)
Definition getWallpaperCss (wallpaper : option string) (photoDataUrl : option string)
    : option string :=
  if strictEq wallpaper "photo" && truthy photoDataUrl then
    Some ("url('" ++ toStr photoDataUrl ++ "') center / cover no-repeat")
  else if truthy wallpaper && negb (strictEq wallpaper "photo")
          && negb (strictEq wallpaper "none") then
    match getThemeByKey wallpaper with
    | Some theme => Some (css theme)
    | None => None
    end
  else None.

(** The background [applyDetailWallpaper] sets, [None] for the class
    'no-wallpaper'.  [dataUrl] is what [loadPhoto] resolves to,
    [hasTransform] whether the timer has a [photoTransform], and
    [croppedUrl] what [applyTransformToCanvas] resolves to. *)
Definition applyDetailWallpaper (wallpaper : option string) (dataUrl : option string)
    (hasTransform : bool) (croppedUrl : string) : option string :=
  if negb (truthy wallpaper) || strictEq wallpaper "none" then None
  else if strictEq wallpaper "photo" then
    if truthy dataUrl then
      if hasTransform
      then Some ("url('" ++ croppedUrl ++ "') center / cover no-repeat")
      else Some ("url('" ++ toStr dataUrl ++ "') center / cover no-repeat")
    else None
  else
    match getThemeByKey wallpaper with
    | Some theme => Some (css theme)
    | None => None
    end.

(* ================================================================== *)
(** ** 13. Utility: escaping of text *)
(* ================================================================== *)

(** [escapeHtml(str)]: the [innerHTML] of an element whose only child is
    the text node [str].  Strings are the UTF-8 encoding of the text, in
    which the no-break space is the pair of bytes 194, 160. *)
Fixpoint escapeHtml (s : string) : string :=
  match s with
  | EmptyString => EmptyString
  | String c rest =>
      if Ascii.eqb c "&"%char then "&amp;" ++ escapeHtml rest
      else if Ascii.eqb c "<"%char then "&lt;" ++ escapeHtml rest
      else if Ascii.eqb c ">"%char then "&gt;" ++ escapeHtml rest
      else
        match rest with
        | String c2 rest2 =>
            if Ascii.eqb c (ascii_of_nat 194) && Ascii.eqb c2 (ascii_of_nat 160)
            then "&nbsp;" ++ escapeHtml rest2
            else String c (escapeHtml rest)
        | EmptyString => String c EmptyString
        end
  end.

(** The number of occurrences of a character. *)
Fixpoint countChar (c : ascii) (s : string) : nat :=
  match s with
  | EmptyString => O
  | String a rest => ((if Ascii.eqb a c then 1 else 0) + countChar c rest)%nat
  end.

(** The rest of [s] after the prefix [p], when [s] starts with [p]. *)
Fixpoint stripPrefix (p s : string) : option string :=
  match p with
  | EmptyString => Some s
  | String a p' =>
      match s with
      | String b s' => if Ascii.eqb a b then stripPrefix p' s' else None
      | EmptyString => None
      end
  end.

(** What a reader of the markup makes of the four character references
    [escapeHtml] writes; [fuel] bounds the number of characters read. *)
Fixpoint unescapeHtml (fuel : nat) (s : string) : string :=
  match fuel with
  | O => s
  | S n =>
      match stripPrefix "&amp;" s with
      | Some r => String "&" (unescapeHtml n r)
      | None =>
      match stripPrefix "&lt;" s with
      | Some r => String "<" (unescapeHtml n r)
      | None =>
      match stripPrefix "&gt;" s with
      | Some r => String ">" (unescapeHtml n r)
      | None =>
      match stripPrefix "&nbsp;" s with
      | Some r => String (ascii_of_nat 194) (String (ascii_of_nat 160) (unescapeHtml n r))
      | None =>
      match s with
      | String c r => String c (unescapeHtml n r)
      | EmptyString => EmptyString
      end end end end end
  end.

(** The double quote. *)
Definition quote : string := String (ascii_of_nat 34) EmptyString.

(* ================================================================== *)
(** ** 8. The cards of the list screen *)
(* ================================================================== *)

(** The values [renderTimerList] puts into the markup of a card, in the
    order of the template: the style of the thumb, the name, the line
    under the name, the number of days and its label. *)
Record TimerCard : Type := mkTimerCard {
  thumbStyle : string;
  cardName   : string;
  cardSub    : string;
  cardDays   : string;
  cardLabel  : string
}.

Definition timerCard (now : Z) (timer : Timer) (wallpaper : option string) : TimerCard :=
  let vals := getTimerValues now timer in
  let expired := match vals with Some v => isExpired v | None => false end in
  let modeVerb := if String.eqb (mode timer) "countdown" then "Until" else "Since" in
  let thumb :=
    if truthy wallpaper && negb (strictEq wallpaper "none") then
      if strictEq wallpaper "photo"
      then "background: linear-gradient(180deg, #f5a623, #e05c5c);"
      else match getThemeByKey wallpaper with
           | Some theme => "background: " ++ css theme ++ ";"
           | None => "background: var(--border);"
           end
    else "background: var(--border);" in
  mkTimerCard thumb
    (escapeHtml (name timer))
    (modeVerb ++ " " ++ formatDate (date timer))
    (if expired then "—"
     else match vals with Some v => String_of_Z (totalDays v) | None => "NaN" end)
    (if expired then "arrived"
     else if String.eqb (mode timer) "countdown" then "days left" else "days").

(* ================================================================== *)
(** ** 11b. The message line of the detail screen *)
(* ================================================================== *)

(** The markup [updateDetailMessage] sets, [None] when it hides the
    line. *)
Definition updateDetailMessage (now : Z) (timer : Timer) (totalDays : Z)
    : option string :=
  match getActiveMessage now timer totalDays with
  | Some active =>
      let dayStr :=
        if daysUntil active =? 0 then "Today"
        else "Since " ++ triggerLabel active in
      Some ("<span class=" ++ quote ++ "detail-message-text" ++ quote ++ ">"
            ++ escapeHtml (am_text active)
            ++ "</span><span class=" ++ quote ++ "detail-message-when" ++ quote ++ ">"
            ++ dayStr ++ " — " ++ triggerLabel active ++ "</span>")
  | None => None
  end.

(* ================================================================== *)
(** ** 10. The messages of the form *)
(* ================================================================== *)

(** [addMessageToForm] on the message list of the form: [txt] is the
    trimmed value of the text input, [d] the value of the date input.
    [None] when the function alerts and leaves the list as it is. *)
Definition addMessageToForm (current : list Message) (txt d : string)
    : option (list Message) :=
  if negb (truthy (Some txt)) then None
  else if negb (truthy (Some d)) then None
  else if (5 <=? Z.of_nat (List.length current)) then None
  else Some (current ++ [mkMessage (Some txt) (Some "date") (Some d)])%list.

(** The handler of the remove button of row [index]:
    [current.splice(index, 1)]. *)
Definition removeMessage (current : list Message) (index : nat) : list Message :=
  (firstn index current ++ skipn (S index) current)%list.

Inductive FormAction : Type :=
| AddMessage (txt d : string)
| RemoveMessage (index : nat).

Definition formStep (current : list Message) (a : FormAction) : list Message :=
  match a with
  | AddMessage txt d =>
      match addMessageToForm current txt d with
      | Some l => l
      | None => current
      end
  | RemoveMessage index => removeMessage current index
  end.

(** A message as the form writes it. *)
Definition formShaped (m : Message) : bool :=
  truthy (text m) && strictEq (triggerType m) "date" && truthy (triggerDate m).

(* ================================================================== *)
(** ** 4. State, and 10. submitting and deleting a timer *)
(* ================================================================== *)

(** The position and zoom of a photo and the photo itself are only passed
    along by the functions of this section; their types are left open.
    Whether the requests to the photo store succeed is an argument of the
    functions that make them. *)
Section Store.

Variables Transform Blob : Type.

(** A timer as the state holds it: the fields the calculations read,
    the wallpaper key and the photo transform. *)
Record TimerEntry : Type := mkTimerEntry {
  entryTimer     : Timer;
  wallpaper      : option string;
  photoTransform : option Transform
}.

Definition entryId (e : TimerEntry) : string := id (entryTimer e).

(** [appState] without the theme, and the photo store keyed by timer
    id. *)
Record AppState : Type := mkAppState {
  timers        : list TimerEntry;
  activeTimerId : option string;
  photos        : list (string * Blob)
}.

(** The module variables of the form and what its inputs hold:
    [inputName] is the trimmed value of the name input, [activeMode] the
    mode of the active toggle button if there is one. *)
Record Form : Type := mkForm {
  editingTimerId            : option string;
  formWallpaperSelection    : string;
  formPendingPhotoBlob      : option Blob;
  formPendingPhotoTransform : option Transform;
  inputName                 : string;
  inputDate                 : string;
  activeMode                : option string;
  getFormMessages           : list Message
}.

(** What [readFormValues] returns. *)
Record FormValues : Type := mkFormValues {
  valuesName      : string;
  valuesDate      : string;
  valuesMode      : string;
  valuesMessages  : list Message;
  valuesWallpaper : string
}.

(** [None] when the function alerts and returns [null]. *)
Definition readFormValues (f : Form) : option FormValues :=
  if negb (truthy (Some (inputName f))) then None
  else if negb (truthy (Some (inputDate f))) then None
  else Some (mkFormValues (inputName f) (inputDate f)
               (if truthy (activeMode f) then toStr (activeMode f) else "countdown")
               (getFormMessages f) (formWallpaperSelection f)).

(** [savePhoto(timerId, blob)], which puts the photo under the key
    [timerId].  [ok] tells whether the database opens and the request
    succeeds; when it does not the promise is rejected, which is [None],
    and the store stays as it is. *)
Definition savePhoto (ok : bool) (timerId : string) (blob : Blob)
    (store : list (string * Blob)) : option (list (string * Blob)) :=
  if ok
  then Some ((timerId, blob) :: filter (fun p => negb (String.eqb (fst p) timerId)) store)
  else None.

(** [deletePhoto(timerId)].  A database that does not open and a request
    that fails are caught and logged: the function returns all the same,
    and the store stays as it is. *)
Definition deletePhoto (ok : bool) (timerId : string) (store : list (string * Blob))
    : list (string * Blob) :=
  if ok
  then filter (fun p => negb (String.eqb (fst p) timerId)) store
  else store.

Definition hasPhoto (timerId : string) (store : list (string * Blob)) : bool :=
  existsb (fun p => String.eqb (fst p) timerId) store.

Definition orElse {A : Type} (a b : option A) : option A :=
  match a with
  | Some _ => a
  | None => b
  end.

(** The entry an edit writes over [existing]:
    [{ ...existing, ...values, photoTransform, messages }]. *)
Definition editedEntry (f : Form) (values : FormValues) (existing : TimerEntry)
    : TimerEntry :=
  mkTimerEntry
    (mkTimer (entryId existing) (valuesName values) (valuesDate values)
       (valuesMode values) (Some (valuesMessages values)))
    (Some (valuesWallpaper values))
    (if String.eqb (valuesWallpaper values) "photo"
     then orElse (formPendingPhotoTransform f) (photoTransform existing)
     else None).

Definition newTimer (f : Form) (values : FormValues) (newId : string) : TimerEntry :=
  mkTimerEntry
    (mkTimer newId (valuesName values) (valuesDate values) (valuesMode values)
       (Some (valuesMessages values)))
    (Some (valuesWallpaper values))
    (if String.eqb (valuesWallpaper values) "photo"
     then formPendingPhotoTransform f else None).

(** [appState.timers[index] = ...] at the first index whose timer has
    the id [tid]; nothing when [findIndex] gives -1. *)
Fixpoint replaceFirst (tid : string) (g : TimerEntry -> TimerEntry)
    (l : list TimerEntry) : list TimerEntry :=
  match l with
  | [] => []
  | e :: rest =>
      if String.eqb (entryId e) tid then g e :: rest
      else e :: replaceFirst tid g rest
  end.

(** [newId] is what [generateId()] returns; [saveOk] and [deleteOk] tell
    whether the request of [savePhoto] and that of [deletePhoto] succeed.
    The list of timers is changed before the photo is saved; when
    [savePhoto] is rejected the function ends there, with the list changed
    and nothing else: the cleanup and [openDetailScreen], which sets the
    active timer, are not reached. *)
Definition handleFormSubmit (f : Form) (newId : string) (saveOk deleteOk : bool)
    (st : AppState) : AppState :=
  match readFormValues f with
  | None => st
  | Some values =>
      let '(timers', savedId) :=
        if truthy (editingTimerId f) then
          (replaceFirst (toStr (editingTimerId f)) (editedEntry f values) (timers st),
           toStr (editingTimerId f))
        else
          ((timers st ++ [newTimer f values newId])%list, newId) in
      (* Save the pending photo if one was chosen *)
      let saved :=
        match formPendingPhotoBlob f with
        | Some blob =>
            if String.eqb (valuesWallpaper values) "photo"
            then savePhoto saveOk savedId blob (photos st)
            else Some (photos st)
        | None => Some (photos st)
        end in
      match saved with
      | None => mkAppState timers' (activeTimerId st) (photos st)
      | Some photos1 =>
          (* If the user switched away from photo, clean up *)
          let photos2 :=
            if negb (String.eqb (valuesWallpaper values) "photo")
            then deletePhoto deleteOk savedId photos1
            else photos1 in
          mkAppState timers' (Some savedId) photos2
      end
  end.

(** [confirmed] is the answer to the dialog, [deleteOk] tells whether the
    request of [deletePhoto] succeeds. *)
Definition deleteTimer (f : Form) (confirmed : bool) (deleteOk : bool) (st : AppState)
    : AppState :=
  if negb (truthy (editingTimerId f)) then st
  else if negb confirmed then st
  else
    mkAppState
      (filter (fun t => negb (String.eqb (entryId t) (toStr (editingTimerId f))))
         (timers st))
      (if strictEq (activeTimerId st) (toStr (editingTimerId f))
       then None else activeTimerId st)
      (deletePhoto deleteOk (toStr (editingTimerId f)) (photos st)).

(** Every stored photo belongs to a timer whose wallpaper is 'photo'. *)
Definition photosOwned (st : AppState) : bool :=
  forallb
    (fun p =>
       existsb
         (fun e => String.eqb (entryId e) (fst p) && strictEq (wallpaper e) "photo")
         (timers st))
    (photos st).

(** A timer has a photo transform only when its wallpaper is 'photo'. *)
Definition transformOnlyWithPhoto (st : AppState) : bool :=
  forallb
    (fun e =>
       strictEq (wallpaper e) "photo" ||
       match photoTransform e with Some _ => false | None => true end)
    (timers st).

(** Every timer has a name and a date. *)
Definition namedAndDated (st : AppState) : bool :=
  forallb
    (fun e => truthy (Some (name (entryTimer e))) && truthy (Some (date (entryTimer e))))
    (timers st).

(** The form edits a timer of the list, or none. *)
Definition editsListed (f : Form) (st : AppState) : bool :=
  negb (truthy (editingTimerId f)) ||
  existsb (fun e => String.eqb (entryId e) (toStr (editingTimerId f))) (timers st).

End Store.

Arguments mkTimerEntry {Transform}.
Arguments entryTimer {Transform}.
Arguments wallpaper {Transform}.
Arguments photoTransform {Transform}.
Arguments entryId {Transform}.
Arguments mkAppState {Transform Blob}.
Arguments timers {Transform Blob}.
Arguments activeTimerId {Transform Blob}.
Arguments photos {Transform Blob}.
Arguments mkForm {Transform Blob}.
Arguments editingTimerId {Transform Blob}.
Arguments formWallpaperSelection {Transform Blob}.
Arguments formPendingPhotoBlob {Transform Blob}.
Arguments formPendingPhotoTransform {Transform Blob}.
Arguments inputName {Transform Blob}.
Arguments inputDate {Transform Blob}.
Arguments activeMode {Transform Blob}.
Arguments getFormMessages {Transform Blob}.
Arguments readFormValues {Transform Blob}.
Arguments savePhoto {Blob}.
Arguments deletePhoto {Blob}.
Arguments hasPhoto {Blob}.
Arguments editedEntry {Transform Blob}.
Arguments newTimer {Transform Blob}.
Arguments replaceFirst {Transform}.
Arguments handleFormSubmit {Transform Blob}.
Arguments deleteTimer {Transform Blob}.
Arguments photosOwned {Transform Blob}.
Arguments transformOnlyWithPhoto {Transform Blob}.
Arguments namedAndDated {Transform Blob}.
Arguments editsListed {Transform Blob}.

(** A state of two timers, the first with a stored photo, and forms that
    edit the first timer and add a third; the photo and its transform are
    numbers here. *)
Definition exampleState : @AppState Z Z :=
  mkAppState
    [mkTimerEntry (mkTimer "a" "Trip" "2027-01-01" "countdown" (Some [])) (Some "photo") (Some 3);
     mkTimerEntry (mkTimer "b" "Job" "2020-05-04" "countup" (Some [])) (Some "aurora") None]
    (Some "b") [("a", 7)].

Definition exampleEditForm : @Form Z Z :=
  mkForm (Some "a") "aurora" None (Some 3) "Journey" "2027-02-01" (Some "countdown")
    [dateMessage "Soon" "2027-01-01"].

Definition exampleNewForm : @Form Z Z :=
  mkForm None "photo" (Some 9) (Some 4) "Move" "2026-06-01" None [].

(* ================================================================== *)
(** ** The same functions in a time zone *)
(* ================================================================== *)

(** The functions of the sections above take local time to be UTC and
    know the date strings of the date inputs only.  This module has the
    time zone and the rest of the parser as a parameter, the host, and
    follows ECMA-262 in converting between UTC and local time: a getter
    reads the local time [LocalTime(t)], a setter composes a local time
    and converts it back with [UTC].  The application functions that
    depend on the clock are repeated over a host, line by line as
    above. *)
Module Zoned.

(** What the program takes from its host.
    - [offsetAtUTC t] is [LocalTZA(t, true)], the offset of local time
      from UTC in force at the UTC time value [t].
    - [offsetAtLocal t] is [LocalTZA(t, false)], the offset by which the
      local time value [t] is read.
    - [parseOther s] is what the parser of the engine makes of a string
      that is not of one of the forms [YYYY-MM-DDTHH:mm:ss],
      [YYYY-MMTHH:mm:ss] and [YYYYTHH:mm:ss] with fields in their ranges:
      the other forms of the date-time format, and the strings outside it,
      which ECMA-262 leaves to the implementation.  [None] is an invalid
      [Date]. *)
Record Host : Type := mkHost {
  offsetAtUTC   : Z -> Z;
  offsetAtLocal : Z -> Z;
  parseOther    : string -> option Z
}.

Definition LocalTime (h : Host) (t : Z) : Z := t + offsetAtUTC h t.
Definition UTC (h : Host) (t : Z) : Z := t - offsetAtLocal h t.

(** *** The methods of [Date.prototype] the program calls *)

Definition getFullYear (h : Host) (t : Z) : Z := YearFromTime (LocalTime h t).
Definition getMonth (h : Host) (t : Z) : Z := MonthFromTime (LocalTime h t).
Definition getDate (h : Host) (t : Z) : Z := DateFromTime (LocalTime h t).

Definition setFullYear (h : Host) (t year : Z) : Z :=
  let t := LocalTime h t in
  UTC h (MakeDate (MakeDay year (MonthFromTime t) (DateFromTime t)) (TimeWithinDay t)).

Definition setMonth (h : Host) (t month : Z) : Z :=
  let t := LocalTime h t in
  UTC h (MakeDate (MakeDay (YearFromTime t) month (DateFromTime t)) (TimeWithinDay t)).

Definition setHours (h : Host) (t hour min sec ms : Z) : Z :=
  let t := LocalTime h t in
  UTC h (MakeDate (Day t) (MakeTime hour min sec ms)).

(** *** Parsing and formatting *)

(** The local time a string of the date-time format denotes.  The string
    has no offset and is therefore local time; month and day default to
    01.  The fields are checked as in [newDate] above, which reads the
    form with all three fields of the date. *)
Definition localDateTime (s : string) : option Z :=
  match newDate s with
  | Some t => Some t
  | None =>
      match s with
      | String y1 (String y2 (String y3 (String y4 (String s1
        (String m1 (String m2 (String sT
        (String h1 (String h2 (String s3 (String n1 (String n2 (String s4
        (String c1 (String c2 EmptyString))))))))))))))) =>
          _ <- guard (isChar s1 "-" && isChar sT "T"
                      && isChar s3 ":" && isChar s4 ":") ;;
          y <- digits4 y1 y2 y3 y4 ;;
          m <- digits2 m1 m2 ;;
          hh <- digits2 h1 h2 ;;
          n <- digits2 n1 n2 ;;
          c <- digits2 c1 c2 ;;
          _ <- guard ((1 <=? m) && (m <=? 12)) ;;
          _ <- guard ((hh <=? 23) && (n <=? 59) && (c <=? 59)
                      || (hh =? 24) && (n =? 0) && (c =? 0)) ;;
          Some (MakeDate (MakeDay y (m - 1) 1) (MakeTime hh n c 0))
      | String y1 (String y2 (String y3 (String y4 (String sT
        (String h1 (String h2 (String s3 (String n1 (String n2 (String s4
        (String c1 (String c2 EmptyString)))))))))))) =>
          _ <- guard (isChar sT "T" && isChar s3 ":" && isChar s4 ":") ;;
          y <- digits4 y1 y2 y3 y4 ;;
          hh <- digits2 h1 h2 ;;
          n <- digits2 n1 n2 ;;
          c <- digits2 c1 c2 ;;
          _ <- guard ((hh <=? 23) && (n <=? 59) && (c <=? 59)
                      || (hh =? 24) && (n =? 0) && (c =? 0)) ;;
          Some (MakeDate (MakeDay y 0 1) (MakeTime hh n c 0))
      | _ => None
      end
  end.

(** [new Date(s)]. *)
Definition newDate (h : Host) (s : string) : option Z :=
  match localDateTime s with
  | Some t => Some (UTC h t)
  | None => parseOther h s
  end.

Definition toLocaleDateString (h : Host) (d : option Z) : string :=
  match d with
  | None => "Invalid Date"
  | Some t =>
      String_of_Z (getDate h t) ++ " " ++ monthName (getMonth h t) ++ " "
        ++ String_of_Z (yearOfEra (getFullYear h t))
  end.

Definition formatDate (h : Host) (dateStr : string) : string :=
  let d := newDate h (dateStr ++ "T00:00:00") in
  toLocaleDateString h d.

(** *** 5. Time calculation helpers *)

Definition timerValuesBetween (h : Host) (fromDate toDate : Z) : TimerValues :=
  let isExpired := toDate <? fromDate in
  if isExpired then mkTimerValues 0 0 0 0 0 true
  else
    (* Years *)
    let years := getFullYear h toDate - getFullYear h fromDate in
    let afterYears := setFullYear h fromDate (getFullYear h fromDate + years) in
    let '(years, afterYears) :=
      if toDate <? afterYears
      then (years - 1, setFullYear h afterYears (getFullYear h afterYears - 1))
      else (years, afterYears) in
    (* Months after years *)
    let months := (getFullYear h toDate - getFullYear h afterYears) * 12
                  + (getMonth h toDate - getMonth h afterYears) in
    let months := if getDate h toDate <? getDate h afterYears then months - 1 else months in
    let months := if months <? 0 then 0 else months in
    let afterMonths := setMonth h afterYears (getMonth h afterYears + months) in
    (* Weeks and days after months *)
    let remainingMs := toDate - afterMonths in
    let remainingDays := Math_floor_div remainingMs msPerDay in
    let weeks := Math_floor_div remainingDays 7 in
    let days := js_rem remainingDays 7 in
    let totalDays := Math_floor_div (toDate - fromDate) msPerDay in
    mkTimerValues years months weeks days totalDays isExpired.

Definition getTimerValues (h : Host) (now : Z) (timer : Timer) : option TimerValues :=
  target <- newDate h (date timer ++ "T00:00:00") ;;
  let fromDate := fromDateOf timer target now in
  let toDate := toDateOf timer target now in
  Some (timerValuesBetween h fromDate toDate).

(** *** 11. Messages *)

Definition messageStep (h : Host) (today : Z) (st : BestState) (msg : Message)
    : BestState :=
  if negb (truthy (text msg)) then st
  else if strictEq (triggerType msg) "date" && truthy (triggerDate msg) then
    (* Date trigger *)
    let triggerDay := newDate h (toStr (triggerDate msg) ++ "T00:00:00") in
    let daysUntil :=
      match triggerDay with
      | Some t => Some (Math_round_div (t - today) msPerDay)
      | None => None
      end in
    let triggerLabel := "📅 " ++ formatDate h (toStr (triggerDate msg)) in
    match daysUntil with
    | Some du =>
        let inWindow := du <=? 0 in
        if inWindow && ltInf du (snd st)
        then (Some (mkActiveMessage (toStr (text msg)) du triggerLabel), Some du)
        else st
    | None => st
    end
  else st.

Definition getActiveMessage (h : Host) (now : Z) (timer : Timer) (totalDays : Z)
    : option ActiveMessage :=
  let messages := match messages timer with Some l => l | None => [] end in
  match messages with
  | [] => None
  | _ =>
      let today := setHours h now 0 0 0 0 in
      fst (fold_left (messageStep h today) messages (None, None))
  end.

(** The days a message has until its trigger date, when the message is
    one the loop considers at all and its date has arrived. *)
Definition activeDaysUntil (h : Host) (today : Z) (msg : Message) : option Z :=
  _ <- guard (truthy (text msg)) ;;
  _ <- guard (strictEq (triggerType msg) "date") ;;
  _ <- guard (truthy (triggerDate msg)) ;;
  t <- newDate h (toStr (triggerDate msg) ++ "T00:00:00") ;;
  let du := Math_round_div (t - today) msPerDay in
  _ <- guard (du <=? 0) ;;
  Some du.

(** *** Hosts *)

(** The offset of local time never changes and is [c]. *)
Definition fixedOffset (h : Host) (c : Z) : Prop :=
  (forall t, offsetAtUTC h t = c) /\ (forall t, offsetAtLocal h t = c).

(** A host in a zone of the fixed offset [c] whose parser knows the
    date-time format only. *)
Definition fixedHost (c : Z) : Host :=
  mkHost (fun _ => c) (fun _ => c) (fun _ => None).

(** The day number of the last Sunday of the month [m] (0 = January), a
    month of [n] days, of the year [y]; the day 0 was a Thursday. *)
Definition lastSunday (y m n : Z) : Z :=
  let d := MakeDay y m n in
  d - (d + 4) mod 7.

(** Summer time by the rule of the European Union, applied to every
    year: from 01:00 UTC of the last Sunday of March to 01:00 UTC of the
    last Sunday of October. *)
Definition summerTimeStart (y : Z) : Z :=
  MakeDate (lastSunday y 2 31) (MakeTime 1 0 0 0).

Definition summerTimeEnd (y : Z) : Z :=
  MakeDate (lastSunday y 9 31) (MakeTime 1 0 0 0).

(** A host in the zone Europe/London whose parser knows the date-time
    format only.  A local time the clocks skip in March is read with the
    offset before the change, and a local time they repeat in October is
    the earlier of the two, as ECMA-262 has it. *)
Definition londonHost : Host :=
  mkHost
    (fun t =>
       let y := YearFromTime t in
       if (summerTimeStart y <=? t) && (t <? summerTimeEnd y)
       then msPerHour else 0)
    (fun t =>
       let y := YearFromTime t in
       if (summerTimeStart y + msPerHour <=? t) && (t <? summerTimeEnd y + msPerHour)
       then msPerHour else 0)
    (fun _ => None).

End Zoned.

(* ================================================================== *)
(** ** Facts about the time functions *)
(* ================================================================== *)

Module JSDateFacts.

Lemma Day_MakeDate (d tod : Z) :
  0 <= tod < msPerDay -> Day (MakeDate d tod) = d.
Proof.
  intros H. unfold Day, MakeDate, msPerDay in *.
  rewrite Z.add_comm, Z.div_add by lia.
  rewrite Z.div_small by lia. lia.
Qed.

Lemma TimeWithinDay_MakeDate (d tod : Z) :
  0 <= tod < msPerDay -> TimeWithinDay (MakeDate d tod) = tod.
Proof.
  intros H. unfold TimeWithinDay, MakeDate, msPerDay in *.
  rewrite Z.add_comm, Z.mod_add by lia.
  apply Z.mod_small; lia.
Qed.

Lemma MakeDate_Day (t : Z) : MakeDate (Day t) (TimeWithinDay t) = t.
Proof.
  unfold MakeDate, Day, TimeWithinDay, msPerDay.
  pose proof (Z.div_mod t 86400000). lia.
Qed.

Lemma TimeWithinDay_range (t : Z) : 0 <= TimeWithinDay t < msPerDay.
Proof. unfold TimeWithinDay, msPerDay. apply Z.mod_pos_bound. lia. Qed.

Lemma DayFromYear_succ (y : Z) : DayFromYear (y + 1) = DayFromYear y + DaysInYear y.
Proof.
  unfold DayFromYear, DaysInYear.
  repeat match goal with
         | |- context [?a =? ?b] => destruct (Z.eqb_spec a b); simpl negb; cbv iota
         end;
  Z.div_mod_to_equations; lia.
Qed.

Lemma DaysInYear_cases (y : Z) : DaysInYear y = 365 \/ DaysInYear y = 366.
Proof.
  unfold DaysInYear.
  repeat match goal with
         | |- context [?a =? ?b] => destruct (Z.eqb_spec a b); simpl negb; cbv iota
         end; auto.
Qed.

Lemma DayFromYear_lt (y : Z) : DayFromYear y < DayFromYear (y + 1).
Proof. rewrite DayFromYear_succ. destruct (DaysInYear_cases y); lia. Qed.

Lemma DayFromYear_mono (y z : Z) : y <= z -> DayFromYear y <= DayFromYear z.
Proof.
  intros H. unfold DayFromYear. Z.div_mod_to_equations. lia.
Qed.

(** [YearFromDay] meets the definition of ECMA-262: it is the year whose
    first day is the last one not after [d]. *)
Lemma YearFromDay_spec (d : Z) :
  DayFromYear (YearFromDay d) <= d < DayFromYear (YearFromDay d + 1).
Proof.
  unfold YearFromDay, DayFromYear.
  repeat match goal with
         | |- context [?a <=? ?b] => destruct (Z.leb_spec a b)
         end;
  Z.div_mod_to_equations; lia.
Qed.

Lemma YearFromDay_unique (d y : Z) :
  DayFromYear y <= d < DayFromYear (y + 1) -> YearFromDay d = y.
Proof.
  intros H. pose proof (YearFromDay_spec d) as S.
  destruct (Z.lt_trichotomy (YearFromDay d) y) as [L | [E | G]]; auto.
  - pose proof (DayFromYear_mono (YearFromDay d + 1) y ltac:(lia)). lia.
  - pose proof (DayFromYear_mono (y + 1) (YearFromDay d) ltac:(lia)). lia.
Qed.

Lemma YearFromDay_mono (d e : Z) : d <= e -> YearFromDay d <= YearFromDay e.
Proof.
  intros H. pose proof (YearFromDay_spec d). pose proof (YearFromDay_spec e).
  destruct (Z_le_gt_dec (YearFromDay d) (YearFromDay e)); auto.
  pose proof (DayFromYear_mono (YearFromDay e + 1) (YearFromDay d) ltac:(lia)). lia.
Qed.

Lemma Day_mono (s t : Z) : s <= t -> Day s <= Day t.
Proof. intros H. unfold Day, msPerDay. apply Z.div_le_mono; lia. Qed.

Lemma DayWithinYear_range (t : Z) :
  0 <= DayWithinYear t < DaysInYear (YearFromTime t).
Proof.
  unfold DayWithinYear, YearFromTime.
  pose proof (YearFromDay_spec (Day t)) as S.
  rewrite DayFromYear_succ in S. lia.
Qed.

Lemma MonthOfYearDay_range (dwy leap : Z) : 0 <= MonthOfYearDay dwy leap <= 11.
Proof.
  unfold MonthOfYearDay.
  repeat match goal with
         | |- context [?a <? ?b] => destruct (a <? b)
         end; lia.
Qed.

Lemma MonthFromTime_range (t : Z) : 0 <= MonthFromTime t <= 11.
Proof. apply MonthOfYearDay_range. Qed.

(** A day of the month is between 1 and 31. *)
Lemma DateFromTime_range (t : Z) : 1 <= DateFromTime t <= 31.
Proof.
  unfold DateFromTime, MonthFromTime, InLeapYear, InLeapYearOf.
  pose proof (DayWithinYear_range t) as R. revert R.
  generalize (DayWithinYear t) as w. intros w.
  destruct (DaysInYear_cases (YearFromTime t)) as [E | E]; rewrite E;
    simpl Z.eqb; cbv iota; intros R; unfold MonthOfYearDay;
    repeat match goal with
           | |- context [?a <? ?b] => destruct (Z.ltb_spec a b)
           end;
    match goal with
    | |- context [MonthStart ?m ?l] =>
        let v := eval vm_compute in (MonthStart m l) in
        change (MonthStart m l) with v
    end; lia.
Qed.

(** Reassembling the components of a time value gives its day back. *)
Lemma MakeDay_components (t : Z) :
  MakeDay (YearFromTime t) (MonthFromTime t) (DateFromTime t) = Day t.
Proof.
  pose proof (MonthFromTime_range t) as R.
  unfold MakeDay.
  rewrite Z.div_small, Z.mod_small, Z.add_0_r by lia.
  unfold DateFromTime, InLeapYear, DayWithinYear. lia.
Qed.

Lemma setFullYear_same (t : Z) : setFullYear t (getFullYear t) = t.
Proof.
  unfold setFullYear, getFullYear. rewrite MakeDay_components. apply MakeDate_Day.
Qed.

Lemma setMonth_same (t : Z) : setMonth t (getMonth t) = t.
Proof.
  unfold setMonth, getMonth. rewrite MakeDay_components. apply MakeDate_Day.
Qed.

(** The calendar components of a time value depend on its day only. *)
Lemma getFullYear_Day (s t : Z) : Day s = Day t -> getFullYear s = getFullYear t.
Proof. unfold getFullYear, YearFromTime. now intros ->. Qed.

Lemma getMonth_Day (s t : Z) : Day s = Day t -> getMonth s = getMonth t.
Proof.
  unfold getMonth, MonthFromTime, DayWithinYear, InLeapYear, YearFromTime.
  now intros ->.
Qed.

Lemma getDate_Day (s t : Z) : Day s = Day t -> getDate s = getDate t.
Proof.
  unfold getDate, DateFromTime, MonthFromTime, DayWithinYear, InLeapYear,
    YearFromTime.
  now intros ->.
Qed.

(** Two time values with the same calendar date lie on the same day. *)
Lemma same_date_same_Day (s t : Z) :
  getFullYear s = getFullYear t -> getMonth s = getMonth t ->
  getDate s = getDate t -> Day s = Day t.
Proof.
  unfold getFullYear, getMonth, getDate. intros Y M D.
  rewrite <- (MakeDay_components s), <- (MakeDay_components t).
  now rewrite Y, M, D.
Qed.

(** *** The model on known values *)

Example newDate_epoch : newDate "1970-01-01T00:00:00" = Some 0.
Proof. reflexivity. Qed.

Example newDate_leap_day : newDate "2024-02-29T00:00:00" = Some 1709164800000.
Proof. reflexivity. Qed.

Example newDate_not_a_date : newDate "tomorrowT00:00:00" = None.
Proof. reflexivity. Qed.

Example getDate_before_epoch :
  (getFullYear (-1), getMonth (-1), getDate (-1)) = (1969, 11, 31).
Proof. reflexivity. Qed.

(** A day of the month that the new month does not have runs on into the
    month after. *)
Example setMonth_overflow :
  setMonth (MakeDate (MakeDay 2023 0 31) 0) 1 = MakeDate (MakeDay 2023 2 3) 0.
Proof. reflexivity. Qed.

Example setFullYear_leap_day :
  setFullYear (MakeDate (MakeDay 2024 1 29) 0) 2025 = MakeDate (MakeDay 2025 2 1) 0.
Proof. reflexivity. Qed.

End JSDateFacts.

Import JSDateFacts.

Example formatDate_example : formatDate "2024-01-10" = "10 January 2024".
Proof. reflexivity. Qed.

Example formatDate_invalid : formatDate "10/01/2024" = "Invalid Date".
Proof. reflexivity. Qed.

Example formatDate_year_zero : formatDate "0000-01-01" = "1 January 1".
Proof. reflexivity. Qed.

Example Math_round_half_up :
  Math_round_div 43200000 msPerDay = 1 /\ Math_round_div (-43200000) msPerDay = 0.
Proof. split; reflexivity. Qed.

Example js_rem_sign : js_rem (-2) 7 = -2 /\ Math_floor_div (-2) 7 = -1.
Proof. split; reflexivity. Qed.

(* ================================================================== *)
(** ** The code against the vocabulary of the specification *)
(* ================================================================== *)

Lemma timerValuesBetween_expired (fromDate toDate : Z) :
  toDate < fromDate ->
  timerValuesBetween fromDate toDate = mkTimerValues 0 0 0 0 0 true.
Proof.
  intros H. unfold timerValuesBetween.
  destruct (Z.ltb_spec toDate fromDate); [reflexivity | lia].
Qed.

Lemma months_code_spec (a b : Z) :
  (if (if getDate b <? getDate a
       then (getFullYear b - getFullYear a) * 12 + (getMonth b - getMonth a) - 1
       else (getFullYear b - getFullYear a) * 12 + (getMonth b - getMonth a)) <? 0
   then 0
   else if getDate b <? getDate a
        then (getFullYear b - getFullYear a) * 12 + (getMonth b - getMonth a) - 1
        else (getFullYear b - getFullYear a) * 12 + (getMonth b - getMonth a))
  = wholeMonthsBetween a b.
Proof.
  unfold wholeMonthsBetween. cbv zeta.
  destruct (getDate b <? getDate a);
    match goal with |- context [?m <? 0] => destruct (Z.ltb_spec m 0) end; lia.
Qed.

(** The base decomposition of [getTimerValues], step by step in the words
    of the specification. *)
Lemma timerValuesBetween_live (fromDate toDate : Z) :
  fromDate <= toDate ->
  timerValuesBetween fromDate toDate =
    let afterYears := afterYearsOf fromDate toDate in
    let months := wholeMonthsBetween afterYears toDate in
    let remaining := wholeDaysBetween (addMonths afterYears months) toDate in
    mkTimerValues (wholeYearsBetween fromDate toDate) months
      (remaining / 7) (Z.rem remaining 7)
      (wholeDaysBetween fromDate toDate) false.
Proof.
  intros H. unfold timerValuesBetween.
  destruct (Z.ltb_spec toDate fromDate) as [L | _]; [lia |].
  unfold wholeYearsBetween, afterYearsOf, addYears. cbv zeta.
  destruct (toDate <? setFullYear fromDate
              (getFullYear fromDate + (getFullYear toDate - getFullYear fromDate)));
    cbv beta iota zeta;
    match goal with
    | |- context [getDate toDate <? getDate ?ay] =>
        rewrite (months_code_spec ay toDate)
    end;
    unfold Math_floor_div, js_rem, wholeDaysBetween, addMonths; f_equal.
Qed.

(** The months position of the slider in the same words. *)
Lemma sliderMonthsBetween_spec (fromDate toDate : Z) :
  sliderMonthsBetween fromDate toDate =
    let months := wholeMonthsBetween fromDate toDate in
    let remaining := wholeDaysBetween (addMonths fromDate months) toDate in
    mkSliderValues 0 months (remaining / 7) (Z.rem remaining 7).
Proof.
  unfold sliderMonthsBetween. cbv zeta.
  rewrite (months_code_spec fromDate toDate).
  unfold Math_floor_div, js_rem, wholeDaysBetween, addMonths. f_equal.
Qed.

(** *** The anchor of a timer is a local midnight *)

Lemma Some_inj {A : Type} (a b : A) : Some a = Some b -> a = b.
Proof. congruence. Qed.

Lemma length_append (s1 s2 : string) :
  String.length (s1 ++ s2) = (String.length s1 + String.length s2)%nat.
Proof. induction s1 as [| c s1 IH]; cbn; [reflexivity | now rewrite IH]. Qed.

Lemma newDate_length (s : string) (t : Z) :
  newDate s = Some t -> String.length s = 19%nat.
Proof.
  intros H.
  do 19 (destruct s as [| ? s]; [discriminate H |]).
  destruct s; [reflexivity | discriminate H].
Qed.

Ltac invert_bind H :=
  repeat match type of H with
         | bind ?x _ = Some _ =>
             let E := fresh "E" in
             destruct x eqn:E; cbn [bind] in H; [| discriminate H]
         end.

Lemma newDate_midnight (s : string) (t : Z) :
  newDate (s ++ "T00:00:00") = Some t -> TimeWithinDay t = 0.
Proof.
  intros H. pose proof (newDate_length _ _ H) as L.
  rewrite length_append in L. cbn [String.length] in L.
  do 10 (destruct s as [| ? s]; [discriminate L |]).
  destruct s; [| cbn [String.length] in L; lia].
  cbn [String.append] in H. unfold newDate in H.
  invert_bind H.
  injection H as <-.
  change (digits2 "0" "0") with (Some 0) in *.
  repeat match goal with
         | E : Some _ = Some _ |- _ => injection E as <-
         end.
  apply TimeWithinDay_MakeDate. unfold msPerDay. cbn. lia.
Qed.

Lemma midnight_MakeDate (t : Z) : TimeWithinDay t = 0 -> t = MakeDate (Day t) 0.
Proof. intros H. rewrite <- H. symmetry. apply MakeDate_Day. Qed.

(* ================================================================== *)
(** ** The loop of the message resolver *)
(* ================================================================== *)

(** One iteration either leaves the state alone or, for an active message
    with fewer days than the best so far, replaces it. *)
Lemma messageStep_spec (today : Z) (st : BestState) (msg : Message) :
  messageStep today st msg =
    match activeDaysUntil today msg with
    | Some du => if ltInf du (snd st) then (Some (resultOf msg du), Some du) else st
    | None => st
    end.
Proof.
  unfold messageStep, activeDaysUntil, resultOf.
  destruct (truthy (text msg)); cbn [negb bind guard]; [| reflexivity].
  destruct (strictEq (triggerType msg) "date"); cbn [andb bind guard]; [| reflexivity].
  destruct (truthy (triggerDate msg)); cbn [bind guard]; [| reflexivity].
  destruct (newDate (toStr (triggerDate msg) ++ "T00:00:00")) as [t |];
    cbn [bind]; [| reflexivity].
  destruct (Math_round_div (t - today) msPerDay <=? 0); cbn [andb bind guard];
    reflexivity.
Qed.

Lemma activeDaysUntil_inv (today : Z) (msg : Message) (du : Z) :
  activeDaysUntil today msg = Some du <->
  truthy (text msg) = true /\
  strictEq (triggerType msg) "date" = true /\
  truthy (triggerDate msg) = true /\
  exists t, newDate (toStr (triggerDate msg) ++ "T00:00:00") = Some t /\
            du = Math_round_div (t - today) msPerDay /\ du <= 0.
Proof.
  unfold activeDaysUntil.
  destruct (truthy (text msg)); cbn [bind guard];
    [| split; [discriminate | intros [? _]; discriminate]].
  destruct (strictEq (triggerType msg) "date"); cbn [bind guard];
    [| split; [discriminate | intros (_ & ? & _); discriminate]].
  destruct (truthy (triggerDate msg)); cbn [bind guard];
    [| split; [discriminate | intros (_ & _ & ? & _); discriminate]].
  destruct (newDate (toStr (triggerDate msg) ++ "T00:00:00")) as [t |];
    cbn [bind];
    [| split; [discriminate | intros (_ & _ & _ & t & ? & _); discriminate]].
  destruct (Z.leb_spec (Math_round_div (t - today) msPerDay) 0) as [L | G];
    cbn [bind guard].
  - split.
    + intros [= <-]. repeat split; auto. exists t. auto.
    + intros (_ & _ & _ & t' & [= <-] & -> & _). reflexivity.
  - split; [discriminate |].
    intros (_ & _ & _ & t' & [= <-] & -> & K). lia.
Qed.

Lemma getActiveMessage_loop (now : Z) (timer : Timer) (totalDays : Z) :
  getActiveMessage now timer totalDays =
    fst (fold_left (messageStep (setHours now 0 0 0 0)) (messagesOf timer) (None, None)).
Proof.
  unfold getActiveMessage, messagesOf.
  destruct (messages timer) as [[| m l] |]; reflexivity.
Qed.

Lemma nth_error_snoc {A : Type} (l : list A) (x : A) (j : nat) (y : A) :
  nth_error (l ++ [x]) j = Some y ->
  nth_error l j = Some y /\ (j < List.length l)%nat \/ j = List.length l /\ y = x.
Proof.
  intros H. destruct (Nat.lt_ge_cases j (List.length l)) as [L | G].
  - rewrite nth_error_app1 in H by assumption. auto.
  - rewrite nth_error_app2 in H by assumption.
    destruct (j - List.length l)%nat as [| k] eqn:E; cbn in H.
    + injection H as <-. right. split; [lia | reflexivity].
    + destruct k; discriminate H.
Qed.

Lemma loop_selected (today : Z) (msgs : list Message) :
  Selected today msgs (fold_left (messageStep today) msgs (None, None)).
Proof.
  induction msgs as [| x l IH] using rev_ind.
  - cbn. split; [reflexivity | intros m []].
  - rewrite fold_left_app. cbn [fold_left].
    rewrite messageStep_spec.
    destruct (fold_left (messageStep today) l (None, None)) as [best bestDays].
    unfold Selected in *. cbn [fst snd] in *.
    destruct (activeDaysUntil today x) as [dx |] eqn:Ex.
    + destruct best as [r |].
      * destruct IH as (i & m & du & Hi & Hm & Hr & Hs & Hmin).
        subst bestDays. cbn [ltInf].
        destruct (Z.ltb_spec dx du) as [L | G]; cbn [fst snd].
        -- exists (List.length l), x, dx. repeat split; auto.
           ++ rewrite nth_error_app2, Nat.sub_diag by lia. reflexivity.
           ++ apply nth_error_snoc in H as [[Hj _] | [_ ->]].
              ** destruct (Hmin _ _ _ Hj H0). lia.
              ** rewrite Ex in H0. injection H0 as <-. lia.
           ++ intros Hlt. apply nth_error_snoc in H as [[Hj _] | [-> _]]; [| lia].
              destruct (Hmin _ _ _ Hj H0). lia.
        -- exists i, m, du. repeat split; auto.
           ++ rewrite nth_error_app1; [assumption |].
              apply nth_error_Some. rewrite Hi. discriminate.
           ++ apply nth_error_snoc in H as [[Hj _] | [_ ->]].
              ** destruct (Hmin _ _ _ Hj H0). lia.
              ** rewrite Ex in H0. injection H0 as <-. lia.
           ++ intros Hlt. apply nth_error_snoc in H as [[Hj _] | [-> _]].
              ** destruct (Hmin _ _ _ Hj H0) as [_ K]. auto.
              ** assert (i < List.length l)%nat.
                 { apply nth_error_Some. rewrite Hi. discriminate. }
                 lia.
      * destruct IH as [-> Hnone]. cbn [ltInf fst snd].
        exists (List.length l), x, dx. repeat split; auto.
        -- rewrite nth_error_app2, Nat.sub_diag by lia. reflexivity.
        -- apply nth_error_snoc in H as [[Hj _] | [_ ->]].
           ++ apply nth_error_In in Hj. rewrite (Hnone _ Hj) in H0. discriminate.
           ++ rewrite Ex in H0. injection H0 as <-. lia.
        -- intros Hlt. apply nth_error_snoc in H as [[Hj _] | [-> _]]; [| lia].
           apply nth_error_In in Hj. rewrite (Hnone _ Hj) in H0. discriminate.
    + destruct best as [r |].
      * destruct IH as (i & m & du & Hi & Hm & Hr & Hs & Hmin).
        exists i, m, du. repeat split; auto.
        -- rewrite nth_error_app1; [assumption |].
           apply nth_error_Some. rewrite Hi. discriminate.
        -- apply nth_error_snoc in H as [[Hj _] | [_ ->]].
           ++ destruct (Hmin _ _ _ Hj H0). lia.
           ++ rewrite Ex in H0. discriminate.
        -- intros Hlt. apply nth_error_snoc in H as [[Hj _] | [_ ->]].
           ++ destruct (Hmin _ _ _ Hj H0) as [_ K]. auto.
           ++ rewrite Ex in H0. discriminate.
      * destruct IH as [Hs Hnone]. split; [assumption |].
        intros m [Hin | [<- | []]] %in_app_or; auto.
Qed.

(* ================================================================== *)
(** ** The message resolver: which message is returned *)
(* ================================================================== *)

(** The resolver returns the first of the active messages with the least
    number of days, and nothing when no message is active. *)
Lemma getActiveMessage_selected (now : Z) (timer : Timer) (totalDays : Z) :
  Selected (setHours now 0 0 0 0) (messagesOf timer)
    (fold_left (messageStep (setHours now 0 0 0 0)) (messagesOf timer) (None, None))
  /\ getActiveMessage now timer totalDays =
      fst (fold_left (messageStep (setHours now 0 0 0 0)) (messagesOf timer) (None, None)).
Proof. split; [apply loop_selected | apply getActiveMessage_loop]. Qed.

Lemma getActiveMessage_None (now : Z) (timer : Timer) (totalDays : Z) :
  getActiveMessage now timer totalDays = None <->
  forall m, In m (messagesOf timer) ->
            activeDaysUntil (setHours now 0 0 0 0) m = None.
Proof.
  destruct (getActiveMessage_selected now timer totalDays) as [S E].
  rewrite E. unfold Selected in S.
  match goal with
  | |- context [fst ?x] => destruct x as [[r |] bestDays]
  end; cbn [fst snd] in *.
  - destruct S as (i & m & du & Hi & Hm & _). split; [discriminate |].
    intros H. apply nth_error_In in Hi. rewrite (H _ Hi) in Hm. discriminate.
  - destruct S as [_ H]. split; auto.
Qed.

Lemma getActiveMessage_Some (now : Z) (timer : Timer) (totalDays : Z)
    (r : ActiveMessage) :
  getActiveMessage now timer totalDays = Some r ->
  exists (i : nat) (m : Message),
    nth_error (messagesOf timer) i = Some m /\
    activeDaysUntil (setHours now 0 0 0 0) m = Some (daysUntil r) /\
    r = resultOf m (daysUntil r) /\
    forall (j : nat) (m' : Message) (du' : Z),
      nth_error (messagesOf timer) j = Some m' ->
      activeDaysUntil (setHours now 0 0 0 0) m' = Some du' ->
      daysUntil r <= du' /\ ((j < i)%nat -> daysUntil r < du').
Proof.
  destruct (getActiveMessage_selected now timer totalDays) as [S E].
  rewrite E. unfold Selected in S. intros H. rewrite H in S.
  destruct S as (i & m & du & Hi & Hm & Hr & _ & Hmin).
  assert (daysUntil r = du) as -> by (rewrite Hr; reflexivity).
  exists i, m. auto.
Qed.

(** What the loop does select.  Whenever some message is active the
    resolver returns a message, the returned message is one of the active
    messages of the timer, and no active message has fewer days until its
    trigger date: the message that was triggered longest ago is returned. *)
Lemma getActiveMessage_returns_least (now : Z) (timer : Timer) (totalDays : Z)
    (m : Message) (du : Z) :
  In m (messagesOf timer) ->
  activeDaysUntil (setHours now 0 0 0 0) m = Some du ->
  exists r m',
    getActiveMessage now timer totalDays = Some r /\
    In m' (messagesOf timer) /\
    activeDaysUntil (setHours now 0 0 0 0) m' = Some (daysUntil r) /\
    r = resultOf m' (daysUntil r) /\
    daysUntil r <= du /\ daysUntil r <= 0.
Proof.
  intros Hin Hm.
  destruct (getActiveMessage now timer totalDays) as [r |] eqn:E.
  - destruct (getActiveMessage_Some _ _ _ _ E) as (i & m' & Hi & Hm' & Hr & Hmin).
    destruct (In_nth_error _ _ Hin) as [j Hj].
    exists r, m'. repeat split; auto.
    + eapply nth_error_In; eauto.
    + destruct (Hmin _ _ _ Hj Hm). assumption.
    + apply activeDaysUntil_inv in Hm' as (_ & _ & _ & t & _ & _ & K). exact K.
  - rewrite getActiveMessage_None in E. rewrite (E _ Hin) in Hm. discriminate.
Qed.

(** For the messages A of 2024-01-01 and B of 2024-01-10 on 2024-01-15 the
    resolver returns a message with at most -5 days. *)
Example getActiveMessage_returns_least_example :
  exists r m',
    getActiveMessage (instant 2024 1 15 9 30)
      (timerOn "2023-12-25" "countup"
         [dateMessage "A" "2024-01-01"; dateMessage "B" "2024-01-10"]) 21 = Some r /\
    In m' [dateMessage "A" "2024-01-01"; dateMessage "B" "2024-01-10"] /\
    activeDaysUntil (setHours (instant 2024 1 15 9 30) 0 0 0 0) m' = Some (daysUntil r) /\
    r = resultOf m' (daysUntil r) /\
    daysUntil r <= -5 /\ daysUntil r <= 0.
Proof.
  apply (getActiveMessage_returns_least (instant 2024 1 15 9 30)
           (timerOn "2023-12-25" "countup"
              [dateMessage "A" "2024-01-01"; dateMessage "B" "2024-01-10"]) 21
           (dateMessage "B" "2024-01-10") (-5)).
  - cbn. auto.
  - vm_compute. reflexivity.
Qed.

(** C1 at the failing input.  Given the messages A of 2024-01-01 and B of
    2024-01-10, on 2024-01-15 both are active, B with -5 days and A with
    -14; the resolver returns A, the message with the smallest number of
    days, so it does not return the active message with the largest. *)
Theorem getActiveMessage_not_largest :
  getActiveMessage (instant 2024 1 15 9 30)
    (timerOn "2023-12-25" "countup"
       [dateMessage "A" "2024-01-01"; dateMessage "B" "2024-01-10"]) 21
  = Some (mkActiveMessage "A" (-14) "📅 1 January 2024")
  /\ ~ ReturnsLargest (instant 2024 1 15 9 30)
        (timerOn "2023-12-25" "countup"
           [dateMessage "A" "2024-01-01"; dateMessage "B" "2024-01-10"]) 21.
Proof.
  split; [vm_compute; reflexivity |].
  intros H.
  destruct (H (dateMessage "B" "2024-01-10") (-5)) as (r & Hr & Hle).
  - cbn. auto.
  - vm_compute. reflexivity.
  - assert (E : getActiveMessage (instant 2024 1 15 9 30)
                  (timerOn "2023-12-25" "countup"
                     [dateMessage "A" "2024-01-01"; dateMessage "B" "2024-01-10"]) 21
                = Some (mkActiveMessage "A" (-14) "📅 1 January 2024"))
      by (vm_compute; reflexivity).
    rewrite E in Hr. injection Hr as <-. cbn in Hle. lia.
Qed.

(* ================================================================== *)
(** ** The message resolver: which messages are skipped *)
(* ================================================================== *)

Lemma messageStep_skip (today : Z) (st : BestState) (msg : Message) :
  activeDaysUntil today msg = None -> messageStep today st msg = st.
Proof. intros H. rewrite messageStep_spec, H. reflexivity. Qed.

Lemma fold_messageStep_filter (today : Z) (keep : Message -> bool)
    (l : list Message) (st : BestState) :
  (forall m, keep m = false -> activeDaysUntil today m = None) ->
  fold_left (messageStep today) (filter keep l) st =
  fold_left (messageStep today) l st.
Proof.
  intros K. revert st.
  induction l as [| x l IH]; intros st; cbn [filter fold_left]; [reflexivity |].
  destruct (keep x) eqn:E; cbn [fold_left].
  - apply IH.
  - rewrite (messageStep_skip today st x (K x E)). apply IH.
Qed.

(** Two local midnights differ by a whole number of days, so the rounding
    of [Math.round] never comes into play. *)
Lemma Math_round_div_midnights (t today : Z) :
  TimeWithinDay t = 0 -> TimeWithinDay today = 0 ->
  Math_round_div (t - today) msPerDay = Day t - Day today.
Proof.
  intros Ht Hy. rewrite (midnight_MakeDate t Ht) at 1.
  rewrite (midnight_MakeDate today Hy) at 1.
  unfold Math_round_div, MakeDate, msPerDay.
  generalize (Day t) (Day today). intros a b.
  Z.div_mod_to_equations. lia.
Qed.

Lemma TimeWithinDay_setHours0 (now : Z) : TimeWithinDay (setHours now 0 0 0 0) = 0.
Proof.
  unfold setHours. apply TimeWithinDay_MakeDate. unfold msPerDay. cbn. lia.
Qed.

Lemma Day_setHours0 (now : Z) : Day (setHours now 0 0 0 0) = Day now.
Proof.
  unfold setHours. apply Day_MakeDate. unfold msPerDay. cbn. lia.
Qed.

(** C8, as stated, fails: a message with a text and a trigger date of
    2024-01-01 that parses, but without the trigger type 'date', is active
    on 2024-01-15 by its text and date, and yet the resolver returns
    none. *)
Lemma getActiveMessage_none_with_dated_message :
  getActiveMessage (instant 2024 1 15 9 30)
    (timerOn "2024-01-01" "countup"
       [mkMessage (Some "A") None (Some "2024-01-01")]) 14 = None
  /\ interfaceDaysUntil (setHours (instant 2024 1 15 9 30) 0 0 0 0)
       (mkMessage (Some "A") None (Some "2024-01-01")) = Some (-14)
  /\ ~ NoneIffNoInterfaceActive (instant 2024 1 15 9 30)
         (timerOn "2024-01-01" "countup"
            [mkMessage (Some "A") None (Some "2024-01-01")]) 14.
Proof.
  split; [vm_compute; reflexivity |].
  split; [vm_compute; reflexivity |].
  intros [H _].
  specialize (H ltac:(vm_compute; reflexivity)
                (mkMessage (Some "A") None (Some "2024-01-01"))
                ltac:(cbn; auto)).
  vm_compute in H. discriminate H.
Qed.

(** C10.  A message whose trigger type is not 'date' leaves the state of
    the loop as it is, and the resolver returns the same with or without
    such messages in the list: such a message is never selected.  A timer
    whose only message has a text and a trigger date that has arrived but
    no trigger type shows no message. *)
Theorem getActiveMessage_date_trigger_only (now : Z) (timer : Timer) (totalDays : Z) :
  (forall (today : Z) (msg : Message) (st : BestState),
      isDateMessage msg = false -> messageStep today st msg = st)
  /\ getActiveMessage now timer totalDays =
     getActiveMessage now
       (withMessages timer (filter isDateMessage (messagesOf timer))) totalDays
  /\ (forall r, getActiveMessage now timer totalDays = Some r ->
        exists m, In m (messagesOf timer) /\ triggerType m = Some "date" /\
                  r = resultOf m (daysUntil r))
  /\ getActiveMessage (instant 2024 1 15 9 30)
       (timerOn "2024-01-01" "countup"
          [mkMessage (Some "A") None (Some "2024-01-01")]) 14 = None.
Proof.
  assert (K : forall today m, isDateMessage m = false ->
                              activeDaysUntil today m = None).
  { intros today m H. destruct (activeDaysUntil today m) as [du |] eqn:E;
      [| reflexivity].
    apply activeDaysUntil_inv in E as (_ & Hd & _).
    unfold isDateMessage in H. congruence. }
  split; [| split; [| split]].
  - intros today msg st H. apply messageStep_skip, K, H.
  - rewrite !getActiveMessage_loop.
    change (messagesOf (withMessages timer (filter isDateMessage (messagesOf timer))))
      with (filter isDateMessage (messagesOf timer)).
    rewrite fold_messageStep_filter; [reflexivity | apply K].
  - intros r H.
    destruct (getActiveMessage_Some _ _ _ _ H) as (i & m & Hi & Hm & Hr & _).
    exists m. split; [eapply nth_error_In; eauto |]. split; [| assumption].
    apply activeDaysUntil_inv in Hm as (_ & Hd & _).
    unfold strictEq in Hd. destruct (triggerType m) as [v |]; [| discriminate].
    apply String.eqb_eq in Hd. now subst v.
  - vm_compute. reflexivity.
Qed.

(** The message of type 'milestone' is stepped over. *)
Lemma getActiveMessage_date_trigger_only_witness :
  messageStep (setHours (instant 2024 1 15 9 30) 0 0 0 0) (None, None)
    (mkMessage (Some "A") (Some "milestone") (Some "2024-01-01")) = (None, None).
Proof.
  destruct (getActiveMessage_date_trigger_only (instant 2024 1 15 9 30)
              (timerOn "2024-01-01" "countup" []) 14) as (Hskip & _).
  apply Hskip. reflexivity.
Defined.

(* ================================================================== *)
(** ** The message resolver: ties *)
(* ================================================================== *)

(** The comparison of the loop is strict, so of several active messages
    with the same number of days the first one stays: the message at
    position [i] is returned when no active message has fewer days and
    every active message before position [i] has more. *)
Lemma getActiveMessage_first_of_least (now : Z) (timer : Timer) (totalDays : Z)
    (i : nat) (m : Message) (du : Z) :
  nth_error (messagesOf timer) i = Some m ->
  activeDaysUntil (setHours now 0 0 0 0) m = Some du ->
  (forall (j : nat) (m' : Message) (du' : Z),
      nth_error (messagesOf timer) j = Some m' ->
      activeDaysUntil (setHours now 0 0 0 0) m' = Some du' ->
      du <= du' /\ ((j < i)%nat -> du < du')) ->
  getActiveMessage now timer totalDays = Some (resultOf m du).
Proof.
  intros Hi Hm Hmin.
  destruct (getActiveMessage now timer totalDays) as [r |] eqn:E.
  - destruct (getActiveMessage_Some _ _ _ _ E) as (k & m' & Hk & Hm' & Hr & Hmin').
    destruct (Hmin _ _ _ Hk Hm') as [L1 F1].
    destruct (Hmin' _ _ _ Hi Hm) as [L2 F2].
    assert (daysUntil r = du) as Hdu by lia.
    assert (k = i) as -> .
    { destruct (Nat.lt_trichotomy k i) as [Hlt | [Heq | Hgt]]; auto.
      - specialize (F1 Hlt). lia.
      - specialize (F2 Hgt). lia. }
    rewrite Hi in Hk. injection Hk as <-.
    rewrite Hr, Hdu. reflexivity.
  - rewrite getActiveMessage_None in E.
    apply nth_error_In in Hi. rewrite (E _ Hi) in Hm. discriminate.
Qed.

(** Of two messages that both have today as their trigger date the one
    listed first is returned. *)
Example getActiveMessage_first_of_least_example :
  getActiveMessage (instant 2024 1 15 9 30)
    (timerOn "2024-01-01" "countup"
       [dateMessage "A" "2024-01-15"; dateMessage "B" "2024-01-15"]) 14
  = Some (resultOf (dateMessage "A" "2024-01-15") 0).
Proof.
  apply (getActiveMessage_first_of_least (instant 2024 1 15 9 30)
           (timerOn "2024-01-01" "countup"
              [dateMessage "A" "2024-01-15"; dateMessage "B" "2024-01-15"]) 14
           0%nat (dateMessage "A" "2024-01-15") 0).
  - reflexivity.
  - vm_compute. reflexivity.
  - intros j m' du' Hj Hm'.
    destruct j as [| [| j]]; cbn in Hj.
    + injection Hj as <-. vm_compute in Hm'. injection Hm' as <-. lia.
    + injection Hj as <-. vm_compute in Hm'. injection Hm' as <-. lia.
    + destruct j; discriminate Hj.
Qed.

(** C9 at the failing input.  The messages A and B share today,
    2024-01-15, as their trigger date, the most recent one there is, and C
    has the day before; the resolver returns neither A nor B but C, so it
    does not return the first of the messages with the most recent trigger
    date. *)
Theorem getActiveMessage_not_first_of_most_recent :
  getActiveMessage (instant 2024 1 15 9 30)
    (timerOn "2024-01-01" "countup"
       [dateMessage "A" "2024-01-15"; dateMessage "B" "2024-01-15";
        dateMessage "C" "2024-01-14"]) 14
  = Some (mkActiveMessage "C" (-1) "📅 14 January 2024")
  /\ ~ ReturnsFirstOfMostRecent (instant 2024 1 15 9 30)
         (timerOn "2024-01-01" "countup"
            [dateMessage "A" "2024-01-15"; dateMessage "B" "2024-01-15";
             dateMessage "C" "2024-01-14"]) 14.
Proof.
  split; [vm_compute; reflexivity |].
  intros H.
  specialize (H 0%nat (dateMessage "A" "2024-01-15") 0 eq_refl
                ltac:(vm_compute; reflexivity)).
  assert (E : getActiveMessage (instant 2024 1 15 9 30)
                (timerOn "2024-01-01" "countup"
                   [dateMessage "A" "2024-01-15"; dateMessage "B" "2024-01-15";
                    dateMessage "C" "2024-01-14"]) 14
              = Some (mkActiveMessage "C" (-1) "📅 14 January 2024"))
    by (vm_compute; reflexivity).
  rewrite E in H.
  assert (K : Some (mkActiveMessage "C" (-1) "📅 14 January 2024")
              = Some (resultOf (dateMessage "A" "2024-01-15") 0));
    [| vm_compute in K; discriminate K].
  apply H. intros j m' du' Hj Hm'.
  destruct j as [| [| [| j]]]; cbn in Hj.
  - injection Hj as <-. vm_compute in Hm'. injection Hm' as <-. lia.
  - injection Hj as <-. vm_compute in Hm'. injection Hm' as <-. lia.
  - injection Hj as <-. vm_compute in Hm'. injection Hm' as <-. lia.
  - destruct j; discriminate Hj.
Qed.

(* ================================================================== *)
(** ** The decomposition: expiry, whole days, signs *)
(* ================================================================== *)

Lemma getTimerValues_Some (now : Z) (timer : Timer) (target : Z) :
  newDate (date timer ++ "T00:00:00") = Some target ->
  getTimerValues now timer =
    Some (timerValuesBetween (fromDateOf timer target now) (toDateOf timer target now)).
Proof. intros H. unfold getTimerValues. rewrite H. reflexivity. Qed.

Lemma getTimerValues_inv (now : Z) (timer : Timer) (vals : TimerValues) :
  getTimerValues now timer = Some vals ->
  exists target,
    newDate (date timer ++ "T00:00:00") = Some target /\
    vals = timerValuesBetween (fromDateOf timer target now) (toDateOf timer target now).
Proof.
  unfold getTimerValues.
  destruct (newDate (date timer ++ "T00:00:00")) as [target |]; cbn [bind];
    [| discriminate].
  intros [= <-]. exists target. auto.
Qed.

Lemma isExpired_timerValuesBetween (fromDate toDate : Z) :
  isExpired (timerValuesBetween fromDate toDate) = (toDate <? fromDate).
Proof.
  destruct (Z.ltb_spec toDate fromDate) as [L | G].
  - rewrite timerValuesBetween_expired by assumption. reflexivity.
  - rewrite timerValuesBetween_live by assumption. reflexivity.
Qed.

Lemma totalDays_timerValuesBetween (fromDate toDate : Z) :
  fromDate <= toDate ->
  totalDays (timerValuesBetween fromDate toDate) = wholeDaysBetween fromDate toDate
  /\ 0 <= totalDays (timerValuesBetween fromDate toDate).
Proof.
  intros H. rewrite timerValuesBetween_live by assumption. cbn [totalDays].
  split; [reflexivity |].
  unfold wholeDaysBetween, msPerDay. apply Z.div_pos; lia.
Qed.

(** The years and the months of the decomposition are never negative. *)
Lemma wholeYearsBetween_nonneg (a b : Z) : a <= b -> 0 <= wholeYearsBetween a b.
Proof.
  intros H. unfold wholeYearsBetween, addYears. cbv zeta.
  pose proof (YearFromDay_mono _ _ (Day_mono _ _ H)) as M.
  change (YearFromDay (Day a)) with (getFullYear a) in M.
  change (YearFromDay (Day b)) with (getFullYear b) in M.
  destruct (Z.eq_dec (getFullYear b) (getFullYear a)) as [E | N].
  - rewrite E, Z.sub_diag, Z.add_0_r, setFullYear_same.
    destruct (Z.ltb_spec b a); lia.
  - destruct (b <? _); lia.
Qed.

Lemma wholeMonthsBetween_nonneg (a b : Z) : 0 <= wholeMonthsBetween a b.
Proof. unfold wholeMonthsBetween. cbv zeta. lia. Qed.

Lemma timerValuesBetween_years_months_nonneg (fromDate toDate : Z) :
  0 <= years (timerValuesBetween fromDate toDate)
  /\ 0 <= months (timerValuesBetween fromDate toDate)
  /\ 0 <= totalDays (timerValuesBetween fromDate toDate).
Proof.
  destruct (Z_lt_le_dec toDate fromDate) as [L | G].
  - rewrite timerValuesBetween_expired by assumption. cbn. lia.
  - pose proof (totalDays_timerValuesBetween _ _ G) as [_ T].
    rewrite timerValuesBetween_live in * by assumption.
    cbn [years months totalDays] in *.
    pose proof (wholeYearsBetween_nonneg _ _ G).
    pose proof (wholeMonthsBetween_nonneg (afterYearsOf fromDate toDate) toDate).
    auto.
Qed.

(** *** Counting from a local midnight *)

Lemma ltb_midnight (a t : Z) :
  TimeWithinDay a = 0 -> (t <? a) = (Day t <? Day a).
Proof.
  intros H. rewrite (midnight_MakeDate a H) at 1.
  rewrite <- (MakeDate_Day t) at 1.
  pose proof (TimeWithinDay_range t) as R.
  unfold MakeDate, msPerDay in *.
  destruct (Z.ltb_spec (Day t) (Day a)); destruct (Z.ltb_spec
    (Day t * 86400000 + TimeWithinDay t) (Day a * 86400000 + 0)); lia.
Qed.

Lemma wholeDaysBetween_midnight (a t : Z) :
  TimeWithinDay a = 0 -> wholeDaysBetween a t = Day t - Day a.
Proof.
  intros H. unfold wholeDaysBetween.
  rewrite (midnight_MakeDate a H) at 1.
  rewrite <- (MakeDate_Day t) at 1.
  pose proof (TimeWithinDay_range t) as R.
  unfold MakeDate, msPerDay in *.
  generalize dependent (TimeWithinDay t). generalize (Day t) (Day a).
  intros d k w R. Z.div_mod_to_equations. lia.
Qed.

Lemma TimeWithinDay_setFullYear (a y : Z) :
  TimeWithinDay (setFullYear a y) = TimeWithinDay a.
Proof. unfold setFullYear. apply TimeWithinDay_MakeDate, TimeWithinDay_range. Qed.

Lemma TimeWithinDay_setMonth (a m : Z) :
  TimeWithinDay (setMonth a m) = TimeWithinDay a.
Proof. unfold setMonth. apply TimeWithinDay_MakeDate, TimeWithinDay_range. Qed.

Lemma TimeWithinDay_afterYearsOf (a b : Z) :
  TimeWithinDay (afterYearsOf a b) = TimeWithinDay a.
Proof.
  unfold afterYearsOf, addYears. cbv zeta.
  destruct (b <? _); rewrite ?TimeWithinDay_setFullYear; reflexivity.
Qed.

Lemma wholeMonthsBetween_Day (a s t : Z) :
  Day s = Day t -> wholeMonthsBetween a s = wholeMonthsBetween a t.
Proof.
  intros H. unfold wholeMonthsBetween.
  rewrite (getFullYear_Day s t H), (getMonth_Day s t H), (getDate_Day s t H).
  reflexivity.
Qed.

Lemma wholeYearsBetween_Day (a s t : Z) :
  TimeWithinDay a = 0 -> Day s = Day t ->
  wholeYearsBetween a s = wholeYearsBetween a t.
Proof.
  intros M H. unfold wholeYearsBetween. cbv zeta.
  rewrite (getFullYear_Day s t H).
  assert (Ma : TimeWithinDay (addYears a (getFullYear t - getFullYear a)) = 0)
    by (unfold addYears; rewrite TimeWithinDay_setFullYear; exact M).
  rewrite (ltb_midnight _ s Ma), (ltb_midnight _ t Ma), H. reflexivity.
Qed.

Lemma afterYearsOf_Day (a s t : Z) :
  TimeWithinDay a = 0 -> Day s = Day t -> afterYearsOf a s = afterYearsOf a t.
Proof.
  intros M H. unfold afterYearsOf. cbv zeta.
  rewrite (getFullYear_Day s t H).
  assert (Ma : TimeWithinDay (addYears a (getFullYear t - getFullYear a)) = 0)
    by (unfold addYears; rewrite TimeWithinDay_setFullYear; exact M).
  rewrite (ltb_midnight _ s Ma), (ltb_midnight _ t Ma), H. reflexivity.
Qed.

(** Counting up from a local midnight, the time of day of the clock does
    not matter. *)
Lemma timerValuesBetween_Day (a s t : Z) :
  TimeWithinDay a = 0 -> Day s = Day t ->
  timerValuesBetween a s = timerValuesBetween a t.
Proof.
  intros M H.
  pose proof (ltb_midnight a s M) as Ls. pose proof (ltb_midnight a t M) as Lt.
  rewrite H in Ls.
  destruct (Z.ltb_spec (Day t) (Day a)) as [L | G].
  - apply Z.ltb_lt in Ls, Lt.
    rewrite !timerValuesBetween_expired by assumption. reflexivity.
  - apply Z.ltb_ge in Ls, Lt.
    rewrite !timerValuesBetween_live by assumption. cbv zeta.
    rewrite (afterYearsOf_Day a s t M H), (wholeYearsBetween_Day a s t M H).
    rewrite (wholeMonthsBetween_Day _ s t H).
    set (am := addMonths (afterYearsOf a t) (wholeMonthsBetween (afterYearsOf a t) t)).
    assert (Mm : TimeWithinDay am = 0).
    { unfold am, addMonths.
      rewrite TimeWithinDay_setMonth, TimeWithinDay_afterYearsOf. exact M. }
    rewrite (wholeDaysBetween_midnight am s Mm), (wholeDaysBetween_midnight am t Mm).
    rewrite (wholeDaysBetween_midnight a s M), (wholeDaysBetween_midnight a t M).
    rewrite H. reflexivity.
Qed.

(** From an instant to itself nothing has passed, and nothing is expired. *)
Lemma timerValuesBetween_same (a : Z) :
  timerValuesBetween a a = mkTimerValues 0 0 0 0 0 false.
Proof.
  rewrite timerValuesBetween_live by lia. cbv zeta.
  assert (Y : wholeYearsBetween a a = 0).
  { unfold wholeYearsBetween, addYears. cbv zeta.
    rewrite Z.sub_diag, Z.add_0_r, setFullYear_same, Z.ltb_irrefl. reflexivity. }
  assert (A : afterYearsOf a a = a).
  { unfold afterYearsOf, addYears. cbv zeta.
    rewrite Z.sub_diag, Z.add_0_r, setFullYear_same, Z.ltb_irrefl. reflexivity. }
  assert (Mo : wholeMonthsBetween a a = 0).
  { unfold wholeMonthsBetween. cbv zeta.
    rewrite !Z.sub_diag, Z.ltb_irrefl. reflexivity. }
  rewrite Y, A, Mo.
  assert (B : addMonths a 0 = a).
  { unfold addMonths. rewrite Z.add_0_r. apply setMonth_same. }
  rewrite B. unfold wholeDaysBetween. rewrite Z.sub_diag. reflexivity.
Qed.

(* ================================================================== *)
(** ** The decomposition: the claims *)
(* ================================================================== *)

Lemma fromDateOf_countup (timer : Timer) (target now : Z) :
  mode timer = "countup" ->
  fromDateOf timer target now = target /\ toDateOf timer target now = now.
Proof. intros H. unfold fromDateOf, toDateOf. rewrite H. auto. Qed.

Lemma fromDateOf_countdown (timer : Timer) (target now : Z) :
  mode timer <> "countup" ->
  fromDateOf timer target now = now /\ toDateOf timer target now = target.
Proof.
  intros H. unfold fromDateOf, toDateOf.
  destruct (String.eqb_spec (mode timer) "countup"); [contradiction | auto].
Qed.

(** C2 at the failing input.  Counting up from 2023-01-31, at noon of
    2023-03-01 the code reports one month, minus one week and minus two
    days: the anchor advanced by one month is 2023-03-03, two days after
    the clock.  The slider shows the same at the years and at the months
    position. *)
Theorem getTimerValues_negative_remainder :
  getTimerValues (instant 2023 3 1 12 0) (timerOn "2023-01-31" "countup" [])
  = Some (mkTimerValues 0 1 (-1) (-2) 29 false)
  /\ decompose (timerOn "2023-01-31" "countup" []) (instant 2023 3 1 12 0) 0
     = Some (mkTimerValues 0 1 (-1) (-2) 29 false, mkSliderValues 0 1 (-1) (-2))
  /\ decompose (timerOn "2023-01-31" "countup" []) (instant 2023 3 1 12 0) 1
     = Some (mkTimerValues 0 1 (-1) (-2) 29 false, mkSliderValues 0 1 (-1) (-2))
  /\ setMonth (instant 2023 1 31 0 0) 1 = instant 2023 3 3 0 0.
Proof. repeat split; vm_compute; reflexivity. Qed.




(** C4.  With [fromDate] and [toDate] assigned by the direction (counting
    up: from the anchor at midnight to the clock; counting down: from the
    clock to the anchor at midnight), the timer is expired exactly when
    [toDate] precedes [fromDate], the breakdown is then all zero, and the
    slider shows zeros at every position.  Expiry depends on the direction
    only through this assignment: the two directions are one function of
    [fromDate] and [toDate] with the roles of anchor and clock exchanged. *)
Theorem expired_iff_to_before_from (now : Z) (timer : Timer) (target : Z) (pivot : Z) :
  newDate (date timer ++ "T00:00:00") = Some target ->
  let fromDate := fromDateOf timer target now in
  let toDate := toDateOf timer target now in
  (mode timer = "countup" -> fromDate = target /\ toDate = now)
  /\ (mode timer <> "countup" -> fromDate = now /\ toDate = target)
  /\ exists vals,
       getTimerValues now timer = Some vals
       /\ vals = timerValuesBetween fromDate toDate
       /\ (isExpired vals = true <-> toDate < fromDate)
       /\ (toDate < fromDate ->
           vals = mkTimerValues 0 0 0 0 0 true
           /\ decompose timer now pivot = Some (vals, mkSliderValues 0 0 0 0)).
Proof.
  intros H fromDate toDate.
  split; [apply fromDateOf_countup |].
  split; [apply fromDateOf_countdown |].
  exists (timerValuesBetween fromDate toDate).
  split; [apply getTimerValues_Some, H |].
  split; [reflexivity |].
  split.
  - rewrite isExpired_timerValuesBetween. apply Z.ltb_lt.
  - intros L. unfold decompose.
    rewrite (getTimerValues_Some _ _ _ H). fold fromDate toDate.
    rewrite (timerValuesBetween_expired _ _ L). auto.
Qed.

(** A count down to 2024-06-01 is expired on 2024-06-02, and a count up
    from that date is not. *)
Lemma expired_iff_to_before_from_witness :
  isExpired (timerValuesBetween (instant 2024 6 2 8 0) (instant 2024 6 1 0 0)) = true
  /\ isExpired (timerValuesBetween (instant 2024 6 1 0 0) (instant 2024 6 2 8 0)) = false.
Proof.
  destruct (expired_iff_to_before_from (instant 2024 6 2 8 0)
              (timerOn "2024-06-01" "countdown" []) (instant 2024 6 1 0 0) 0
              ltac:(vm_compute; reflexivity))
    as (_ & Hdown & vals & _ & Hvals & Hexp & _).
  destruct (Hdown ltac:(discriminate)) as [Hf Ht].
  rewrite Hf, Ht in Hvals, Hexp. subst vals.
  split.
  - apply Hexp. vm_compute. reflexivity.
  - vm_compute. reflexivity.
Defined.

(** C5.  For a timer that is not expired, the slider at the days position
    shows no years, months or weeks and the total of whole days as its
    days; at the weeks position it shows no years or months, the total of
    whole days divided by seven as its weeks and the remainder as its days.
    The total of whole days is the one [getTimerValues] computes, whatever
    the position of the slider. *)
Theorem slider_weeks_days_of_total (now : Z) (timer : Timer)
    (vals : TimerValues) (disp : SliderValues) :
  decompose timer now 0 = Some (vals, disp) ->
  isExpired vals = false ->
  decompose timer now 3 = Some (vals, mkSliderValues 0 0 0 (totalDays vals))
  /\ decompose timer now 2
     = Some (vals, mkSliderValues 0 0 (totalDays vals / 7) (totalDays vals mod 7))
  /\ 0 <= totalDays vals.
Proof.
  unfold decompose. intros H E.
  destruct (getTimerValues now timer) as [v |] eqn:G; cbn [bind] in *;
    [| discriminate H].
  unfold applySlider in H. rewrite Z.eqb_refl in H.
  destruct (isExpired v) eqn:Ev; cbn [bind] in H; injection H as <- <-;
    [rewrite Ev in E; discriminate E |].
  apply getTimerValues_inv in G as (target & _ & ->).
  rewrite isExpired_timerValuesBetween in Ev. apply Z.ltb_ge in Ev.
  pose proof (totalDays_timerValuesBetween _ _ Ev) as [_ T].
  unfold applySlider. rewrite isExpired_timerValuesBetween.
  destruct (Z.ltb_spec (toDateOf timer target now) (fromDateOf timer target now));
    [lia |].
  cbn [Z.eqb bind]. unfold Math_floor_div, js_rem.
  rewrite Z.rem_mod_nonneg by lia. auto.
Qed.

(** A hundred days after the anchor the weeks position shows 14 weeks and
    2 days. *)
Lemma slider_weeks_days_of_total_witness :
  decompose (timerOn "2024-01-01" "countup" []) (instant 2024 4 10 6 0) 3
  = Some (mkTimerValues 0 3 1 2 100 false, mkSliderValues 0 0 0 100)
  /\ decompose (timerOn "2024-01-01" "countup" []) (instant 2024 4 10 6 0) 2
     = Some (mkTimerValues 0 3 1 2 100 false, mkSliderValues 0 0 14 2)
  /\ 0 <= 100.
Proof.
  apply (slider_weeks_days_of_total (instant 2024 4 10 6 0)
           (timerOn "2024-01-01" "countup" [])
           (mkTimerValues 0 3 1 2 100 false) (mkSliderValues 0 3 1 2)).
  - vm_compute. reflexivity.
  - reflexivity.
Defined.

(** C6.  For a timer that is not expired, the slider at the months
    position shows no years; its months are the whole calendar months from
    the original [fromDate] to [toDate], with the borrow of one month when
    the day of the month of [toDate] is the earlier one and never below
    zero; its weeks and days are the whole days that remain after
    [fromDate] is advanced by these months, divided by seven.  The base
    decomposition computes its months, weeks and days by the same three
    steps from the date after the whole years. *)
Theorem slider_months_from_original (now : Z) (timer : Timer) (target : Z) :
  newDate (date timer ++ "T00:00:00") = Some target ->
  let fromDate := fromDateOf timer target now in
  let toDate := toDateOf timer target now in
  fromDate <= toDate ->
  let totalMonths := wholeMonthsBetween fromDate toDate in
  let remDays := wholeDaysBetween (addMonths fromDate totalMonths) toDate in
  let afterYears := afterYearsOf fromDate toDate in
  let baseMonths := wholeMonthsBetween afterYears toDate in
  let remainingDays := wholeDaysBetween (addMonths afterYears baseMonths) toDate in
  decompose timer now 1
  = Some (timerValuesBetween fromDate toDate,
          mkSliderValues 0 totalMonths (remDays / 7) (Z.rem remDays 7))
  /\ decompose timer now 0
     = Some (timerValuesBetween fromDate toDate,
             mkSliderValues (wholeYearsBetween fromDate toDate) baseMonths
               (remainingDays / 7) (Z.rem remainingDays 7))
  /\ 0 <= totalMonths.
Proof.
  intros H fromDate toDate L totalMonths remDays afterYears baseMonths remainingDays.
  unfold decompose. rewrite (getTimerValues_Some _ _ _ H). cbn [bind].
  fold fromDate toDate.
  unfold applySlider. rewrite isExpired_timerValuesBetween.
  destruct (Z.ltb_spec toDate fromDate) as [K | _]; [lia |].
  cbn [Z.eqb]. rewrite H. cbn [bind]. fold fromDate toDate.
  split; [| split].
  - rewrite sliderMonthsBetween_spec. reflexivity.
  - rewrite (timerValuesBetween_live _ _ L). reflexivity.
  - apply wholeMonthsBetween_nonneg.
Qed.

(** Counting up from 2022-11-20, on 2024-03-05 the months position shows
    15 months, 2 weeks and 0 days where the years position shows 1 year, 3
    months, 2 weeks and 0 days. *)
Lemma slider_months_from_original_witness :
  decompose (timerOn "2022-11-20" "countup" []) (instant 2024 3 5 18 45) 1
  = Some (mkTimerValues 1 3 2 0 471 false, mkSliderValues 0 15 2 0)
  /\ decompose (timerOn "2022-11-20" "countup" []) (instant 2024 3 5 18 45) 0
     = Some (mkTimerValues 1 3 2 0 471 false, mkSliderValues 1 3 2 0).
Proof.
  destruct (slider_months_from_original (instant 2024 3 5 18 45)
              (timerOn "2022-11-20" "countup" []) (instant 2022 11 20 0 0)
              ltac:(vm_compute; reflexivity)
              ltac:(vm_compute; discriminate))
    as (H1 & H0 & _).
  split.
  - rewrite H1. vm_compute. reflexivity.
  - rewrite H0. vm_compute. reflexivity.
Defined.

Lemma midnight_le_same_Day (a t : Z) :
  TimeWithinDay a = 0 -> Day t = Day a -> a <= t.
Proof.
  intros M D. rewrite (midnight_MakeDate a M), <- (MakeDate_Day t), D.
  pose proof (TimeWithinDay_range t). unfold MakeDate. lia.
Qed.

(** C7, as stated, fails for a timer that counts down: anchored on
    2025-03-01, at noon of that day it is expired. *)
Lemma countdown_to_today_expired :
  getTimerValues (instant 2025 3 1 12 0) (timerOn "2025-03-01" "countdown" [])
  = Some (mkTimerValues 0 0 0 0 0 true)
  /\ ~ AnchorTodayNotExpired (instant 2025 3 1 12 0)
         (timerOn "2025-03-01" "countdown" []).
Proof.
  split; [vm_compute; reflexivity |].
  intros H.
  destruct (H (instant 2025 3 1 0 0) (mkTimerValues 0 0 0 0 0 true))
    as [_ E]; try (vm_compute; reflexivity).
  discriminate E.
Qed.
(* ================================================================== *)
(** ** The calendar on one line of months *)
(* ================================================================== *)

Lemma MakeDay_FirstDayOfMonth (y m d : Z) :
  MakeDay y m d = FirstDayOfMonth (12 * y + m) + d - 1.
Proof.
  unfold MakeDay, FirstDayOfMonth. cbv zeta.
  replace ((12 * y + m) / 12) with (y + m / 12)
    by (Z.div_mod_to_equations; lia).
  replace ((12 * y + m) mod 12) with (m mod 12)
    by (Z.div_mod_to_equations; lia).
  reflexivity.
Qed.

Lemma InLeapYearOf_DaysInYear (y : Z) : DaysInYear y = 365 + InLeapYearOf y.
Proof.
  unfold InLeapYearOf. destruct (DaysInYear_cases y) as [E | E]; rewrite E; reflexivity.
Qed.

Lemma DaysInMonth_eq (k : Z) :
  DaysInMonth k = FirstDayOfMonth (k + 1) - FirstDayOfMonth k.
Proof. reflexivity. Qed.

Lemma DaysInMonth_range (k : Z) : 28 <= DaysInMonth k <= 31.
Proof.
  unfold DaysInMonth, FirstDayOfMonth.
  pose proof (Z.mod_pos_bound k 12 ltac:(lia)) as R.
  assert (k mod 12 = 11 \/ k mod 12 <> 11) as [E | N] by lia.
  - replace ((k + 1) / 12) with (k / 12 + 1) by (Z.div_mod_to_equations; lia).
    replace ((k + 1) mod 12) with 0 by (Z.div_mod_to_equations; lia).
    rewrite E, DayFromYear_succ, InLeapYearOf_DaysInYear.
    unfold InLeapYearOf.
    destruct (DaysInYear (k / 12) =? 366); destruct (DaysInYear (k / 12 + 1) =? 366);
      cbn; lia.
  - replace ((k + 1) / 12) with (k / 12) by (Z.div_mod_to_equations; lia).
    replace ((k + 1) mod 12) with (k mod 12 + 1) by (Z.div_mod_to_equations; lia).
    generalize dependent (k mod 12). intros r R N.
    unfold InLeapYearOf. destruct (DaysInYear (k / 12) =? 366);
      assert (r = 0 \/ r = 1 \/ r = 2 \/ r = 3 \/ r = 4 \/ r = 5 \/ r = 6 \/ r = 7
              \/ r = 8 \/ r = 9 \/ r = 10) as C by lia;
      repeat (destruct C as [-> | C]); try subst r; cbn; lia.
Qed.

Lemma FirstDayOfMonth_step (k n : Z) :
  0 <= n -> FirstDayOfMonth k + 28 * n <= FirstDayOfMonth (k + n).
Proof.
  intros H. pattern n. apply natlike_ind; [| | exact H].
  - replace (k + 0) with k by lia. lia.
  - intros m Hm IH. pose proof (DaysInMonth_range (k + m)) as R.
    rewrite DaysInMonth_eq in R.
    replace (k + Z.succ m) with (k + m + 1) by lia. lia.
Qed.

Lemma FirstDayOfMonth_lt (k k' : Z) :
  k < k' -> FirstDayOfMonth k + 28 <= FirstDayOfMonth k'.
Proof.
  intros H. pose proof (FirstDayOfMonth_step k (k' - k) ltac:(lia)) as S.
  replace (k + (k' - k)) with k' in S by lia. lia.
Qed.

Lemma FirstDayOfMonth_le (k k' : Z) :
  k <= k' -> FirstDayOfMonth k <= FirstDayOfMonth k'.
Proof.
  intros H. destruct (Z.eq_dec k k') as [-> | N]; [lia |].
  pose proof (FirstDayOfMonth_lt k k' ltac:(lia)). lia.
Qed.

(** The day of a time value is the first day of its month plus its day of
    the month. *)
Lemma Day_monthIndex (t : Z) :
  Day t = FirstDayOfMonth (monthIndex t) + getDate t - 1.
Proof.
  rewrite <- (MakeDay_components t). unfold monthIndex, getFullYear, getMonth, getDate.
  apply MakeDay_FirstDayOfMonth.
Qed.

Lemma monthIndex_components (t : Z) :
  monthIndex t / 12 = getFullYear t /\ monthIndex t mod 12 = getMonth t.
Proof.
  unfold monthIndex. pose proof (MonthFromTime_range t) as R.
  unfold getMonth. generalize dependent (MonthFromTime t). intros m R.
  Z.div_mod_to_equations. lia.
Qed.

Lemma MonthOfYearDay_next (w leap : Z) :
  MonthOfYearDay w leap <> 11 ->
  w < MonthStart (MonthOfYearDay w leap + 1) leap.
Proof.
  unfold MonthOfYearDay.
  repeat match goal with
         | |- context [?a <? ?b] => destruct (Z.ltb_spec a b)
         end;
    intros N; try (exfalso; apply N; reflexivity);
    match goal with
    | |- context [MonthStart ?m ?l] =>
        let v := eval vm_compute in m in change (MonthStart m l) with (MonthStart v l)
    end; unfold MonthStart; cbn [Z.eqb Pos.eqb]; lia.
Qed.

Lemma Day_lt_next_year (t : Z) : Day t < DayFromYear (getFullYear t + 1).
Proof. apply (YearFromDay_spec (Day t)). Qed.

Lemma DayWithinYear_lt_next_month (t : Z) :
  getMonth t <> 11 ->
  Day t < DayFromYear (getFullYear t) + MonthStart (getMonth t + 1) (InLeapYear t).
Proof.
  intros N.
  pose proof (MonthOfYearDay_next (DayWithinYear t) (InLeapYear t) N) as K.
  fold (MonthFromTime t) in K. fold (getMonth t) in K.
  unfold DayWithinYear in K at 1. fold (getFullYear t) in K. lia.
Qed.

Lemma InLeapYear_eq (t : Z) : InLeapYear t = InLeapYearOf (getFullYear t).
Proof. reflexivity. Qed.

Lemma Day_lt_next_month_december (t : Z) :
  getMonth t = 11 -> Day t < FirstDayOfMonth (monthIndex t + 1).
Proof.
  intros E.
  pose proof (monthIndex_components t) as [Q M].
  unfold FirstDayOfMonth.
  replace ((monthIndex t + 1) / 12) with (getFullYear t + 1)
    by (Z.div_mod_to_equations; lia).
  replace ((monthIndex t + 1) mod 12) with 0 by (Z.div_mod_to_equations; lia).
  pose proof (Day_lt_next_year t).
  replace (MonthStart 0 (InLeapYearOf (getFullYear t + 1))) with 0 by reflexivity.
  lia.
Qed.

Lemma Day_lt_next_month_other (t : Z) :
  getMonth t <> 11 -> Day t < FirstDayOfMonth (monthIndex t + 1).
Proof.
  intros N.
  pose proof (monthIndex_components t) as [Q M].
  pose proof (MonthFromTime_range t) as R. fold (getMonth t) in R.
  unfold FirstDayOfMonth.
  replace ((monthIndex t + 1) / 12) with (getFullYear t)
    by (Z.div_mod_to_equations; lia).
  replace ((monthIndex t + 1) mod 12) with (getMonth t + 1)
    by (Z.div_mod_to_equations; lia).
  rewrite <- InLeapYear_eq.
  apply (DayWithinYear_lt_next_month t N).
Qed.

Lemma Day_lt_next_month (t : Z) : Day t < FirstDayOfMonth (monthIndex t + 1).
Proof.
  assert (getMonth t = 11 \/ getMonth t <> 11) as [E | N] by lia.
  - exact (Day_lt_next_month_december t E).
  - exact (Day_lt_next_month_other t N).
Qed.

Lemma getDate_range (t : Z) : 1 <= getDate t <= DaysInMonth (monthIndex t).
Proof.
  split; [apply DateFromTime_range |].
  rewrite DaysInMonth_eq.
  pose proof (Day_monthIndex t) as D.
  pose proof (Day_lt_next_month t). lia.
Qed.

(** The month of a day is the one whose first day is the last not after
    it. *)
Lemma monthIndex_unique (t k : Z) :
  FirstDayOfMonth k <= Day t < FirstDayOfMonth (k + 1) -> monthIndex t = k.
Proof.
  intros H. pose proof (Day_monthIndex t) as D. pose proof (getDate_range t) as R.
  rewrite DaysInMonth_eq in R.
  destruct (Z.lt_trichotomy (monthIndex t) k) as [L | [E | G]]; [| assumption |].
  - pose proof (FirstDayOfMonth_le (monthIndex t + 1) k ltac:(lia)). lia.
  - pose proof (FirstDayOfMonth_le (k + 1) (monthIndex t) ltac:(lia)). lia.
Qed.

(** The components of the day [d] of the month [k], for a day the month
    has. *)
Lemma components_of_month_day (k d tod : Z) :
  1 <= d <= DaysInMonth k -> 0 <= tod < msPerDay ->
  let t := MakeDate (FirstDayOfMonth k + d - 1) tod in
  monthIndex t = k /\ getDate t = d /\ getFullYear t = k / 12 /\ getMonth t = k mod 12.
Proof.
  intros Hd Ht t.
  assert (Dt : Day t = FirstDayOfMonth k + d - 1) by (apply Day_MakeDate, Ht).
  assert (K : monthIndex t = k).
  { apply monthIndex_unique. rewrite DaysInMonth_eq in Hd. lia. }
  pose proof (Day_monthIndex t) as D. rewrite K in D.
  pose proof (monthIndex_components t) as [Q M]. rewrite K in Q, M.
  repeat split; auto; lia.
Qed.
(* ================================================================== *)
(** ** Advancing a date whose day every month has *)
(* ================================================================== *)

Lemma setFullYear_eq (a y : Z) :
  setFullYear a y = MakeDate (MakeDay y (getMonth a) (getDate a)) (TimeWithinDay a).
Proof. reflexivity. Qed.

Lemma setMonth_eq (a m : Z) :
  setMonth a m = MakeDate (MakeDay (getFullYear a) m (getDate a)) (TimeWithinDay a).
Proof. reflexivity. Qed.

Lemma monthIndex_eq (t : Z) : monthIndex t = 12 * getFullYear t + getMonth t.
Proof. reflexivity. Qed.

(** A date set to the day [d], at most 28, of the month [k]. *)
Lemma month_day_28 (k d tod : Z) :
  1 <= d <= 28 -> 0 <= tod < msPerDay ->
  monthIndex (MakeDate (FirstDayOfMonth k + d - 1) tod) = k
  /\ getDate (MakeDate (FirstDayOfMonth k + d - 1) tod) = d
  /\ Day (MakeDate (FirstDayOfMonth k + d - 1) tod) = FirstDayOfMonth k + d - 1
  /\ TimeWithinDay (MakeDate (FirstDayOfMonth k + d - 1) tod) = tod.
Proof.
  intros Hd Ht. pose proof (DaysInMonth_range k) as R.
  destruct (components_of_month_day k d tod ltac:(lia) Ht) as (K & D & _).
  repeat split; auto.
  - apply Day_MakeDate, Ht.
  - apply TimeWithinDay_MakeDate, Ht.
Qed.

Lemma setFullYear_28 (a y : Z) :
  getDate a <= 28 ->
  monthIndex (setFullYear a y) = 12 * y + getMonth a
  /\ getDate (setFullYear a y) = getDate a
  /\ Day (setFullYear a y) = FirstDayOfMonth (12 * y + getMonth a) + getDate a - 1
  /\ TimeWithinDay (setFullYear a y) = TimeWithinDay a.
Proof.
  intros H. rewrite setFullYear_eq, MakeDay_FirstDayOfMonth.
  pose proof (DateFromTime_range a) as R. fold (getDate a) in R.
  apply month_day_28; [lia | apply TimeWithinDay_range].
Qed.

Lemma setMonth_28 (a m : Z) :
  getDate a <= 28 ->
  monthIndex (setMonth a m) = 12 * getFullYear a + m
  /\ getDate (setMonth a m) = getDate a
  /\ Day (setMonth a m) = FirstDayOfMonth (12 * getFullYear a + m) + getDate a - 1
  /\ TimeWithinDay (setMonth a m) = TimeWithinDay a.
Proof.
  intros H. rewrite setMonth_eq, MakeDay_FirstDayOfMonth.
  pose proof (DateFromTime_range a) as R. fold (getDate a) in R.
  apply month_day_28; [lia | apply TimeWithinDay_range].
Qed.

Lemma getMonth_of_monthIndex (t k y : Z) :
  monthIndex t = 12 * y + k -> 0 <= k <= 11 -> getFullYear t = y /\ getMonth t = k.
Proof.
  intros H R. rewrite monthIndex_eq in H.
  pose proof (MonthFromTime_range t) as M. fold (getMonth t) in M. lia.
Qed.

Lemma getMonth_range (t : Z) : 0 <= getMonth t <= 11.
Proof. apply MonthFromTime_range. Qed.

(** The order of days is the order of months and, within a month, of days
    of the month. *)
Lemma Day_lt_iff (s t : Z) :
  Day s < Day t <->
  monthIndex s < monthIndex t \/ monthIndex s = monthIndex t /\ getDate s < getDate t.
Proof.
  rewrite (Day_monthIndex s), (Day_monthIndex t).
  pose proof (getDate_range s) as Rs. pose proof (getDate_range t) as Rt.
  rewrite DaysInMonth_eq in Rs, Rt.
  destruct (Z.lt_trichotomy (monthIndex s) (monthIndex t)) as [L | [E | G]].
  - pose proof (FirstDayOfMonth_le (monthIndex s + 1) (monthIndex t) ltac:(lia)). lia.
  - rewrite E in *. lia.
  - pose proof (FirstDayOfMonth_le (monthIndex t + 1) (monthIndex s) ltac:(lia)). lia.
Qed.
(* ================================================================== *)
(** ** The base decomposition from a day of the month that every month has *)
(* ================================================================== *)

Lemma wholeYearsBetween_eq (a b : Z) :
  wholeYearsBetween a b =
    if b <? setFullYear a (getFullYear a + (getFullYear b - getFullYear a))
    then getFullYear b - getFullYear a - 1
    else getFullYear b - getFullYear a.
Proof. reflexivity. Qed.

Lemma afterYearsOf_eq (a b : Z) :
  afterYearsOf a b =
    if b <? setFullYear a (getFullYear a + (getFullYear b - getFullYear a))
    then setFullYear (setFullYear a (getFullYear a + (getFullYear b - getFullYear a)))
           (getFullYear (setFullYear a (getFullYear a + (getFullYear b - getFullYear a)))
            + -1)
    else setFullYear a (getFullYear a + (getFullYear b - getFullYear a)).
Proof. reflexivity. Qed.

(** Instants compare by their day and then by their time of day. *)
Lemma lt_iff_Day (t a : Z) :
  t < a <->
  Day t < Day a \/ Day t = Day a /\ TimeWithinDay t < TimeWithinDay a.
Proof.
  rewrite <- (MakeDate_Day t) at 1. rewrite <- (MakeDate_Day a) at 1.
  pose proof (TimeWithinDay_range t). pose proof (TimeWithinDay_range a).
  unfold MakeDate, msPerDay in *. lia.
Qed.

Lemma wholeDaysBetween_Day (a t : Z) :
  wholeDaysBetween a t =
    Day t - Day a - (if TimeWithinDay t <? TimeWithinDay a then 1 else 0).
Proof.
  unfold wholeDaysBetween.
  rewrite <- (MakeDate_Day t) at 1. rewrite <- (MakeDate_Day a) at 1.
  pose proof (TimeWithinDay_range t) as Rt. pose proof (TimeWithinDay_range a) as Ra.
  generalize dependent (TimeWithinDay t). generalize dependent (TimeWithinDay a).
  generalize (Day t) (Day a). intros dt da wa Ra wt Rt.
  unfold MakeDate, msPerDay in *.
  destruct (Z.ltb_spec wt wa); Z.div_mod_to_equations; lia.
Qed.

(** The years step: [c] is 1 when a year was taken back. *)
Lemma afterYearsOf_28 (f t : Z) :
  getDate f <= 28 -> f <= t ->
  exists c,
    (c = 0 \/ c = 1)
    /\ wholeYearsBetween f t = getFullYear t - getFullYear f - c
    /\ monthIndex (afterYearsOf f t) = monthIndex f + 12 * (getFullYear t - getFullYear f - c)
    /\ getDate (afterYearsOf f t) = getDate f
    /\ TimeWithinDay (afterYearsOf f t) = TimeWithinDay f
    /\ 0 <= getFullYear t - getFullYear f - c
    /\ 0 <= monthIndex t - monthIndex (afterYearsOf f t)
            - (if getDate t <? getDate f then 1 else 0)
    /\ (getDate t = getDate f /\ TimeWithinDay t < TimeWithinDay f
        \/ monthIndex t - monthIndex (afterYearsOf f t)
           - (if getDate t <? getDate f then 1 else 0) <= 11).
Proof.
  intros Hd Hle.
  pose proof (wholeYearsBetween_nonneg f t Hle) as Ynn.
  rewrite wholeYearsBetween_eq in Ynn |- *. rewrite afterYearsOf_eq.
  replace (getFullYear f + (getFullYear t - getFullYear f)) with (getFullYear t)
    in Ynn |- * by lia.
  destruct (setFullYear_28 f (getFullYear t) Hd) as (Ka & Da & Dya & Ta).
  set (adv := setFullYear f (getFullYear t)) in *.
  pose proof (getMonth_range f) as Rf. pose proof (getMonth_range t) as Rt.
  destruct (getMonth_of_monthIndex _ _ _ Ka Rf) as [Ya Ma].
  pose proof (lt_iff_Day t adv) as Lt. rewrite Ta in Lt.
  pose proof (Day_lt_iff t adv) as Ld.
  rewrite Ka, Da, (monthIndex_eq t) in Ld.
  pose proof (Day_monthIndex t) as Dt. rewrite (monthIndex_eq t) in Dt.
  rewrite (monthIndex_eq f), (monthIndex_eq t).
  destruct (Z.ltb_spec t adv) as [L | G].
  - exists 1. split; [auto |]. split; [reflexivity |].
    assert (Hd' : getDate adv <= 28) by lia.
    destruct (setFullYear_28 adv (getFullYear adv + -1) Hd') as (Kb & Db & Dyb & Tb).
    set (ay := setFullYear adv (getFullYear adv + -1)) in *.
    split; [lia |]. split; [lia |]. split; [lia |]. split; [lia |].
    rewrite Kb.
    apply proj1 in Lt. specialize (Lt L).
    split.
    + destruct (Z.ltb_spec (getDate t) (getDate f)); lia.
    + destruct Lt as [Lt | [Le Lw]].
      * right. apply proj1 in Ld. specialize (Ld Lt).
        destruct (Z.ltb_spec (getDate t) (getDate f)); lia.
      * left. split; [| exact Lw]. rewrite Dya in Le. rewrite Le in Dt.
        assert (12 * getFullYear t + getMonth t = 12 * getFullYear t + getMonth f).
        { destruct (Z.lt_trichotomy (getMonth t) (getMonth f)) as [A | [A | A]];
            [| lia |].
          - pose proof (FirstDayOfMonth_le (12 * getFullYear t + getMonth t + 1)
                          (12 * getFullYear t + getMonth f) ltac:(lia)).
            pose proof (getDate_range t) as Q. rewrite DaysInMonth_eq in Q.
            rewrite (monthIndex_eq t) in Q. lia.
          - pose proof (FirstDayOfMonth_lt (12 * getFullYear t + getMonth f)
                          (12 * getFullYear t + getMonth t) ltac:(lia)).
            pose proof (DateFromTime_range t) as Q. fold (getDate t) in Q. lia. }
        rewrite H in Dt. lia.
  - exists 0. split; [auto |]. split; [lia |].
    split; [lia |]. split; [exact Da |]. split; [exact Ta |].
    split; [lia |]. rewrite Ka.
    assert (~ Day t < Day adv) as NL.
    { intros C. assert (t < adv) by (apply Lt; left; exact C). lia. }
    rewrite Ld in NL.
    split; [destruct (Z.ltb_spec (getDate t) (getDate f)); lia |].
    right. destruct (Z.ltb_spec (getDate t) (getDate f)); lia.
Qed.

(** The months and the remainder of the base decomposition, from a day of
    the month up to the 28th.  [r] is the number of whole days that remain
    after the years and months. *)
Lemma timerValuesBetween_28 (f t : Z) :
  getDate f <= 28 -> f <= t ->
  let v := timerValuesBetween f t in
  let n := 12 * years v + months v in
  exists r,
    weeks v = r / 7 /\ days v = Z.rem r 7
    /\ 0 <= years v /\ 0 <= months v
    /\ n = monthIndex t - monthIndex f - (if getDate t <? getDate f then 1 else 0)
    /\ Day t = FirstDayOfMonth (monthIndex f + n) + getDate f - 1 + r
               + (if TimeWithinDay t <? TimeWithinDay f then 1 else 0)
    /\ (getDate t = getDate f /\ TimeWithinDay t < TimeWithinDay f -> r = -1)
    /\ (~ (getDate t = getDate f /\ TimeWithinDay t < TimeWithinDay f) ->
        0 <= r <= 30 /\ months v <= 11
        /\ Day t < FirstDayOfMonth (monthIndex f + n + 1) + getDate f - 1).
Proof.
  intros Hd Hle.
  destruct (afterYearsOf_28 f t Hd Hle)
    as (c & Hc & Hy & Ka & Da & Ta & Ynn & Mnn' & Mle).
  rewrite (timerValuesBetween_live f t Hle). cbv zeta.
  cbn [years months weeks days].
  set (ay := afterYearsOf f t) in *.
  assert (Mo : wholeMonthsBetween ay t
               = monthIndex t - monthIndex ay - (if getDate t <? getDate f then 1 else 0)).
  { unfold wholeMonthsBetween. cbv zeta. rewrite Da.
    rewrite (monthIndex_eq t), (monthIndex_eq ay) in Mnn' |- *.
    destruct (Z.ltb_spec (getDate t) (getDate f)); lia. }
  set (m := wholeMonthsBetween ay t) in *.
  assert (Hda : getDate ay <= 28) by lia.
  unfold addMonths.
  destruct (setMonth_28 ay (getMonth ay + m) Hda) as (Km & Dm & Dym & Tm).
  rewrite Ta in Tm. rewrite Da in Dym.
  replace (12 * getFullYear ay + (getMonth ay + m)) with (monthIndex ay + m) in Dym
    by (rewrite (monthIndex_eq ay); lia).
  rewrite (wholeDaysBetween_Day _ t), Tm, Dym.
  pose proof (Day_monthIndex t) as Dt.
  pose proof (getDate_range t) as Rt. rewrite DaysInMonth_eq in Rt.
  pose proof (DaysInMonth_range (monthIndex t)) as Rk. rewrite DaysInMonth_eq in Rk.
  pose proof (DaysInMonth_range (monthIndex t - 1)) as Rp. rewrite DaysInMonth_eq in Rp.
  replace (monthIndex t - 1 + 1) with (monthIndex t) in Rp by lia.
  pose proof (DateFromTime_range f) as Rf. fold (getDate f) in Rf.
  rewrite Hy.
  replace (monthIndex f + (12 * (getFullYear t - getFullYear f - c) + m))
    with (monthIndex ay + m) by lia.
  replace (monthIndex f + (12 * (getFullYear t - getFullYear f - c) + m) + 1)
    with (monthIndex ay + m + 1) by lia.
  set (late := if TimeWithinDay t <? TimeWithinDay f then 1 else 0) in *.
  assert (Hlate : (TimeWithinDay t < TimeWithinDay f /\ late = 1)
                  \/ (TimeWithinDay f <= TimeWithinDay t /\ late = 0)).
  { unfold late. destruct (Z.ltb_spec (TimeWithinDay t) (TimeWithinDay f)); auto. }
  exists (Day t - (FirstDayOfMonth (monthIndex ay + m) + getDate f - 1) - late).
  split; [reflexivity |]. split; [reflexivity |].
  assert (Hm : 0 <= m) by apply wholeMonthsBetween_nonneg.
  clearbody late m ay.
  destruct (Z.ltb_spec (getDate t) (getDate f)) as [B | B].
  - replace (monthIndex ay + m) with (monthIndex t - 1) by lia.
    replace (monthIndex t - 1 + 1) with (monthIndex t) by lia.
    repeat split; try lia.
  - replace (monthIndex ay + m) with (monthIndex t) by lia.
    repeat split; try lia.
Qed.

(* ================================================================== *)
(** ** The breakdown a timer shows *)
(* ================================================================== *)

(** X1.  The years, the months and the total of whole days of
    [getTimerValues] are never negative, whatever the direction and the
    clock. *)
Theorem getTimerValues_years_months_total_nonneg (now : Z) (timer : Timer)
    (vals : TimerValues) :
  getTimerValues now timer = Some vals ->
  0 <= years vals /\ 0 <= months vals /\ 0 <= totalDays vals.
Proof.
  intros H. apply getTimerValues_inv in H as (target & _ & ->).
  apply timerValuesBetween_years_months_nonneg.
Qed.

Lemma getTimerValues_years_months_total_nonneg_witness :
  0 <= years (mkTimerValues 0 1 (-1) (-2) 29 false)
  /\ 0 <= months (mkTimerValues 0 1 (-1) (-2) 29 false)
  /\ 0 <= totalDays (mkTimerValues 0 1 (-1) (-2) 29 false).
Proof.
  apply (getTimerValues_years_months_total_nonneg (instant 2023 3 1 12 0)
           (timerOn "2023-01-31" "countup" [])).
  vm_compute. reflexivity.
Defined.

Lemma div_rem_small (r : Z) :
  0 <= r <= 30 ->
  0 <= r / 7 <= 4 /\ 0 <= Z.rem r 7 <= 6 /\ 7 * (r / 7) + Z.rem r 7 = r.
Proof.
  intros H. rewrite Z.rem_mod_nonneg by lia.
  pose proof (Z.div_mod r 7 ltac:(lia)). pose proof (Z.mod_pos_bound r 7 ltac:(lia)).
  lia.
Qed.

(** Counting from a midnight on a day of the month up to the 28th. *)
Lemma between_28_in_range (f t : Z) :
  TimeWithinDay f = 0 -> getDate f <= 28 -> f <= t ->
  let vals := timerValuesBetween f t in
  isExpired vals = false
  /\ 0 <= years vals
  /\ 0 <= months vals <= 11
  /\ 0 <= weeks vals <= 4
  /\ 0 <= days vals <= 6
  /\ 7 * weeks vals + days vals <= 30.
Proof.
  intros Mid Hd Hle vals. subst vals.
  split; [rewrite isExpired_timerValuesBetween; apply Z.ltb_ge, Hle |].
  destruct (timerValuesBetween_28 f t Hd Hle)
    as (r & Hw & Hdy & Hy & Hmo & _ & _ & _ & Hr).
  pose proof (TimeWithinDay_range t) as Rn.
  destruct Hr as (Rr & Hmo' & _); [rewrite Mid; lia |].
  destruct (div_rem_small r Rr) as (A & B & C).
  rewrite Hw, Hdy. lia.
Qed.

Lemma between_28_adds_up (f t : Z) :
  TimeWithinDay f = 0 -> getDate f <= 28 -> f <= t ->
  let vals := timerValuesBetween f t in
  MakeDay (getFullYear f) (getMonth f + (12 * years vals + months vals)) (getDate f)
    + (7 * weeks vals + days vals) = Day t
  /\ Day t < MakeDay (getFullYear f)
               (getMonth f + (12 * years vals + months vals) + 1) (getDate f).
Proof.
  intros Mid Hd Hle vals. subst vals.
  destruct (timerValuesBetween_28 f t Hd Hle)
    as (r & Hw & Hdy & _ & _ & _ & Hday & _ & Hr).
  pose proof (TimeWithinDay_range t) as Rn.
  destruct Hr as (Rr & _ & Hmax); [rewrite Mid; lia |].
  destruct (div_rem_small r Rr) as (_ & _ & C).
  rewrite !MakeDay_FirstDayOfMonth.
  rewrite (monthIndex_eq f) in Hday, Hmax.
  rewrite Mid in Hday.
  destruct (Z.ltb_spec (TimeWithinDay t) 0) as [K | K]; [lia |].
  rewrite Hw, Hdy, C.
  rewrite !Z.add_assoc in *. lia.
Qed.

(** Counting towards a midnight from a time after midnight of a day with
    the same day of the month. *)
Lemma between_28_same_day_of_month (f t : Z) :
  TimeWithinDay t = 0 -> getDate f <= 28 -> f <= t ->
  getDate t = getDate f -> 0 < TimeWithinDay f ->
  let vals := timerValuesBetween f t in
  isExpired vals = false
  /\ weeks vals = -1 /\ days vals = -1
  /\ 12 * years vals + months vals = monthIndex t - monthIndex f
  /\ 0 < monthIndex t - monthIndex f.
Proof.
  intros Mid Hd Hle Hsame Hlate vals. subst vals.
  split; [rewrite isExpired_timerValuesBetween; apply Z.ltb_ge, Hle |].
  destruct (timerValuesBetween_28 f t Hd Hle)
    as (r & Hw & Hdy & Hy & Hmo & Hn & Hday & Hneg & _).
  rewrite (Hneg ltac:(lia)) in Hw, Hdy.
  rewrite Hsame, Z.ltb_irrefl in Hn.
  split; [exact Hw |]. split; [exact Hdy |]. split; [lia |].
  assert (Day f < Day t) as L.
  { assert (f < t \/ f = t) as [C | C] by lia.
    - apply lt_iff_Day in C. lia.
    - rewrite C in Hlate. lia. }
  apply Day_lt_iff in L. lia.
Qed.







(* ================================================================== *)
(** ** The functions in a time zone *)
(* ================================================================== *)

(** *** A zone whose offset never changes *)

Section FixedOffset.

Variables (h : Zoned.Host) (c : Z).
Hypothesis Hc : Zoned.fixedOffset h c.

Lemma LocalTime_fixed (t : Z) : Zoned.LocalTime h t = t + c.
Proof. unfold Zoned.LocalTime. rewrite (proj1 Hc). reflexivity. Qed.

Lemma UTC_fixed (t : Z) : Zoned.UTC h t = t - c.
Proof. unfold Zoned.UTC. rewrite (proj2 Hc). reflexivity. Qed.

Lemma getFullYear_fixed (t : Z) : Zoned.getFullYear h t = getFullYear (t + c).
Proof. unfold Zoned.getFullYear. rewrite LocalTime_fixed. reflexivity. Qed.

Lemma getMonth_fixed (t : Z) : Zoned.getMonth h t = getMonth (t + c).
Proof. unfold Zoned.getMonth. rewrite LocalTime_fixed. reflexivity. Qed.

Lemma getDate_fixed (t : Z) : Zoned.getDate h t = getDate (t + c).
Proof. unfold Zoned.getDate. rewrite LocalTime_fixed. reflexivity. Qed.

Lemma setFullYear_fixed (t y : Z) :
  Zoned.setFullYear h t y + c = setFullYear (t + c) y.
Proof.
  unfold Zoned.setFullYear. cbv zeta. rewrite UTC_fixed, LocalTime_fixed.
  unfold setFullYear. lia.
Qed.

Lemma setMonth_fixed (t m : Z) :
  Zoned.setMonth h t m + c = setMonth (t + c) m.
Proof.
  unfold Zoned.setMonth. cbv zeta. rewrite UTC_fixed, LocalTime_fixed.
  unfold setMonth. lia.
Qed.

Lemma setHours_fixed (t hour min sec ms : Z) :
  Zoned.setHours h t hour min sec ms + c = setHours (t + c) hour min sec ms.
Proof.
  unfold Zoned.setHours. cbv zeta. rewrite UTC_fixed, LocalTime_fixed.
  unfold setHours. lia.
Qed.

Lemma ltb_fixed (a b : Z) : (a <? b) = (a + c <? b + c).
Proof.
  destruct (Z.ltb_spec a b), (Z.ltb_spec (a + c) (b + c)); try reflexivity; lia.
Qed.

Lemma sub_fixed (a b : Z) : a - b = (a + c) - (b + c).
Proof. lia. Qed.

(** In a zone of fixed offset the decomposition is that of the local
    times. *)
Lemma timerValuesBetween_fixed (f t : Z) :
  Zoned.timerValuesBetween h f t = timerValuesBetween (f + c) (t + c).
Proof.
  unfold Zoned.timerValuesBetween, timerValuesBetween.
  rewrite (ltb_fixed t f).
  destruct (t + c <? f + c); [reflexivity |].
  cbv zeta.
  rewrite (getFullYear_fixed t), (getFullYear_fixed f).
  set (y0 := getFullYear (t + c) - getFullYear (f + c)).
  rewrite (ltb_fixed t (Zoned.setFullYear h f (getFullYear (f + c) + y0))).
  rewrite (setFullYear_fixed f (getFullYear (f + c) + y0)).
  set (a0 := setFullYear (f + c) (getFullYear (f + c) + y0)).
  assert (E0 : Zoned.setFullYear h f (getFullYear (f + c) + y0) = a0 - c)
    by (pose proof (setFullYear_fixed f (getFullYear (f + c) + y0)); subst a0; lia).
  rewrite E0. clear E0.
  rewrite (getFullYear_fixed (a0 - c)).
  replace (a0 - c + c) with a0 by lia.
  assert (E1 : Zoned.setFullYear h (a0 - c) (getFullYear a0 - 1)
               = setFullYear a0 (getFullYear a0 - 1) - c).
  { pose proof (setFullYear_fixed (a0 - c) (getFullYear a0 - 1)) as E.
    replace (a0 - c + c) with a0 in E by lia. lia. }
  rewrite E1. clear E1.
  set (a1 := setFullYear a0 (getFullYear a0 - 1)).
  assert (K : forall yy ay,
    (let months :=
       (getFullYear (t + c) - Zoned.getFullYear h (ay - c)) * 12 +
       (Zoned.getMonth h t - Zoned.getMonth h (ay - c)) in
     let months0 :=
       if Zoned.getDate h t <? Zoned.getDate h (ay - c) then months - 1 else months in
     let months1 := if months0 <? 0 then 0 else months0 in
     let afterMonths :=
       Zoned.setMonth h (ay - c) (Zoned.getMonth h (ay - c) + months1) in
     let remainingMs := t - afterMonths in
     let remainingDays := Math_floor_div remainingMs msPerDay in
     let weeks := Math_floor_div remainingDays 7 in
     let days := js_rem remainingDays 7 in
     let totalDays := Math_floor_div (t - f) msPerDay in
     mkTimerValues yy months1 weeks days totalDays false)
    =
    (let months :=
       (getFullYear (t + c) - getFullYear ay) * 12 +
       (getMonth (t + c) - getMonth ay) in
     let months0 :=
       if getDate (t + c) <? getDate ay then months - 1 else months in
     let months1 := if months0 <? 0 then 0 else months0 in
     let afterMonths := setMonth ay (getMonth ay + months1) in
     let remainingMs := t + c - afterMonths in
     let remainingDays := Math_floor_div remainingMs msPerDay in
     let weeks := Math_floor_div remainingDays 7 in
     let days := js_rem remainingDays 7 in
     let totalDays := Math_floor_div (t + c - (f + c)) msPerDay in
     mkTimerValues yy months1 weeks days totalDays false)).
  { intros yy ay. cbv zeta.
    rewrite (getFullYear_fixed (ay - c)), (getMonth_fixed (ay - c)),
      (getDate_fixed (ay - c)), (getMonth_fixed t), (getDate_fixed t).
    replace (ay - c + c) with ay by lia.
    set (m1 := if (if getDate (t + c) <? getDate ay
                   then (getFullYear (t + c) - getFullYear ay) * 12 +
                        (getMonth (t + c) - getMonth ay) - 1
                   else (getFullYear (t + c) - getFullYear ay) * 12 +
                        (getMonth (t + c) - getMonth ay)) <? 0
               then 0
               else (if getDate (t + c) <? getDate ay
                     then (getFullYear (t + c) - getFullYear ay) * 12 +
                          (getMonth (t + c) - getMonth ay) - 1
                     else (getFullYear (t + c) - getFullYear ay) * 12 +
                          (getMonth (t + c) - getMonth ay))).
    pose proof (setMonth_fixed (ay - c) (getMonth ay + m1)) as E.
    replace (ay - c + c) with ay in E by lia.
    replace (t - Zoned.setMonth h (ay - c) (getMonth ay + m1))
      with (t + c - setMonth ay (getMonth ay + m1)) by lia.
    replace (t + c - (f + c)) with (t - f) by lia.
    reflexivity. }
  destruct (t + c <? a0).
  - apply (K (y0 - 1) a1).
  - apply (K y0 a0).
Qed.

End FixedOffset.

(** *** Any zone *)

Lemma Zoned_timerValuesBetween_expired (h : Zoned.Host) (f t : Z) :
  t < f -> Zoned.timerValuesBetween h f t = mkTimerValues 0 0 0 0 0 true.
Proof.
  intros H. unfold Zoned.timerValuesBetween. cbv zeta.
  destruct (Z.ltb_spec t f); [reflexivity | lia].
Qed.

Lemma Zoned_getTimerValues_Some (h : Zoned.Host) (now : Z) (timer : Timer) (target : Z) :
  Zoned.newDate h (date timer ++ "T00:00:00") = Some target ->
  Zoned.getTimerValues h now timer
  = Some (Zoned.timerValuesBetween h (fromDateOf timer target now)
            (toDateOf timer target now)).
Proof. intros H. unfold Zoned.getTimerValues. rewrite H. reflexivity. Qed.

Lemma Zoned_isExpired (h : Zoned.Host) (f t : Z) :
  isExpired (Zoned.timerValuesBetween h f t) = (t <? f).
Proof.
  unfold Zoned.timerValuesBetween. cbv zeta.
  destruct (t <? f); [reflexivity |].
  match goal with
  | |- context [if ?b then (_, _) else _] => destruct b
  end; reflexivity.
Qed.

Lemma Zoned_totalDays (h : Zoned.Host) (f t : Z) :
  f <= t -> totalDays (Zoned.timerValuesBetween h f t) = (t - f) / msPerDay.
Proof.
  intros L. unfold Zoned.timerValuesBetween. cbv zeta.
  destruct (Z.ltb_spec t f); [lia |].
  match goal with
  | |- context [if ?b then (_, _) else _] => destruct b
  end; reflexivity.
Qed.

(** A setter that sets what the getter reads gives back the time value
    when the local time is read with the offset it was written with. *)
Lemma Zoned_setFullYear_same (h : Zoned.Host) (c t : Z) :
  Zoned.offsetAtUTC h t = c -> Zoned.offsetAtLocal h (t + c) = c ->
  Zoned.setFullYear h t (Zoned.getFullYear h t) = t.
Proof.
  intros Hu Hl. unfold Zoned.setFullYear, Zoned.getFullYear, Zoned.LocalTime, Zoned.UTC.
  cbv zeta. rewrite Hu.
  rewrite (MakeDay_components (t + c)), (MakeDate_Day (t + c)), Hl. lia.
Qed.

Lemma Zoned_setMonth_same (h : Zoned.Host) (c t : Z) :
  Zoned.offsetAtUTC h t = c -> Zoned.offsetAtLocal h (t + c) = c ->
  Zoned.setMonth h t (Zoned.getMonth h t) = t.
Proof.
  intros Hu Hl. unfold Zoned.setMonth, Zoned.getMonth, Zoned.LocalTime, Zoned.UTC.
  cbv zeta. rewrite Hu.
  rewrite (MakeDay_components (t + c)), (MakeDate_Day (t + c)), Hl. lia.
Qed.

(** In a zone of fixed offset [getTimerValues] is the function of the
    first sections at the local time of the clock, for a date string of
    the date inputs. *)
Lemma getTimerValues_fixed (h : Zoned.Host) (c now : Z) (timer : Timer) (l : Z) :
  Zoned.fixedOffset h c ->
  newDate (date timer ++ "T00:00:00") = Some l ->
  Zoned.getTimerValues h now timer = getTimerValues (now + c) timer.
Proof.
  intros Hc H.
  assert (P : Zoned.newDate h (date timer ++ "T00:00:00") = Some (l - c)).
  { unfold Zoned.newDate, Zoned.localDateTime. rewrite H.
    rewrite (UTC_fixed h c Hc). reflexivity. }
  rewrite (Zoned_getTimerValues_Some h now timer (l - c) P).
  rewrite (getTimerValues_Some (now + c) timer l H).
  rewrite (timerValuesBetween_fixed h c Hc).
  unfold fromDateOf, toDateOf.
  destruct (String.eqb (mode timer) "countup");
    replace (l - c + c) with l by lia; reflexivity.
Qed.

(** The forms of the date-time format with a year alone and with a year
    and a month, read as local time: in London the first of July begins at
    23:00 UTC of the day before. *)
Example newDate_short_forms :
  Zoned.newDate Zoned.londonHost "2024T00:00:00" = Some (instant 2024 1 1 0 0)
  /\ Zoned.newDate Zoned.londonHost "2024-07T00:00:00" = Some (instant 2024 6 30 23 0)
  /\ Zoned.newDate Zoned.londonHost "2024-07-01T00:00:00" = Some (instant 2024 6 30 23 0)
  /\ Zoned.newDate Zoned.londonHost "2024-13T00:00:00" = None.
Proof. repeat split; vm_compute; reflexivity. Qed.

(** From a local midnight to a time of the same local day, with one
    offset in force at both: nothing has passed. *)
Lemma Zoned_timerValuesBetween_same_day (h : Zoned.Host) (c f t : Z) :
  Zoned.offsetAtUTC h f = c -> Zoned.offsetAtLocal h (f + c) = c ->
  Zoned.offsetAtUTC h t = c ->
  TimeWithinDay (f + c) = 0 -> Day (t + c) = Day (f + c) ->
  f <= t /\ Zoned.timerValuesBetween h f t = mkTimerValues 0 0 0 0 0 false.
Proof.
  intros Hu Hl Ht Mid D.
  pose proof (midnight_le_same_Day (f + c) (t + c) Mid D) as Le.
  assert (Small : 0 <= t - f < msPerDay).
  { pose proof (TimeWithinDay_range (t + c)) as R.
    pose proof (MakeDate_Day (t + c)) as E1. pose proof (MakeDate_Day (f + c)) as E2.
    rewrite D in E1. rewrite Mid in E2. unfold MakeDate in E1, E2. lia. }
  split; [lia |].
  assert (Y : Zoned.getFullYear h t = Zoned.getFullYear h f).
  { unfold Zoned.getFullYear, Zoned.LocalTime. rewrite Hu, Ht.
    apply (getFullYear_Day (t + c) (f + c) D). }
  assert (M : Zoned.getMonth h t = Zoned.getMonth h f).
  { unfold Zoned.getMonth, Zoned.LocalTime. rewrite Hu, Ht.
    apply (getMonth_Day (t + c) (f + c) D). }
  assert (Dt : Zoned.getDate h t = Zoned.getDate h f).
  { unfold Zoned.getDate, Zoned.LocalTime. rewrite Hu, Ht.
    apply (getDate_Day (t + c) (f + c) D). }
  pose proof (Zoned_setFullYear_same h c f Hu Hl) as SY.
  pose proof (Zoned_setMonth_same h c f Hu Hl) as SM.
  assert (E : (t <? f) = false) by (apply Z.ltb_ge; lia).
  assert (R0 : Math_floor_div (t - f) msPerDay = 0)
    by (unfold Math_floor_div; apply Z.div_small; exact Small).
  unfold Zoned.timerValuesBetween. cbv zeta.
  rewrite E, Y, Z.sub_diag, Z.add_0_r, SY, E.
  cbv iota beta.
  rewrite M, Dt, !Z.sub_diag, Z.ltb_irrefl.
  change (0 * 12 + 0) with 0. change (0 <? 0) with false. cbv iota.
  rewrite Z.add_0_r, SM, R0.
  reflexivity.
Qed.

(** C7, as amended.  The total of whole days is never negative when the
    timer is not expired, in every zone.  When the anchor date is the
    current local date and the offset of local time from UTC that is in
    force at the clock is the one that was in force at the midnight of the
    anchor, every field of the breakdown, the total of whole days
    included, is zero whatever the time of day; a timer that counts up is
    then not expired, and a timer that counts down is expired as soon as
    the clock has passed midnight, and not expired only at midnight
    itself. *)
Theorem totalDays_anchor_today (h : Zoned.Host) (c : Z) (now : Z) (timer : Timer)
    (target : Z) :
  Zoned.newDate h (date timer ++ "T00:00:00") = Some target ->
  exists vals,
    Zoned.getTimerValues h now timer = Some vals
    /\ (isExpired vals = false -> 0 <= totalDays vals)
    /\ (TimeWithinDay (Zoned.LocalTime h target) = 0 ->
        Zoned.offsetAtUTC h target = c ->
        Zoned.offsetAtLocal h (Zoned.LocalTime h target) = c ->
        Zoned.offsetAtUTC h now = c ->
        Zoned.getFullYear h now = Zoned.getFullYear h target ->
        Zoned.getMonth h now = Zoned.getMonth h target ->
        Zoned.getDate h now = Zoned.getDate h target ->
        vals = mkTimerValues 0 0 0 0 0 (isExpired vals)
        /\ isExpired vals =
           (if String.eqb (mode timer) "countup" then false else target <? now)).
Proof.
  intros H. rewrite (Zoned_getTimerValues_Some h now timer target H).
  eexists. split; [reflexivity |]. split.
  - rewrite Zoned_isExpired. intros E. apply Z.ltb_ge in E.
    rewrite (Zoned_totalDays h _ _ E). unfold msPerDay. apply Z.div_pos; lia.
  - intros Mid Hu Hl Hn Y M D.
    unfold Zoned.LocalTime in Mid, Hl. rewrite Hu in Mid, Hl.
    assert (SD : Day (now + c) = Day (target + c)).
    { apply same_date_same_Day.
      - unfold Zoned.getFullYear, Zoned.LocalTime in Y. rewrite Hu, Hn in Y. exact Y.
      - unfold Zoned.getMonth, Zoned.LocalTime in M. rewrite Hu, Hn in M. exact M.
      - unfold Zoned.getDate, Zoned.LocalTime in D. rewrite Hu, Hn in D. exact D. }
    destruct (Zoned_timerValuesBetween_same_day h c target now Hu Hl Hn Mid SD)
      as [Le Z0].
    unfold fromDateOf, toDateOf.
    destruct (String.eqb (mode timer) "countup").
    + rewrite Z0. auto.
    + destruct (Z.ltb_spec target now) as [L | G].
      * rewrite (Zoned_timerValuesBetween_expired h _ _ L). auto.
      * assert (now = target) as -> by lia.
        destruct (Zoned_timerValuesBetween_same_day h c target target Hu Hl Hu Mid
                    eq_refl) as [_ Z1].
        rewrite Z1. auto.
Qed.

(** In London, in summer time, a count up from 2025-07-01 shows zero days
    at noon of that day and is not expired: 11:00 UTC is noon, and the
    anchor is 23:00 UTC of the day before. *)
Lemma totalDays_anchor_today_witness :
  exists vals,
    Zoned.getTimerValues Zoned.londonHost (instant 2025 7 1 11 0)
      (timerOn "2025-07-01" "countup" [])
    = Some vals
    /\ vals = mkTimerValues 0 0 0 0 0 (isExpired vals)
    /\ isExpired vals = false.
Proof.
  destruct (totalDays_anchor_today Zoned.londonHost 3600000 (instant 2025 7 1 11 0)
              (timerOn "2025-07-01" "countup" []) (instant 2025 6 30 23 0)
              ltac:(vm_compute; reflexivity))
    as (vals & Hv & _ & Hsame).
  exists vals. split; [exact Hv |].
  apply Hsame; vm_compute; reflexivity.
Defined.

(** The condition on the offset is needed.  In London the clocks go back
    at 02:00 of 2024-10-27, a day of 25 hours: a count up anchored on that
    day shows one day at 23:30 of the same day, which is 23:30 UTC. *)
Example anchor_today_one_day_in_london :
  Zoned.getTimerValues Zoned.londonHost (instant 2024 10 27 23 30)
    (timerOn "2024-10-27" "countup" [])
  = Some (mkTimerValues 0 0 0 1 1 false)
  /\ Zoned.getDate Zoned.londonHost (instant 2024 10 27 23 30) = 27.
Proof. split; vm_compute; reflexivity. Qed.

(** *** The message resolver in any zone *)

Lemma Zoned_messageStep_spec (h : Zoned.Host) (today : Z) (st : BestState)
    (msg : Message) :
  Zoned.messageStep h today st msg =
    match Zoned.activeDaysUntil h today msg with
    | Some du =>
        if ltInf du (snd st)
        then (Some (mkActiveMessage (toStr (text msg)) du
                      ("📅 " ++ Zoned.formatDate h (toStr (triggerDate msg)))),
              Some du)
        else st
    | None => st
    end.
Proof.
  unfold Zoned.messageStep, Zoned.activeDaysUntil.
  destruct (truthy (text msg)); cbn [negb bind guard]; [| reflexivity].
  destruct (strictEq (triggerType msg) "date"); cbn [andb bind guard]; [| reflexivity].
  destruct (truthy (triggerDate msg)); cbn [bind guard]; [| reflexivity].
  destruct (Zoned.newDate h (toStr (triggerDate msg) ++ "T00:00:00")) as [t |];
    cbn [bind]; [| reflexivity].
  destruct (Math_round_div (t - today) msPerDay <=? 0); cbn [andb bind guard];
    reflexivity.
Qed.

Lemma Zoned_activeDaysUntil_inv (h : Zoned.Host) (today : Z) (msg : Message) (du : Z) :
  Zoned.activeDaysUntil h today msg = Some du ->
  truthy (text msg) = true /\
  strictEq (triggerType msg) "date" = true /\
  truthy (triggerDate msg) = true /\
  exists t, Zoned.newDate h (toStr (triggerDate msg) ++ "T00:00:00") = Some t /\
            du = Math_round_div (t - today) msPerDay /\ du <= 0.
Proof.
  unfold Zoned.activeDaysUntil.
  destruct (truthy (text msg)); cbn [bind guard]; [| discriminate].
  destruct (strictEq (triggerType msg) "date"); cbn [bind guard]; [| discriminate].
  destruct (truthy (triggerDate msg)); cbn [bind guard]; [| discriminate].
  destruct (Zoned.newDate h (toStr (triggerDate msg) ++ "T00:00:00")) as [t |];
    cbn [bind]; [| discriminate].
  destruct (Z.leb_spec (Math_round_div (t - today) msPerDay) 0) as [L | G];
    cbn [bind guard]; [| discriminate].
  intros E. apply Some_inj in E. repeat split. exists t.
  split; [reflexivity |]. split; [symmetry; exact E | lia].
Qed.

Lemma Zoned_getActiveMessage_loop (h : Zoned.Host) (now : Z) (timer : Timer)
    (totalDays : Z) :
  Zoned.getActiveMessage h now timer totalDays =
    fst (fold_left (Zoned.messageStep h (Zoned.setHours h now 0 0 0 0))
           (messagesOf timer) (None, None)).
Proof.
  unfold Zoned.getActiveMessage, messagesOf.
  destruct (messages timer) as [[| m l] |]; reflexivity.
Qed.

(** The loop ends without a message exactly when it began without one and
    no message was active. *)
Lemma Zoned_loop_None (h : Zoned.Host) (today : Z) (l : list Message) (st : BestState) :
  (fst st = None -> snd st = None) ->
  (fst (fold_left (Zoned.messageStep h today) l st) = None <->
   fst st = None /\ forall m, In m l -> Zoned.activeDaysUntil h today m = None).
Proof.
  revert st. induction l as [| x l IH]; intros st Inv; cbn [fold_left].
  - split; [intros H; split; [exact H | intros m []] | intros [H _]; exact H].
  - rewrite (Zoned_messageStep_spec h today st x).
    destruct (Zoned.activeDaysUntil h today x) as [du |] eqn:E.
    + destruct (ltInf du (snd st)) eqn:L.
      * rewrite IH by (cbn [fst]; discriminate). cbn [fst].
        split; [intros [K _]; discriminate K |].
        intros [_ K]. specialize (K x (or_introl eq_refl)). congruence.
      * rewrite (IH st Inv).
        split; intros [K1 K2].
        -- rewrite (Inv K1) in L. discriminate L.
        -- specialize (K2 x (or_introl eq_refl)). congruence.
    + rewrite (IH st Inv).
      split; intros [K1 K2]; (split; [exact K1 |]).
      * intros m [<- | Hm]; [exact E | exact (K2 m Hm)].
      * intros m Hm. apply K2. right. exact Hm.
Qed.

(** [Math.round] of a number of days is positive from half a day on. *)
Lemma Math_round_div_positive (a : Z) :
  12 * msPerHour <= a -> 0 < Math_round_div a msPerDay.
Proof.
  unfold Math_round_div, msPerHour, msPerDay. intros H.
  apply Z.div_str_pos. lia.
Qed.

(** C8, as amended.  The resolver is a total function of its input, in
    every zone and for every parser.  A message with an empty or absent
    text, with an absent or empty trigger date, or with a trigger date the
    parser of the host rejects leaves the state of the loop as it is,
    whatever the state.  The result is none exactly when no message that
    has a text, the trigger type 'date' and a trigger date that parses is
    active.  That is the case when every trigger date that parses lies
    half a day or more after the local midnight of today; and so it is
    when every such date falls on a later local day than today, in a zone
    whose offset from UTC never differs by more than twelve hours between
    two instants. *)
Theorem getActiveMessage_skips_malformed (h : Zoned.Host) (now : Z) (timer : Timer)
    (totalDays : Z) :
  let today := Zoned.setHours h now 0 0 0 0 in
  (forall (msg : Message) (st : BestState),
      truthy (text msg) = false \/
      truthy (triggerDate msg) = false \/
      Zoned.newDate h (toStr (triggerDate msg) ++ "T00:00:00") = None ->
      Zoned.messageStep h today st msg = st)
  /\ (Zoned.getActiveMessage h now timer totalDays = None <->
      forall m, In m (messagesOf timer) -> Zoned.activeDaysUntil h today m = None)
  /\ ((forall m t, In m (messagesOf timer) ->
                   Zoned.newDate h (toStr (triggerDate m) ++ "T00:00:00") = Some t ->
                   today + 12 * msPerHour <= t) ->
      Zoned.getActiveMessage h now timer totalDays = None)
  /\ ((forall a b, Zoned.offsetAtUTC h a - Zoned.offsetAtLocal h b <= 12 * msPerHour) ->
      (forall m t, In m (messagesOf timer) ->
                   Zoned.newDate h (toStr (triggerDate m) ++ "T00:00:00") = Some t ->
                   Day (Zoned.LocalTime h now) < Day (Zoned.LocalTime h t)) ->
      Zoned.getActiveMessage h now timer totalDays = None).
Proof.
  intros today.
  assert (N : Zoned.getActiveMessage h now timer totalDays = None <->
              forall m, In m (messagesOf timer) ->
                        Zoned.activeDaysUntil h today m = None).
  { rewrite Zoned_getActiveMessage_loop. fold today.
    rewrite Zoned_loop_None by (intros _; reflexivity).
    cbn [fst]. split; [intros [_ K]; exact K | intros K; split; [reflexivity | exact K]]. }
  assert (F : (forall m t, In m (messagesOf timer) ->
                 Zoned.newDate h (toStr (triggerDate m) ++ "T00:00:00") = Some t ->
                 today + 12 * msPerHour <= t) ->
              Zoned.getActiveMessage h now timer totalDays = None).
  { intros H. apply N. intros m Hin.
    destruct (Zoned.activeDaysUntil h today m) as [du |] eqn:E; [| reflexivity].
    apply Zoned_activeDaysUntil_inv in E as (_ & _ & _ & t & Hp & Hdu & Hle).
    pose proof (H m t Hin Hp) as Hlt.
    pose proof (Math_round_div_positive (t - today) ltac:(lia)). lia. }
  split; [| split; [exact N | split; [exact F |]]].
  - intros msg st H. rewrite Zoned_messageStep_spec.
    destruct (Zoned.activeDaysUntil h today msg) as [du |] eqn:E; [| reflexivity].
    apply Zoned_activeDaysUntil_inv in E as (Ht & _ & Hd & t & Hp & _).
    destruct H as [H | [H | H]]; congruence.
  - intros B H. apply F. intros m t Hin Hp.
    specialize (H m t Hin Hp).
    subst today. unfold Zoned.setHours, Zoned.UTC. cbv zeta.
    set (lnow := Zoned.LocalTime h now) in *.
    pose proof (B t (MakeDate (Day lnow) (MakeTime 0 0 0 0))) as Bt.
    unfold Zoned.LocalTime in H.
    pose proof (MakeDate_Day (t + Zoned.offsetAtUTC h t)) as E.
    pose proof (TimeWithinDay_range (t + Zoned.offsetAtUTC h t)) as R.
    change (MakeTime 0 0 0 0) with 0 in *.
    unfold MakeDate, msPerDay, msPerHour in *. lia.
Qed.

(** In London on 2024-01-15, a timer whose messages are due on 2024-02-01
    and on 2024-04-01 shows none, and a message without text is stepped
    over. *)
Lemma getActiveMessage_skips_malformed_witness :
  Zoned.messageStep Zoned.londonHost
    (Zoned.setHours Zoned.londonHost (instant 2024 1 15 9 30) 0 0 0 0)
    (Some (mkActiveMessage "A" (-14) "x"), Some (-14))
    (mkMessage (Some EmptyString) (Some "date") (Some "2023-01-01"))
  = (Some (mkActiveMessage "A" (-14) "x"), Some (-14))
  /\ Zoned.getActiveMessage Zoned.londonHost (instant 2024 1 15 9 30)
       (timerOn "2024-01-01" "countup"
          [dateMessage "A" "2024-02-01"; dateMessage "B" "2024-04-01"]) 14 = None.
Proof.
  destruct (getActiveMessage_skips_malformed Zoned.londonHost (instant 2024 1 15 9 30)
              (timerOn "2024-01-01" "countup"
                 [dateMessage "A" "2024-02-01"; dateMessage "B" "2024-04-01"]) 14)
    as (Hskip & _ & Hfuture & _).
  split.
  - apply Hskip. left. reflexivity.
  - apply Hfuture. intros m t [<- | [<- | []]] H; vm_compute in H;
      apply Some_inj in H; rewrite <- H; vm_compute; discriminate.
Defined.

(** A trigger date of a year and a month alone is a date the parser
    accepts, the first day of the month: on 2024-01-15 the message of
    '2024-01' is shown, with 14 days since. *)
Example getActiveMessage_year_and_month :
  Zoned.getActiveMessage Zoned.londonHost (instant 2024 1 15 9 30)
    (timerOn "2024-01-01" "countup" [dateMessage "A" "2024-01"]) 14
  = Some (mkActiveMessage "A" (-14) "📅 1 January 2024").
Proof. vm_compute. reflexivity. Qed.

(** *** The breakdown in a zone whose offset never changes *)

(** X2.  In a zone whose offset never changes, a timer that counts up
    from a local midnight shows the same values at every time of a local
    day: they depend on the clock through its calendar day only. *)
Theorem getTimerValues_countup_same_day (h : Zoned.Host) (c : Z) (now now' : Z)
    (timer : Timer) :
  Zoned.fixedOffset h c ->
  mode timer = "countup" ->
  (forall target, Zoned.newDate h (date timer ++ "T00:00:00") = Some target ->
                  TimeWithinDay (Zoned.LocalTime h target) = 0) ->
  Day (Zoned.LocalTime h now) = Day (Zoned.LocalTime h now') ->
  Zoned.getTimerValues h now timer = Zoned.getTimerValues h now' timer.
Proof.
  intros Hc Hm Mid Hd. unfold Zoned.getTimerValues.
  destruct (Zoned.newDate h (date timer ++ "T00:00:00")) as [target |] eqn:E;
    cbn [bind]; [| reflexivity].
  specialize (Mid target eq_refl).
  rewrite (LocalTime_fixed h c Hc) in Mid, Hd. rewrite (LocalTime_fixed h c Hc) in Hd.
  destruct (fromDateOf_countup timer target now Hm) as [-> ->].
  destruct (fromDateOf_countup timer target now' Hm) as [-> ->].
  rewrite !(timerValuesBetween_fixed h c Hc).
  rewrite (timerValuesBetween_Day (target + c) (now + c) (now' + c) Mid Hd).
  reflexivity.
Qed.

Lemma getTimerValues_countup_same_day_witness :
  Zoned.getTimerValues (Zoned.fixedHost 19800000) (instant 2024 4 10 0 5)
    (timerOn "2024-01-01" "countup" [])
  = Zoned.getTimerValues (Zoned.fixedHost 19800000) (instant 2024 4 10 18 25)
      (timerOn "2024-01-01" "countup" []).
Proof.
  apply (getTimerValues_countup_same_day (Zoned.fixedHost 19800000) 19800000).
  - split; reflexivity.
  - reflexivity.
  - intros target H. vm_compute in H. apply Some_inj in H. rewrite <- H.
    vm_compute. reflexivity.
  - vm_compute. reflexivity.
Defined.

(** X3.  In a zone whose offset never changes, counting up from a local
    midnight on a day of the month up to the 28th, once the anchor has
    come: the months of the breakdown are at most 11, the weeks at most 4,
    the days at most 6, weeks and days together at most 30 days, and none
    of them is negative. *)
Theorem countup_breakdown_in_range (h : Zoned.Host) (c : Z) (now : Z)
    (timer : Timer) (target : Z) :
  Zoned.fixedOffset h c ->
  Zoned.newDate h (date timer ++ "T00:00:00") = Some target ->
  TimeWithinDay (Zoned.LocalTime h target) = 0 ->
  mode timer = "countup" ->
  Zoned.getDate h target <= 28 ->
  target <= now ->
  exists vals,
    Zoned.getTimerValues h now timer = Some vals
    /\ isExpired vals = false
    /\ 0 <= years vals
    /\ 0 <= months vals <= 11
    /\ 0 <= weeks vals <= 4
    /\ 0 <= days vals <= 6
    /\ 7 * weeks vals + days vals <= 30.
Proof.
  intros Hc Hp Mid Hm Hd Hle.
  rewrite (Zoned_getTimerValues_Some h now timer target Hp).
  destruct (fromDateOf_countup timer target now Hm) as [-> ->].
  rewrite (timerValuesBetween_fixed h c Hc).
  rewrite (LocalTime_fixed h c Hc) in Mid. rewrite (getDate_fixed h c Hc) in Hd.
  eexists. split; [reflexivity |].
  apply (between_28_in_range (target + c) (now + c) Mid Hd). lia.
Qed.

Lemma countup_breakdown_in_range_witness :
  exists vals,
    Zoned.getTimerValues (Zoned.fixedHost 19800000) (instant 2024 3 5 18 45)
      (timerOn "2022-11-20" "countup" [])
    = Some vals
    /\ isExpired vals = false
    /\ 0 <= years vals
    /\ 0 <= months vals <= 11
    /\ 0 <= weeks vals <= 4
    /\ 0 <= days vals <= 6
    /\ 7 * weeks vals + days vals <= 30.
Proof.
  apply (countup_breakdown_in_range (Zoned.fixedHost 19800000) 19800000
           (instant 2024 3 5 18 45) (timerOn "2022-11-20" "countup" [])
           (instant 2022 11 20 0 0 - 19800000)).
  - split; reflexivity.
  - vm_compute. reflexivity.
  - vm_compute. reflexivity.
  - reflexivity.
  - vm_compute. discriminate.
  - vm_compute. discriminate.
Defined.

(** X4.  In a zone whose offset never changes, counting up from a local
    midnight on a day of the month up to the 28th, the breakdown adds up:
    the anchor date advanced by the years and months shown, and then by
    the weeks and days shown, is the local day of the clock, and one month
    more would lead past it. *)
Theorem countup_breakdown_adds_up (h : Zoned.Host) (c : Z) (now : Z)
    (timer : Timer) (target : Z) :
  Zoned.fixedOffset h c ->
  Zoned.newDate h (date timer ++ "T00:00:00") = Some target ->
  TimeWithinDay (Zoned.LocalTime h target) = 0 ->
  mode timer = "countup" ->
  Zoned.getDate h target <= 28 ->
  target <= now ->
  exists vals,
    Zoned.getTimerValues h now timer = Some vals
    /\ MakeDay (Zoned.getFullYear h target)
         (Zoned.getMonth h target + (12 * years vals + months vals))
         (Zoned.getDate h target)
       + (7 * weeks vals + days vals) = Day (Zoned.LocalTime h now)
    /\ Day (Zoned.LocalTime h now)
       < MakeDay (Zoned.getFullYear h target)
           (Zoned.getMonth h target + (12 * years vals + months vals) + 1)
           (Zoned.getDate h target).
Proof.
  intros Hc Hp Mid Hm Hd Hle.
  rewrite (Zoned_getTimerValues_Some h now timer target Hp).
  destruct (fromDateOf_countup timer target now Hm) as [-> ->].
  rewrite (timerValuesBetween_fixed h c Hc).
  rewrite (LocalTime_fixed h c Hc) in Mid. rewrite (getDate_fixed h c Hc) in Hd.
  rewrite (getFullYear_fixed h c Hc), (getMonth_fixed h c Hc), (getDate_fixed h c Hc),
    (LocalTime_fixed h c Hc).
  eexists. split; [reflexivity |].
  apply (between_28_adds_up (target + c) (now + c) Mid Hd). lia.
Qed.

Lemma countup_breakdown_adds_up_witness :
  exists vals,
    Zoned.getTimerValues (Zoned.fixedHost 19800000) (instant 2024 3 5 18 45)
      (timerOn "2022-11-20" "countup" [])
    = Some vals
    /\ MakeDay 2022 (10 + (12 * years vals + months vals)) 20
       + (7 * weeks vals + days vals) = Day (instant 2024 3 6 0 15)
    /\ Day (instant 2024 3 6 0 15)
       < MakeDay 2022 (10 + (12 * years vals + months vals) + 1) 20.
Proof.
  apply (countup_breakdown_adds_up (Zoned.fixedHost 19800000) 19800000
           (instant 2024 3 5 18 45) (timerOn "2022-11-20" "countup" [])
           (instant 2022 11 20 0 0 - 19800000)).
  - split; reflexivity.
  - vm_compute. reflexivity.
  - vm_compute. reflexivity.
  - reflexivity.
  - vm_compute. discriminate.
  - vm_compute. discriminate.
Defined.

(** X7.  In a zone whose offset never changes, counting down to a local
    midnight that lies ahead, on a day of the month (up to the 28th) that
    is the day of the month of the anchor and after midnight: the weeks
    and the days of the breakdown are both -1, and the years and months
    together count every month up to the month of the anchor.  The borrow
    of a month looks at the days of the month only, so the anchor advanced
    by the months lies later in the day than the target, which is a
    midnight. *)
Theorem countdown_same_day_of_month (h : Zoned.Host) (c : Z) (now : Z)
    (timer : Timer) (target : Z) :
  Zoned.fixedOffset h c ->
  Zoned.newDate h (date timer ++ "T00:00:00") = Some target ->
  TimeWithinDay (Zoned.LocalTime h target) = 0 ->
  mode timer <> "countup" ->
  Zoned.getDate h now <= 28 ->
  now <= target ->
  Zoned.getDate h target = Zoned.getDate h now ->
  0 < TimeWithinDay (Zoned.LocalTime h now) ->
  exists vals,
    Zoned.getTimerValues h now timer = Some vals
    /\ isExpired vals = false
    /\ weeks vals = -1 /\ days vals = -1
    /\ 12 * years vals + months vals
       = monthIndex (Zoned.LocalTime h target) - monthIndex (Zoned.LocalTime h now)
    /\ 0 < monthIndex (Zoned.LocalTime h target) - monthIndex (Zoned.LocalTime h now).
Proof.
  intros Hc Hp Mid Hm Hd Hle Hsame Hlate.
  rewrite (Zoned_getTimerValues_Some h now timer target Hp).
  destruct (fromDateOf_countdown timer target now Hm) as [-> ->].
  rewrite (timerValuesBetween_fixed h c Hc).
  rewrite (LocalTime_fixed h c Hc) in Mid, Hlate |- *.
  rewrite (LocalTime_fixed h c Hc).
  rewrite (getDate_fixed h c Hc) in Hd, Hsame. rewrite (getDate_fixed h c Hc) in Hsame.
  eexists. split; [reflexivity |].
  apply (between_28_same_day_of_month (now + c) (target + c) Mid Hd); [lia | | exact Hlate].
  exact Hsame.
Qed.

Lemma countdown_same_day_of_month_witness :
  exists vals,
    Zoned.getTimerValues (Zoned.fixedHost (-18000000)) (instant 2024 5 10 20 0)
      (timerOn "2024-06-10" "countdown" [])
    = Some vals
    /\ isExpired vals = false
    /\ weeks vals = -1 /\ days vals = -1
    /\ 12 * years vals + months vals = 1.
Proof.
  destruct (countdown_same_day_of_month (Zoned.fixedHost (-18000000)) (-18000000)
              (instant 2024 5 10 20 0) (timerOn "2024-06-10" "countdown" [])
              (instant 2024 6 10 5 0))
    as (vals & Hv & He & Hw & Hd & Hm & _).
  - split; reflexivity.
  - vm_compute. reflexivity.
  - vm_compute. reflexivity.
  - discriminate.
  - vm_compute. discriminate.
  - vm_compute. discriminate.
  - vm_compute. reflexivity.
  - vm_compute. reflexivity.
  - exists vals. repeat split; assumption.
Defined.

(** *** What daylight saving changes *)

(** The properties of a zone of fixed offset above do not all hold where
    the clocks change.  In London, counting up from 2024-03-01, the total
    of days on 2024-04-01 is 30 at 00:30 and 31 at noon, which are 23:30
    UTC of the day before and 11:00 UTC: the clocks went forward on
    2024-03-31. *)
Example countup_within_a_day_in_london :
  Zoned.getTimerValues Zoned.londonHost (instant 2024 3 31 23 30)
    (timerOn "2024-03-01" "countup" [])
  = Some (mkTimerValues 0 1 0 0 30 false)
  /\ Zoned.getTimerValues Zoned.londonHost (instant 2024 4 1 11 0)
       (timerOn "2024-03-01" "countup" [])
     = Some (mkTimerValues 0 1 0 0 31 false)
  /\ Day (Zoned.LocalTime Zoned.londonHost (instant 2024 3 31 23 30))
     = Day (Zoned.LocalTime Zoned.londonHost (instant 2024 4 1 11 0)).
Proof. repeat split; vm_compute; reflexivity. Qed.

(** Counting up from 2024-10-01, at 23:30 of 2024-10-31 four weeks and
    three days have passed, 31 days within October: the clocks went back
    on 2024-10-27. *)
Example countup_31_days_in_london :
  Zoned.getTimerValues Zoned.londonHost (instant 2024 10 31 23 30)
    (timerOn "2024-10-01" "countup" [])
  = Some (mkTimerValues 0 0 4 3 31 false).
Proof. vm_compute. reflexivity. Qed.

(** Counting down to 2024-10-27, at 23:30 of 2024-09-27, which is 22:30
    UTC, the weeks are -1 and the days -2. *)
Example countdown_same_day_of_month_in_london :
  Zoned.getTimerValues Zoned.londonHost (instant 2024 9 27 22 30)
    (timerOn "2024-10-27" "countdown" [])
  = Some (mkTimerValues 0 1 (-1) (-2) 29 false).
Proof. vm_compute. reflexivity. Qed.


(* ================================================================== *)
(** ** Dates as they are displayed *)
(* ================================================================== *)








(* ================================================================== *)
(** ** The message resolver over time and over the order of the list *)
(* ================================================================== *)

(** The days until the trigger date are the difference of the calendar
    days; the rounding never comes into play. *)
Lemma activeDaysUntil_Day (now : Z) (msg : Message) (du : Z) :
  activeDaysUntil (setHours now 0 0 0 0) msg = Some du <->
  truthy (text msg) = true /\
  strictEq (triggerType msg) "date" = true /\
  truthy (triggerDate msg) = true /\
  exists t, newDate (toStr (triggerDate msg) ++ "T00:00:00") = Some t /\
            du = Day t - Day now /\ du <= 0.
Proof.
  rewrite activeDaysUntil_inv.
  split; intros (Ht & Hy & Hd & t & Hp & Hdu & Hle); (repeat split; auto);
    exists t; (split; [exact Hp |]);
    rewrite (Math_round_div_midnights t _ (newDate_midnight _ _ Hp)
               (TimeWithinDay_setHours0 now)), Day_setHours0 in *; auto.
Qed.

(** X9.  A message is only ever returned on or after its trigger date: the
    result stems from a message of the timer with the trigger type 'date'
    whose date parses, its days are the calendar days from today to that
    date, and they are not positive. *)
Theorem getActiveMessage_trigger_date_has_come (now : Z) (timer : Timer)
    (totalDays : Z) (r : ActiveMessage) :
  getActiveMessage now timer totalDays = Some r ->
  exists m t,
    In m (messagesOf timer)
    /\ triggerType m = Some "date"
    /\ am_text r = toStr (text m)
    /\ triggerLabel r = "📅 " ++ formatDate (toStr (triggerDate m))
    /\ newDate (toStr (triggerDate m) ++ "T00:00:00") = Some t
    /\ daysUntil r = Day t - Day now
    /\ Day t <= Day now.
Proof.
  intros H.
  destruct (getActiveMessage_Some _ _ _ _ H) as (i & m & Hi & Hm & Hr & _).
  apply activeDaysUntil_Day in Hm as (_ & Hy & _ & t & Hp & Hdu & Hle).
  exists m, t. split; [eapply nth_error_In; eauto |].
  split.
  { unfold strictEq in Hy. destruct (triggerType m) as [v |]; [| discriminate].
    apply String.eqb_eq in Hy. now subst v. }
  rewrite Hr. cbn [am_text triggerLabel resultOf]. repeat split; auto; lia.
Qed.

Lemma getActiveMessage_trigger_date_has_come_witness :
  exists m t,
    In m [dateMessage "A" "2024-01-01"; dateMessage "B" "2024-02-01"]
    /\ triggerType m = Some "date"
    /\ "A" = toStr (text m)
    /\ "📅 1 January 2024" = "📅 " ++ formatDate (toStr (triggerDate m))
    /\ newDate (toStr (triggerDate m) ++ "T00:00:00") = Some t
    /\ -14 = Day t - Day (instant 2024 1 15 9 30)
    /\ Day t <= Day (instant 2024 1 15 9 30).
Proof.
  apply (getActiveMessage_trigger_date_has_come (instant 2024 1 15 9 30)
           (timerOn "2023-12-25" "countup"
              [dateMessage "A" "2024-01-01"; dateMessage "B" "2024-02-01"]) 21
           (mkActiveMessage "A" (-14) "📅 1 January 2024")).
  vm_compute. reflexivity.
Defined.

(** X10.  Once the resolver returns a message it returns the same message at
    every later time, as long as the list is the same: the same text and
    trigger label, with the days decreased by the calendar days that have
    passed.  A message whose date comes later never replaces it. *)
Theorem getActiveMessage_stays (now now' : Z) (timer : Timer)
    (totalDays totalDays' : Z) (r : ActiveMessage) :
  getActiveMessage now timer totalDays = Some r ->
  now <= now' ->
  getActiveMessage now' timer totalDays'
  = Some (mkActiveMessage (am_text r) (daysUntil r - (Day now' - Day now))
            (triggerLabel r)).
Proof.
  intros H Hle.
  destruct (getActiveMessage_Some _ _ _ _ H) as (i & m & Hi & Hm & Hr & Hmin).
  pose proof (Day_mono _ _ Hle) as Dle.
  pose proof Hm as Hm0.
  apply activeDaysUntil_Day in Hm as (Ht & Hy & Hd & t & Hp & Hdu & Hneg).
  rewrite Hr. cbn [am_text triggerLabel daysUntil resultOf].
  change (mkActiveMessage (toStr (text m)) (daysUntil r - (Day now' - Day now))
            ("📅 " ++ formatDate (toStr (triggerDate m))))
    with (resultOf m (daysUntil r - (Day now' - Day now))).
  apply (getActiveMessage_first_of_least now' timer totalDays' i m); [exact Hi | |].
  - apply activeDaysUntil_Day. repeat split; auto. exists t. repeat split; auto; lia.
  - intros j m' du' Hj Hm'.
    apply activeDaysUntil_Day in Hm' as (Ht' & Hy' & Hd' & t' & Hp' & Hdu' & Hneg').
    destruct (Z_le_gt_dec (Day t') (Day now)) as [A | A].
    + assert (Hact : activeDaysUntil (setHours now 0 0 0 0) m' = Some (Day t' - Day now)).
      { apply activeDaysUntil_Day. repeat split; auto. exists t'.
        repeat split; auto; lia. }
      destruct (Hmin _ _ _ Hj Hact) as [L S]. split; [lia |]. intros K.
      specialize (S K). lia.
    + split; [lia |]. intros _. lia.
Qed.

Lemma getActiveMessage_stays_witness :
  getActiveMessage (instant 2024 3 1 8 0)
    (timerOn "2023-12-25" "countup"
       [dateMessage "B" "2024-02-01"; dateMessage "A" "2024-01-01"]) 67
  = Some (mkActiveMessage "A" (-14 - (Day (instant 2024 3 1 8 0)
                                       - Day (instant 2024 1 15 9 30)))
            "📅 1 January 2024").
Proof.
  apply (getActiveMessage_stays (instant 2024 1 15 9 30) (instant 2024 3 1 8 0)
           (timerOn "2023-12-25" "countup"
              [dateMessage "B" "2024-02-01"; dateMessage "A" "2024-01-01"]) 21 67
           (mkActiveMessage "A" (-14) "📅 1 January 2024")).
  - vm_compute. reflexivity.
  - vm_compute. discriminate.
Defined.

(** X11.  The order of the messages matters for ties only: for two lists with
    the same messages in another order the resolver returns none for both
    or messages with the same number of days. *)
Theorem getActiveMessage_order (now : Z) (timer : Timer) (totalDays : Z)
    (l l' : list Message) :
  Permutation l l' ->
  option_map daysUntil (getActiveMessage now (withMessages timer l) totalDays)
  = option_map daysUntil (getActiveMessage now (withMessages timer l') totalDays).
Proof.
  intros P.
  assert (Hin : forall m, In m l <-> In m l').
  { intros m. split; apply Permutation_in; [exact P | symmetry; exact P]. }
  destruct (getActiveMessage now (withMessages timer l) totalDays) as [r |] eqn:E;
    destruct (getActiveMessage now (withMessages timer l') totalDays) as [r' |] eqn:E';
    cbn [option_map].
  - destruct (getActiveMessage_Some _ _ _ _ E) as (i & m & Hi & Hm & _ & _).
    destruct (getActiveMessage_Some _ _ _ _ E') as (i' & m' & Hi' & Hm' & _ & _).
    apply nth_error_In in Hi, Hi'.
    change (messagesOf (withMessages timer l)) with l in Hi.
    change (messagesOf (withMessages timer l')) with l' in Hi'.
    destruct (getActiveMessage_returns_least now (withMessages timer l) totalDays
                m' (daysUntil r') (proj2 (Hin m') Hi') Hm')
      as (r1 & _ & E1 & _ & _ & _ & L1 & _).
    destruct (getActiveMessage_returns_least now (withMessages timer l') totalDays
                m (daysUntil r) (proj1 (Hin m) Hi) Hm)
      as (r2 & _ & E2 & _ & _ & _ & L2 & _).
    rewrite E in E1. rewrite E' in E2.
    injection E1 as <-. injection E2 as <-. f_equal. lia.
  - destruct (getActiveMessage_Some _ _ _ _ E) as (i & m & Hi & Hm & _ & _).
    apply nth_error_In in Hi.
    change (messagesOf (withMessages timer l)) with l in Hi.
    rewrite getActiveMessage_None in E'.
    rewrite (E' m (proj1 (Hin m) Hi)) in Hm. discriminate.
  - destruct (getActiveMessage_Some _ _ _ _ E') as (i & m & Hi & Hm & _ & _).
    apply nth_error_In in Hi.
    change (messagesOf (withMessages timer l')) with l' in Hi.
    rewrite getActiveMessage_None in E.
    rewrite (E m (proj2 (Hin m) Hi)) in Hm. discriminate.
  - reflexivity.
Qed.

Lemma getActiveMessage_order_witness :
  option_map daysUntil
    (getActiveMessage (instant 2024 1 15 9 30)
       (withMessages (timerOn "2023-12-25" "countup" [])
          [dateMessage "A" "2024-01-01"; dateMessage "B" "2024-01-10"]) 21)
  = option_map daysUntil
      (getActiveMessage (instant 2024 1 15 9 30)
         (withMessages (timerOn "2023-12-25" "countup" [])
            [dateMessage "B" "2024-01-10"; dateMessage "A" "2024-01-01"]) 21).
Proof.
  apply getActiveMessage_order. apply perm_swap.
Defined.

(* ================================================================== *)
(** ** Escaped text and the markup around it *)
(* ================================================================== *)

Lemma countChar_append (c : ascii) (a b : string) :
  countChar c (a ++ b) = (countChar c a + countChar c b)%nat.
Proof.
  induction a as [| x a IH]; cbn [String.append countChar]; [reflexivity |].
  rewrite IH. apply Nat.add_assoc.
Qed.

(** Induction over a string two characters at a time. *)
Lemma string_ind2 (P : string -> Prop) :
  P EmptyString ->
  (forall c, P (String c EmptyString)) ->
  (forall c c2 r, P r -> P (String c2 r) -> P (String c (String c2 r))) ->
  forall s, P s.
Proof.
  intros H0 H1 H2 s.
  enough (P s /\ forall c, P (String c s)) as [K _] by exact K.
  induction s as [| c2 r [IH1 IH2]].
  - split; [exact H0 | exact H1].
  - split; [apply IH2 |]. intros c. apply H2; [exact IH1 | apply IH2].
Qed.

Lemma escapeHtml_cons (c : ascii) (rest : string) :
  escapeHtml (String c rest) =
    if Ascii.eqb c "&"%char then "&amp;" ++ escapeHtml rest
    else if Ascii.eqb c "<"%char then "&lt;" ++ escapeHtml rest
    else if Ascii.eqb c ">"%char then "&gt;" ++ escapeHtml rest
    else
      match rest with
      | String c2 rest2 =>
          if Ascii.eqb c (ascii_of_nat 194) && Ascii.eqb c2 (ascii_of_nat 160)
          then "&nbsp;" ++ escapeHtml rest2
          else String c (escapeHtml rest)
      | EmptyString => String c EmptyString
      end.
Proof. destruct rest; reflexivity. Qed.

(** Escaped text holds neither of the two characters that delimit a
    tag. *)
Lemma escapeHtml_no_angle (s : string) :
  countChar "<"%char (escapeHtml s) = O /\ countChar ">"%char (escapeHtml s) = O.
Proof.
  induction s as [| c | c c2 r [IHa IHb] [IHc IHd]] using string_ind2.
  - split; reflexivity.
  - rewrite escapeHtml_cons.
    destruct (Ascii.eqb_spec c "&"%char); [split; reflexivity |].
    destruct (Ascii.eqb_spec c "<"%char); [split; reflexivity |].
    destruct (Ascii.eqb_spec c ">"%char); [split; reflexivity |].
    cbn [countChar].
    destruct (Ascii.eqb_spec c "<"%char); [contradiction |].
    destruct (Ascii.eqb_spec c ">"%char); [contradiction |]. split; reflexivity.
  - rewrite escapeHtml_cons.
    destruct (Ascii.eqb_spec c "&"%char);
      [rewrite !countChar_append, IHc, IHd; split; reflexivity |].
    destruct (Ascii.eqb_spec c "<"%char);
      [rewrite !countChar_append, IHc, IHd; split; reflexivity |].
    destruct (Ascii.eqb_spec c ">"%char);
      [rewrite !countChar_append, IHc, IHd; split; reflexivity |].
    destruct (Ascii.eqb c (ascii_of_nat 194) && Ascii.eqb c2 (ascii_of_nat 160)).
    + rewrite !countChar_append, IHa, IHb. split; reflexivity.
    + cbn [countChar]. rewrite IHc, IHd.
      destruct (Ascii.eqb_spec c "<"%char); [contradiction |].
      destruct (Ascii.eqb_spec c ">"%char); [contradiction |]. split; reflexivity.
Qed.

Lemma stripPrefix_other (p : string) (c : ascii) (s : string) :
  c <> "&"%char -> stripPrefix (String "&" p) (String c s) = None.
Proof.
  intros N. cbn [stripPrefix].
  destruct (Ascii.eqb_spec "&"%char c); [congruence | reflexivity].
Qed.

Lemma unescapeHtml_other (n : nat) (c : ascii) (s : string) :
  c <> "&"%char ->
  unescapeHtml (S n) (String c s) = String c (unescapeHtml n s).
Proof.
  intros N. cbn [unescapeHtml]. rewrite !stripPrefix_other by exact N. reflexivity.
Qed.

(** The text can be read back from its escaped form. *)
Lemma unescapeHtml_escapeHtml (s : string) :
  forall fuel, (String.length s <= fuel)%nat -> unescapeHtml fuel (escapeHtml s) = s.
Proof.
  induction s as [| c | c c2 r IHr IHc] using string_ind2; intros fuel Hf.
  - destruct fuel; reflexivity.
  - destruct fuel as [| n]; [cbn in Hf; lia |].
    rewrite escapeHtml_cons.
    destruct (Ascii.eqb_spec c "&"%char) as [-> | Na]; [destruct n; reflexivity |].
    destruct (Ascii.eqb_spec c "<"%char) as [-> | Nl]; [destruct n; reflexivity |].
    destruct (Ascii.eqb_spec c ">"%char) as [-> | Ng]; [destruct n; reflexivity |].
    rewrite unescapeHtml_other by exact Na. destruct n; reflexivity.
  - destruct fuel as [| n]; [cbn in Hf; lia |].
    assert (Hr : forall k, (n <= S k)%nat -> (String.length r <= k)%nat)
      by (intros k Hk; cbn in Hf; lia).
    assert (Hc : (String.length (String c2 r) <= n)%nat) by (cbn in Hf |- *; lia).
    rewrite escapeHtml_cons.
    destruct (Ascii.eqb_spec c "&"%char) as [-> | Na].
    { change (unescapeHtml (S n) ("&amp;" ++ escapeHtml (String c2 r)))
        with (String "&" (unescapeHtml n (escapeHtml (String c2 r)))).
      now rewrite (IHc n Hc). }
    destruct (Ascii.eqb_spec c "<"%char) as [-> | Nl].
    { change (unescapeHtml (S n) ("&lt;" ++ escapeHtml (String c2 r)))
        with (String "<" (unescapeHtml n (escapeHtml (String c2 r)))).
      now rewrite (IHc n Hc). }
    destruct (Ascii.eqb_spec c ">"%char) as [-> | Ng].
    { change (unescapeHtml (S n) ("&gt;" ++ escapeHtml (String c2 r)))
        with (String ">" (unescapeHtml n (escapeHtml (String c2 r)))).
      now rewrite (IHc n Hc). }
    destruct (Ascii.eqb_spec c (ascii_of_nat 194)) as [-> | N1]; cbn [andb].
    + destruct (Ascii.eqb_spec c2 (ascii_of_nat 160)) as [-> | N2].
      * change (unescapeHtml (S n) ("&nbsp;" ++ escapeHtml r))
          with (String (ascii_of_nat 194) (String (ascii_of_nat 160)
                  (unescapeHtml n (escapeHtml r)))).
        rewrite (IHr n); [reflexivity |]. cbn in Hf. lia.
      * rewrite unescapeHtml_other by discriminate. now rewrite (IHc n Hc).
    + rewrite unescapeHtml_other by exact Na. now rewrite (IHc n Hc).
Qed.

(** X12.  [escapeHtml] loses nothing: two texts with the same escaped form are
    the same text. *)
Theorem escapeHtml_injective (s1 s2 : string) :
  escapeHtml s1 = escapeHtml s2 -> s1 = s2.
Proof.
  intros H.
  pose proof (unescapeHtml_escapeHtml s1 (String.length s1 + String.length s2)
                ltac:(lia)) as E1.
  pose proof (unescapeHtml_escapeHtml s2 (String.length s1 + String.length s2)
                ltac:(lia)) as E2.
  rewrite H in E1. congruence.
Qed.

Lemma escapeHtml_injective_witness : "a < b" = "a < b".
Proof. apply escapeHtml_injective. reflexivity. Defined.

(** *** Dates and numbers hold no markup *)

Lemma countChar_string_of_uint (c : ascii) (d : Decimal.uint) :
  (nat_of_ascii c < 45)%nat \/ (57 < nat_of_ascii c)%nat ->
  countChar c (NilEmpty.string_of_uint d) = O.
Proof.
  intros H.
  assert (K : forall a, (48 <= nat_of_ascii a <= 57)%nat -> Ascii.eqb a c = false).
  { intros a Ha. destruct (Ascii.eqb_spec a c) as [-> | _]; [lia | reflexivity]. }
  induction d; cbn [NilEmpty.string_of_uint countChar]; [reflexivity | ..];
    rewrite IHd, K; try reflexivity; cbn; lia.
Qed.

Lemma countChar_String_of_Z (c : ascii) (z : Z) :
  (nat_of_ascii c < 45)%nat \/ (57 < nat_of_ascii c)%nat ->
  countChar c (String_of_Z z) = O.
Proof.
  intros H. unfold String_of_Z, NilZero.string_of_int.
  assert (U : forall d, countChar c (NilZero.string_of_uint d) = O).
  { intros d. unfold NilZero.string_of_uint.
    destruct d; try apply (countChar_string_of_uint c _ H).
    cbn [countChar]. destruct (Ascii.eqb_spec "0"%char c) as [<- | _];
      [cbn in H; lia | reflexivity]. }
  destruct (Z.to_int z); [apply U |].
  cbn [countChar]. rewrite U.
  destruct (Ascii.eqb_spec "-"%char c) as [<- | _]; [cbn in H; lia | reflexivity].
Qed.

Lemma countChar_monthName (c : ascii) (m : Z) :
  (nat_of_ascii c < 65)%nat ->
  countChar c (monthName m) = O.
Proof.
  intros H. unfold monthName.
  assert (K : forall s, In s ["January"; "February"; "March"; "April"; "May"; "June";
                              "July"; "August"; "September"; "October"; "November";
                              "December"; EmptyString] -> countChar c s = O).
  { assert (L : forall a r, (65 <= nat_of_ascii a)%nat ->
                            countChar c (String a r) = countChar c r).
    { intros a r Ha. cbn [countChar].
      destruct (Ascii.eqb_spec a c) as [-> | _]; [lia | reflexivity]. }
    intros s Hs. cbn [In] in Hs.
    repeat (destruct Hs as [<- | Hs];
            [repeat (rewrite L by (cbn; lia)); reflexivity |]).
    contradiction. }
  destruct (nth_in_or_default (Z.to_nat m)
              ["January"; "February"; "March"; "April"; "May"; "June"; "July";
               "August"; "September"; "October"; "November"; "December"] EmptyString)
    as [I | E].
  - apply K.
    change (In (nth (Z.to_nat m)
                  ["January"; "February"; "March"; "April"; "May"; "June"; "July";
                   "August"; "September"; "October"; "November"; "December"] EmptyString)
              (["January"; "February"; "March"; "April"; "May"; "June"; "July";
                "August"; "September"; "October"; "November"; "December"] ++ [EmptyString])).
    apply in_or_app. left. exact I.
  - rewrite E. reflexivity.
Qed.

Lemma countChar_formatDate (c : ascii) (s : string) :
  (nat_of_ascii c < 45)%nat \/ (57 < nat_of_ascii c)%nat ->
  (nat_of_ascii c < 65)%nat ->
  nat_of_ascii c <> 32%nat ->
  countChar c (formatDate s) = O.
Proof.
  intros H1 H2 H3. unfold formatDate, toLocaleDateString.
  assert (Sp : countChar c " " = O).
  { cbn [countChar]. destruct (Ascii.eqb_spec " "%char c) as [<- | _];
      [cbn in H3; lia | reflexivity]. }
  destruct (newDate (s ++ "T00:00:00")) as [t |].
  - rewrite !countChar_append, !countChar_String_of_Z, countChar_monthName, Sp
      by assumption. reflexivity.
  - assert (L : forall a r, (nat_of_ascii a = 32 \/ 65 <= nat_of_ascii a)%nat ->
                            countChar c (String a r) = countChar c r).
    { intros a r Ha. cbn [countChar].
      destruct (Ascii.eqb_spec a c) as [-> | _]; [lia | reflexivity]. }
    repeat (rewrite L by (cbn; lia)). reflexivity.
Qed.

Lemma getThemeByKey_In (k : option string) (theme : Theme) :
  getThemeByKey k = Some theme -> In theme WALLPAPER_THEMES /\ k = Some (key theme).
Proof.
  unfold getThemeByKey. intros H. apply find_some in H as [I E]. split; [exact I |].
  unfold strictEq in E. destruct k as [v |]; [| discriminate].
  apply String.eqb_eq in E. now subst v.
Qed.

(** X13.  The values [renderTimerList] puts between the tags of a card hold no
    [<], and the value it puts into the [style] attribute holds no double
    quote, whatever the name, the date, the mode and the wallpaper key of
    the timer are: the markup of a card is that of the template. *)
Theorem timerCard_no_markup (now : Z) (timer : Timer) (wallpaper : option string) :
  countChar (ascii_of_nat 34) (thumbStyle (timerCard now timer wallpaper)) = O
  /\ countChar "<"%char (cardName (timerCard now timer wallpaper)) = O
  /\ countChar "<"%char (cardSub (timerCard now timer wallpaper)) = O
  /\ countChar "<"%char (cardDays (timerCard now timer wallpaper)) = O
  /\ countChar "<"%char (cardLabel (timerCard now timer wallpaper)) = O.
Proof.
  unfold timerCard. cbv zeta. cbn [thumbStyle cardName cardSub cardDays cardLabel].
  split; [| split; [| split; [| split]]].
  - destruct (truthy wallpaper && negb (strictEq wallpaper "none")); [| reflexivity].
    destruct (strictEq wallpaper "photo"); [reflexivity |].
    destruct (getThemeByKey wallpaper) as [theme |] eqn:E; [| reflexivity].
    apply getThemeByKey_In in E as [I _].
    cbn [WALLPAPER_THEMES In] in I.
    repeat (destruct I as [<- | I]; [vm_compute; reflexivity |]). contradiction.
  - apply escapeHtml_no_angle.
  - rewrite !countChar_append, countChar_formatDate by (cbn; lia).
    destruct (String.eqb (mode timer) "countdown"); reflexivity.
  - destruct (getTimerValues now timer) as [v |].
    + destruct (isExpired v); [reflexivity |].
      apply countChar_String_of_Z. cbn. lia.
    + reflexivity.
  - destruct (getTimerValues now timer) as [v |];
      [destruct (isExpired v) |]; try reflexivity;
      destruct (String.eqb (mode timer) "countdown"); reflexivity.
Qed.

(** X14.  The markup [updateDetailMessage] sets has the four tags of its
    template and no others, whatever the text and the trigger date of the
    message: the text is escaped, and the label of the date holds no
    markup. *)
Theorem updateDetailMessage_markup (now : Z) (timer : Timer) (totalDays : Z)
    (html : string) :
  updateDetailMessage now timer totalDays = Some html ->
  countChar "<"%char html = 4%nat /\ countChar ">"%char html = 4%nat.
Proof.
  unfold updateDetailMessage.
  destruct (getActiveMessage now timer totalDays) as [r |] eqn:E; [| discriminate].
  cbv zeta. intros H. apply Some_inj in H. rewrite <- H. clear H html.
  destruct (getActiveMessage_Some _ _ _ _ E) as (i & m & _ & _ & Hr & _).
  assert (La : countChar "<"%char (triggerLabel r) = O
               /\ countChar ">"%char (triggerLabel r) = O).
  { rewrite Hr. cbn [triggerLabel resultOf].
    rewrite !countChar_append, !countChar_formatDate by (cbn; lia).
    split; reflexivity. }
  destruct La as [La Lb].
  destruct (escapeHtml_no_angle (am_text r)) as [Ea Eb].
  destruct (daysUntil r =? 0);
    rewrite !countChar_append, ?Ea, ?Eb, ?La, ?Lb; split; reflexivity.
Qed.

Lemma updateDetailMessage_markup_witness :
  countChar "<"%char
    ("<span class=" ++ quote ++ "detail-message-text" ++ quote ++ ">"
     ++ "&lt;i&gt;A&lt;/i&gt;"
     ++ "</span><span class=" ++ quote ++ "detail-message-when" ++ quote ++ ">"
     ++ "Today" ++ " — " ++ "📅 15 January 2024" ++ "</span>") = 4%nat
  /\ countChar ">"%char
       ("<span class=" ++ quote ++ "detail-message-text" ++ quote ++ ">"
        ++ "&lt;i&gt;A&lt;/i&gt;"
        ++ "</span><span class=" ++ quote ++ "detail-message-when" ++ quote ++ ">"
        ++ "Today" ++ " — " ++ "📅 15 January 2024" ++ "</span>") = 4%nat.
Proof.
  apply (updateDetailMessage_markup (instant 2024 1 15 9 30)
           (timerOn "2023-12-25" "countup" [dateMessage "<i>A</i>" "2024-01-15"]) 21).
  vm_compute. reflexivity.
Defined.

(* ================================================================== *)
(** ** Wallpapers *)
(* ================================================================== *)

(** X15.  Without a crop, [applyDetailWallpaper] sets the background that
    [getWallpaperCss] computes, for every wallpaper key and every result of
    loading the photo. *)
Theorem applyDetailWallpaper_is_getWallpaperCss (wallpaper dataUrl : option string)
    (croppedUrl : string) :
  applyDetailWallpaper wallpaper dataUrl false croppedUrl
  = getWallpaperCss wallpaper dataUrl.
Proof.
  unfold applyDetailWallpaper, getWallpaperCss.
  destruct wallpaper as [w |]; [| reflexivity].
  cbn [strictEq].
  destruct (String.eqb_spec w "photo") as [-> | Np].
  - cbn [truthy negb orb andb String.eqb Ascii.eqb Bool.eqb].
    destruct (truthy dataUrl); reflexivity.
  - cbn [andb negb]. destruct (String.eqb_spec w "none") as [-> | Nn].
    + rewrite orb_true_r. reflexivity.
    + destruct (truthy (Some w)); cbn [negb orb andb]; reflexivity.
Qed.

(** X16.  A wallpaper key gives a background of its own exactly when it is the
    key of one of the built-in themes, and the background is then the
    gradient of that theme: the keys of the table are distinct and none is
    one of the reserved words 'photo' and 'none'. *)
Theorem getWallpaperCss_theme (wallpaper : option string) (background : string) :
  getWallpaperCss wallpaper None = Some background <->
  exists theme,
    In theme WALLPAPER_THEMES /\ wallpaper = Some (key theme) /\ background = css theme.
Proof.
  split.
  - unfold getWallpaperCss. cbn [truthy andb]. rewrite andb_false_r.
    destruct (truthy wallpaper && negb (strictEq wallpaper "photo")
              && negb (strictEq wallpaper "none")); [| discriminate].
    destruct (getThemeByKey wallpaper) as [theme |] eqn:E; [| discriminate].
    intros [= <-]. apply getThemeByKey_In in E as [I K]. exists theme. auto.
  - intros (theme & I & -> & ->).
    cbn [WALLPAPER_THEMES In] in I.
    repeat (destruct I as [<- | I]; [vm_compute; reflexivity |]). contradiction.
Qed.

Lemma getWallpaperCss_theme_witness :
  getWallpaperCss (Some "forest") None
  = Some "linear-gradient(160deg, #0a1a0f 0%, #1b5e20 35%, #2e7d32 60%, #558b2f 80%, #8bc34a 100%)".
Proof.
  apply getWallpaperCss_theme.
  exists (mkTheme "forest" "Forest"
            "linear-gradient(160deg, #0a1a0f 0%, #1b5e20 35%, #2e7d32 60%, #558b2f 80%, #8bc34a 100%)").
  split; [| split; reflexivity].
  cbn. tauto.
Defined.

(* ================================================================== *)
(** ** The messages of the form *)
(* ================================================================== *)

Lemma removeMessage_In (l : list Message) (index : nat) (m : Message) :
  In m (removeMessage l index) -> In m l.
Proof.
  unfold removeMessage. intros H. apply in_app_or in H as [H | H].
  - rewrite <- (firstn_skipn index l). apply in_or_app. left. exact H.
  - rewrite <- (firstn_skipn (S index) l). apply in_or_app. right. exact H.
Qed.

Lemma removeMessage_length (l : list Message) (index : nat) :
  (List.length (removeMessage l index) <= List.length l)%nat.
Proof.
  unfold removeMessage. rewrite length_app, length_firstn, length_skipn. lia.
Qed.

Lemma formStep_invariant (l : list Message) (a : FormAction) :
  (List.length l <= 5)%nat -> forallb formShaped l = true ->
  (List.length (formStep l a) <= 5)%nat /\ forallb formShaped (formStep l a) = true.
Proof.
  intros Hl Hs. destruct a as [txt d | index]; cbn [formStep].
  - unfold addMessageToForm.
    destruct (truthy (Some txt)) eqn:Et; cbn [negb]; [| auto].
    destruct (truthy (Some d)) eqn:Ed; cbn [negb]; [| auto].
    destruct (Z.leb_spec 5 (Z.of_nat (List.length l))) as [G | L]; [auto |].
    split.
    + rewrite length_app. cbn [List.length]. lia.
    + rewrite forallb_app, Hs. cbn [forallb andb].
      unfold formShaped. cbn [text triggerType triggerDate].
      rewrite Et, Ed. reflexivity.
  - split; [pose proof (removeMessage_length l index); lia |].
    apply forallb_forall. intros m Hm.
    apply removeMessage_In in Hm. rewrite forallb_forall in Hs. auto.
Qed.

Lemma fold_formStep_invariant (actions : list FormAction) (l : list Message) :
  (List.length l <= 5)%nat -> forallb formShaped l = true ->
  (List.length (fold_left formStep actions l) <= 5)%nat
  /\ forallb formShaped (fold_left formStep actions l) = true.
Proof.
  revert l. induction actions as [| a actions IH]; intros l Hl Hs; cbn [fold_left]; [auto |].
  destruct (formStep_invariant l a Hl Hs) as [Hl' Hs']. apply IH; assumption.
Qed.

(** X17.  Whatever is added to and removed from the list of the form, starting
    from the empty list: the list never holds more than five messages, and
    each of them has a text, the trigger type 'date' and a trigger date. *)
Theorem form_messages_invariant (actions : list FormAction) :
  (List.length (fold_left formStep actions []) <= 5)%nat
  /\ forallb formShaped (fold_left formStep actions []) = true.
Proof.
  apply fold_formStep_invariant; [cbn; lia | reflexivity].
Qed.

Lemma formShaped_activeDaysUntil (today : Z) (m : Message) :
  formShaped m = true -> activeDaysUntil today m = interfaceDaysUntil today m.
Proof.
  unfold formShaped, activeDaysUntil, interfaceDaysUntil. intros H.
  apply andb_prop in H as [H Hd]. apply andb_prop in H as [Ht Hy].
  rewrite Ht, Hy, Hd. reflexivity.
Qed.

(** X18.  For a list of messages made with the form the resolver goes by text
    and trigger date alone: it returns none exactly when no message of the
    list has a trigger date that parses and has come. *)
Theorem form_messages_resolved_by_date (now : Z) (timer : Timer) (totalDays : Z)
    (actions : list FormAction) :
  let l := fold_left formStep actions [] in
  getActiveMessage now (withMessages timer l) totalDays = None <->
  forall m, In m l -> interfaceDaysUntil (setHours now 0 0 0 0) m = None.
Proof.
  intros l. rewrite getActiveMessage_None.
  change (messagesOf (withMessages timer l)) with l.
  assert (Hs : forallb formShaped l = true)
    by (apply fold_formStep_invariant; [cbn; lia | reflexivity]).
  rewrite forallb_forall in Hs.
  split; intros H m Hm.
  - rewrite <- formShaped_activeDaysUntil by auto. auto.
  - rewrite formShaped_activeDaysUntil by auto. auto.
Qed.

Lemma form_messages_resolved_by_date_witness :
  getActiveMessage (instant 2024 1 15 9 30)
    (withMessages (timerOn "2024-01-01" "countup" [])
       (fold_left formStep
          [AddMessage "A" "2024-02-01"; AddMessage EmptyString "2024-01-01";
           AddMessage "B" "2024-03-01"; RemoveMessage 1] [])) 14 = None.
Proof.
  apply (form_messages_resolved_by_date (instant 2024 1 15 9 30)
           (timerOn "2024-01-01" "countup" []) 14
           [AddMessage "A" "2024-02-01"; AddMessage EmptyString "2024-01-01";
            AddMessage "B" "2024-03-01"; RemoveMessage 1]).
  intros m Hm. vm_compute in Hm. destruct Hm as [<- | []]. vm_compute. reflexivity.
Defined.

(* ================================================================== *)
(* ================================================================== *)
(** ** Submitting and deleting a timer *)
(* ================================================================== *)

Section StoreFacts.

Context {Transform Blob : Type}.

Implicit Types (st : @AppState Transform Blob) (f : @Form Transform Blob).
Implicit Types (e : @TimerEntry Transform) (l : list (@TimerEntry Transform)).
Implicit Types (store : list (string * Blob)).

Lemma truthy_Some_nonempty (s : option string) :
  truthy s = true -> exists v, s = Some v /\ v <> EmptyString.
Proof.
  destruct s as [[|c v]|]; simpl; intros H; try discriminate.
  exists (String c v). split; [reflexivity | discriminate].
Qed.

Lemma readFormValues_Some f values :
  readFormValues f = Some values ->
  valuesName values = inputName f /\ valuesDate values = inputDate f /\
  valuesMessages values = getFormMessages f /\
  valuesWallpaper values = formWallpaperSelection f /\
  truthy (Some (inputName f)) = true /\ truthy (Some (inputDate f)) = true.
Proof.
  unfold readFormValues.
  destruct (truthy (Some (inputName f))); cbn [negb]; [| discriminate].
  destruct (truthy (Some (inputDate f))); cbn [negb]; [| discriminate].
  intros H. apply Some_inj in H. rewrite <- H. simpl. repeat split.
Qed.

Lemma entryId_editedEntry f values e : entryId (editedEntry f values e) = entryId e.
Proof. reflexivity. Qed.

Lemma replaceFirst_ids tid (g : TimerEntry Transform -> TimerEntry Transform) l :
  (forall e, entryId (g e) = entryId e) ->
  map entryId (replaceFirst tid g l) = map entryId l.
Proof.
  intros Hg. induction l as [|e l IH]; simpl; [reflexivity |].
  destruct (String.eqb (entryId e) tid); simpl.
  - rewrite Hg. reflexivity.
  - rewrite IH. reflexivity.
Qed.

Lemma replaceFirst_nth_other tid (g : TimerEntry Transform -> TimerEntry Transform) l i e :
  nth_error l i = Some e -> entryId e <> tid ->
  nth_error (replaceFirst tid g l) i = Some e.
Proof.
  revert i. induction l as [|a l IH]; intros [|i]; simpl; try discriminate.
  - intros H N. apply Some_inj in H. subst a.
    destruct (String.eqb_spec (entryId e) tid); [contradiction | reflexivity].
  - intros H N. destruct (String.eqb (entryId a) tid); simpl; [exact H | auto].
Qed.

Lemma replaceFirst_nth_unique tid (g : TimerEntry Transform -> TimerEntry Transform) l i e :
  NoDup (map entryId l) ->
  nth_error l i = Some e -> entryId e = tid ->
  nth_error (replaceFirst tid g l) i = Some (g e).
Proof.
  revert i. induction l as [|a l IH]; intros [|i]; simpl; try discriminate.
  - intros _ H E. apply Some_inj in H. subst a.
    rewrite E, String.eqb_refl. reflexivity.
  - intros D H E. inversion D as [|x xs Nin D']. subst.
    destruct (String.eqb_spec (entryId a) (entryId e)) as [Ea|Na].
    + exfalso. apply Nin. rewrite Ea. apply in_map.
      eapply nth_error_In. exact H.
    + simpl. apply IH; [exact D' | exact H | reflexivity].
Qed.

Lemma replaceFirst_In tid (g : TimerEntry Transform -> TimerEntry Transform) l e' :
  In e' (replaceFirst tid g l) ->
  In e' l \/ exists e, In e l /\ entryId e = tid /\ e' = g e.
Proof.
  induction l as [|a l IH]; simpl; [tauto |].
  destruct (String.eqb_spec (entryId a) tid) as [Ea|Na]; simpl.
  - intros [H|H].
    + right. exists a. auto.
    + left. auto.
  - intros [H|H]; [left; auto |].
    destruct (IH H) as [H1|[e [H1 H2]]]; [left; auto |].
    right. exists e. auto.
Qed.

Lemma replaceFirst_other tid (g : TimerEntry Transform -> TimerEntry Transform) l e :
  In e l -> entryId e <> tid -> In e (replaceFirst tid g l).
Proof.
  intros H N. destruct (In_nth_error _ _ H) as [i Hi].
  eapply nth_error_In. apply replaceFirst_nth_other; eauto.
Qed.

Lemma replaceFirst_present tid (g : TimerEntry Transform -> TimerEntry Transform) l :
  existsb (fun e => String.eqb (entryId e) tid) l = true ->
  exists e, In e l /\ entryId e = tid /\ In (g e) (replaceFirst tid g l).
Proof.
  induction l as [|a l IH]; simpl; [discriminate |].
  destruct (String.eqb_spec (entryId a) tid) as [Ea|Na]; simpl.
  - intros _. exists a. auto.
  - intros H. destruct (IH H) as [e [H1 [H2 H3]]]. exists e. auto.
Qed.

Lemma hasPhoto_deletePhoto tid d store :
  hasPhoto tid (deletePhoto true d store)
  = hasPhoto tid store && negb (String.eqb tid d).
Proof.
  unfold hasPhoto, deletePhoto.
  induction store as [|[k b] store IH]; simpl; [reflexivity |].
  destruct (String.eqb_spec k d) as [Ed|Nd]; simpl.
  - rewrite IH. subst k.
    destruct (String.eqb_spec d tid) as [E|N]; simpl.
    + subst. rewrite String.eqb_refl, andb_false_r. reflexivity.
    + reflexivity.
  - rewrite IH.
    destruct (String.eqb_spec k tid) as [E|N]; simpl; [| reflexivity].
    subst k. destruct (String.eqb_spec tid d); [contradiction | reflexivity].
Qed.

Lemma hasPhoto_savePhoto tid d (b : Blob) store :
  hasPhoto tid ((d, b) :: deletePhoto true d store)
  = String.eqb d tid || hasPhoto tid store.
Proof.
  change (hasPhoto tid ((d, b) :: ?l)) with
    (String.eqb d tid || hasPhoto tid l).
  rewrite hasPhoto_deletePhoto.
  destruct (String.eqb_spec d tid) as [E|N]; simpl; [reflexivity |].
  destruct (String.eqb_spec tid d); [congruence |]. rewrite andb_true_r. reflexivity.
Qed.

Lemma photosOwned_spec st :
  photosOwned st = true <->
  forall tid, hasPhoto tid (photos st) = true ->
    exists e, In e (timers st) /\ entryId e = tid /\ wallpaper e = Some "photo".
Proof.
  unfold photosOwned, hasPhoto. rewrite forallb_forall. split.
  - intros H tid Hp. apply existsb_exists in Hp. destruct Hp as [p [Hin Hk]].
    apply String.eqb_eq in Hk. specialize (H p Hin).
    apply existsb_exists in H. destruct H as [e [He Hc]].
    apply andb_true_iff in Hc. destruct Hc as [H1 H2].
    apply String.eqb_eq in H1. exists e. split; [exact He |]. split; [congruence |].
    destruct (wallpaper e) as [w|]; simpl in H2; [| discriminate].
    apply String.eqb_eq in H2. congruence.
  - intros H p Hin.
    destruct (H (fst p)) as [e [He [Hid Hw]]].
    + apply existsb_exists. exists p. split; [exact Hin | apply String.eqb_refl].
    + apply existsb_exists. exists e. split; [exact He |].
      rewrite Hid, Hw. simpl. rewrite String.eqb_refl. reflexivity.
Qed.

(** The state after a submit: the active timer is set unless [savePhoto]
    was called and rejected, and the store is changed by the one request
    that is made, if it succeeds. *)
Lemma handleFormSubmit_editing f newId saveOk deleteOk st tid values :
  editingTimerId f = Some tid -> tid <> EmptyString ->
  readFormValues f = Some values ->
  handleFormSubmit f newId saveOk deleteOk st =
    mkAppState (replaceFirst tid (editedEntry f values) (timers st))
      (if String.eqb (valuesWallpaper values) "photo"
       then match formPendingPhotoBlob f with
            | Some _ => if saveOk then Some tid else activeTimerId st
            | None => Some tid
            end
       else Some tid)
      (if negb (String.eqb (valuesWallpaper values) "photo")
       then deletePhoto deleteOk tid (photos st)
       else match formPendingPhotoBlob f with
            | Some blob =>
                if saveOk then (tid, blob) :: deletePhoto true tid (photos st)
                else photos st
            | None => photos st
            end).
Proof.
  intros E N R. unfold handleFormSubmit. rewrite R, E.
  destruct tid as [|c tid]; [congruence |]. cbn [truthy toStr].
  destruct (String.eqb (valuesWallpaper values) "photo"); cbn [negb];
    destruct (formPendingPhotoBlob f); try reflexivity.
  destruct saveOk; reflexivity.
Qed.

Lemma handleFormSubmit_adding f newId saveOk deleteOk st values :
  truthy (editingTimerId f) = false ->
  readFormValues f = Some values ->
  handleFormSubmit f newId saveOk deleteOk st =
    mkAppState (timers st ++ [newTimer f values newId])%list
      (if String.eqb (valuesWallpaper values) "photo"
       then match formPendingPhotoBlob f with
            | Some _ => if saveOk then Some newId else activeTimerId st
            | None => Some newId
            end
       else Some newId)
      (if negb (String.eqb (valuesWallpaper values) "photo")
       then deletePhoto deleteOk newId (photos st)
       else match formPendingPhotoBlob f with
            | Some blob =>
                if saveOk then (newId, blob) :: deletePhoto true newId (photos st)
                else photos st
            | None => photos st
            end).
Proof.
  intros E R. unfold handleFormSubmit. rewrite R, E.
  destruct (String.eqb (valuesWallpaper values) "photo"); cbn [negb];
    destruct (formPendingPhotoBlob f); try reflexivity.
  destruct saveOk; reflexivity.
Qed.

Lemma handleFormSubmit_cases f newId saveOk deleteOk st :
  handleFormSubmit f newId saveOk deleteOk st = st \/
  (exists values tid, editingTimerId f = Some tid /\ tid <> EmptyString /\
     readFormValues f = Some values) \/
  (exists values, truthy (editingTimerId f) = false /\
     readFormValues f = Some values).
Proof.
  destruct (readFormValues f) as [values|] eqn:R.
  - destruct (truthy (editingTimerId f)) eqn:E.
    + right. left. destruct (truthy_Some_nonempty _ E) as [tid [E1 E2]].
      exists values, tid. auto.
    + right. right. exists values. auto.
  - left. unfold handleFormSubmit. rewrite R. reflexivity.
Qed.

Lemma deleteTimer_cases f confirmed deleteOk st :
  deleteTimer f confirmed deleteOk st = st \/
  exists tid, editingTimerId f = Some tid /\ tid <> EmptyString /\
    deleteTimer f confirmed deleteOk st =
      mkAppState
        (filter (fun t => negb (String.eqb (entryId t) tid)) (timers st))
        (if strictEq (activeTimerId st) tid then None else activeTimerId st)
        (deletePhoto deleteOk tid (photos st)).
Proof.
  unfold deleteTimer. destruct (truthy (editingTimerId f)) eqn:E; cbn [negb]; [| auto].
  destruct confirmed; cbn [negb]; [| auto].
  right. destruct (truthy_Some_nonempty _ E) as [tid [E1 E2]].
  exists tid. rewrite E1. auto.
Qed.

End StoreFacts.

(** X19.  Editing a timer whose ids are distinct changes that timer only: the
    list keeps its length, its order and its ids, the edited timer takes
    the values of the form and keeps its id, every other timer is as it
    was, whether the requests to the photo store succeed or not; and the
    edited timer becomes the active one when the submit runs to its end,
    that is when no photo is to be saved or saving it succeeds. *)
Theorem handleFormSubmit_edit_changes_one {Transform Blob : Type}
    (f : @Form Transform Blob) (newId : string) (saveOk deleteOk : bool)
    (st : @AppState Transform Blob) (tid : string) (values : FormValues) :
  editingTimerId f = Some tid -> tid <> EmptyString ->
  readFormValues f = Some values ->
  NoDup (map entryId (timers st)) ->
  let st' := handleFormSubmit f newId saveOk deleteOk st in
  map entryId (timers st') = map entryId (timers st) /\
  (forall i e, nth_error (timers st) i = Some e ->
     nth_error (timers st') i =
       Some (if String.eqb (entryId e) tid then editedEntry f values e else e)) /\
  (saveOk = true \/ formPendingPhotoBlob f = None \/ valuesWallpaper values <> "photo" ->
   activeTimerId st' = Some tid).
Proof.
  intros E N R D st'. subst st'.
  rewrite (handleFormSubmit_editing f newId saveOk deleteOk st tid values E N R).
  cbn [timers activeTimerId]. split; [| split].
  - apply replaceFirst_ids. intros e. reflexivity.
  - intros i e H. destruct (String.eqb_spec (entryId e) tid) as [Ee|Ne].
    + apply replaceFirst_nth_unique; assumption.
    + apply replaceFirst_nth_other; assumption.
  - intros H.
    destruct (String.eqb_spec (valuesWallpaper values) "photo") as [W | W];
      [| reflexivity].
    destruct H as [-> | [-> | H]]; [| reflexivity | contradiction].
    destruct (formPendingPhotoBlob f); reflexivity.
Qed.

Lemma handleFormSubmit_edit_changes_one_witness :
  nth_error (timers (handleFormSubmit exampleEditForm "c" true false exampleState)) 0 =
    Some (mkTimerEntry
            (mkTimer "a" "Journey" "2027-02-01" "countdown"
               (Some [dateMessage "Soon" "2027-01-01"])) (Some "aurora") None) /\
  nth_error (timers (handleFormSubmit exampleEditForm "c" true false exampleState)) 1 =
    nth_error (timers exampleState) 1 /\
  activeTimerId (handleFormSubmit exampleEditForm "c" true false exampleState) = Some "a".
Proof.
  destruct (handleFormSubmit_edit_changes_one exampleEditForm "c" true false
              exampleState "a"
              (mkFormValues "Journey" "2027-02-01" "countdown"
                 [dateMessage "Soon" "2027-01-01"] "aurora"))
    as [_ [H A]].
  - reflexivity.
  - discriminate.
  - reflexivity.
  - vm_compute. repeat constructor; simpl; intuition discriminate.
  - split; [| split].
    + exact (H 0%nat _ eq_refl).
    + exact (H 1%nat _ eq_refl).
    + apply A. left. reflexivity.
Defined.

(** X20.  Saving the form keeps the ids of the list distinct, provided the id
    generated for a new timer is not yet in the list, whether the requests
    to the photo store succeed or not. *)
Theorem handleFormSubmit_ids_unique {Transform Blob : Type}
    (f : @Form Transform Blob) (newId : string) (saveOk deleteOk : bool)
    (st : @AppState Transform Blob) :
  NoDup (map entryId (timers st)) ->
  (truthy (editingTimerId f) = false -> ~ In newId (map entryId (timers st))) ->
  NoDup (map entryId (timers (handleFormSubmit f newId saveOk deleteOk st))).
Proof.
  intros D Fresh.
  destruct (handleFormSubmit_cases f newId saveOk deleteOk st)
    as [E | [[values [tid [E [N R]]]] | [values [E R]]]].
  - rewrite E. exact D.
  - rewrite (handleFormSubmit_editing f newId saveOk deleteOk st tid values E N R).
    cbn [timers]. rewrite replaceFirst_ids; [exact D | reflexivity].
  - rewrite (handleFormSubmit_adding f newId saveOk deleteOk st values E R).
    cbn [timers]. rewrite map_app. cbn [map].
    apply NoDup_app; [exact D | repeat constructor; simpl; tauto |].
    intros x Hx [Hy | []]. subst x. apply (Fresh E). exact Hx.
Qed.

Lemma handleFormSubmit_ids_unique_witness :
  NoDup (map entryId
           (timers (handleFormSubmit exampleNewForm "c" false true exampleState))).
Proof.
  apply (handleFormSubmit_ids_unique exampleNewForm "c" false true exampleState).
  - vm_compute. repeat constructor; simpl; intuition discriminate.
  - intros _. vm_compute. intuition discriminate.
Defined.

(** X21.  A form with no name or no date changes nothing. *)
Theorem handleFormSubmit_rejects_blank {Transform Blob : Type}
    (f : @Form Transform Blob) (newId : string) (saveOk deleteOk : bool)
    (st : @AppState Transform Blob) :
  inputName f = EmptyString \/ inputDate f = EmptyString ->
  handleFormSubmit f newId saveOk deleteOk st = st.
Proof.
  intros H.
  assert (R : readFormValues f = None).
  { unfold readFormValues. destruct H as [H | H]; rewrite H.
    - reflexivity.
    - destruct (inputName f); reflexivity. }
  unfold handleFormSubmit. rewrite R. reflexivity.
Qed.

Lemma handleFormSubmit_rejects_blank_witness :
  handleFormSubmit
    (mkForm (Some "a") "aurora" None (Some 3) "Journey" EmptyString (Some "countdown") [])
    "c" true true exampleState = exampleState.
Proof.
  apply (handleFormSubmit_rejects_blank
           (mkForm (Some "a") "aurora" None (Some 3) "Journey" EmptyString (Some "countdown") [])
           "c" true true exampleState).
  right. reflexivity.
Defined.

(** X22.  When the request that deletes a photo succeeds, saving the form
    and deleting a timer leave no photo without its timer: if every stored
    photo belongs to a timer of the list whose wallpaper is 'photo', it is
    so afterwards, provided the timer the form edits is in the list, and
    whether saving a photo succeeds or not.  When the request that deletes
    the photo fails the timer is removed all the same, and its photo
    stays behind (see [deleteTimer_failed_request]). *)
Theorem photos_stay_owned {Transform Blob : Type}
    (f : @Form Transform Blob) (newId : string) (confirmed saveOk : bool)
    (st : @AppState Transform Blob) :
  photosOwned st = true ->
  (editsListed f st = true ->
   photosOwned (handleFormSubmit f newId saveOk true st) = true) /\
  photosOwned (deleteTimer f confirmed true st) = true.
Proof.
  intros Inv. split.
  - intros Listed. destruct (handleFormSubmit_cases f newId saveOk true st)
      as [E | [[values [tid [E [N R]]]] | [values [E R]]]].
    + rewrite E. exact Inv.
    + rewrite (handleFormSubmit_editing f newId saveOk true st tid values E N R).
      unfold editsListed in Listed. rewrite E in Listed.
      assert (P : existsb (fun e => String.eqb (entryId e) tid) (timers st) = true).
      { destruct tid; [congruence | exact Listed]. }
      clear Listed.
      destruct (replaceFirst_present tid (editedEntry f values) _ P)
        as [e0 [_ [Id0 In0]]].
      rewrite photosOwned_spec in Inv. apply photosOwned_spec.
      cbn [timers photos]. intros t Ht.
      destruct (String.eqb_spec (valuesWallpaper values) "photo") as [W|W];
        cbn [negb] in Ht.
      * destruct (String.eqb_spec tid t) as [Et|Nt].
        -- exists (editedEntry f values e0). split; [exact In0 |].
           split; [rewrite <- Et; exact Id0 |]. cbn [editedEntry wallpaper].
           rewrite W. reflexivity.
        -- assert (Hp : hasPhoto t (photos st) = true).
           { destruct (formPendingPhotoBlob f); [| exact Ht].
             destruct saveOk; [| exact Ht].
             rewrite hasPhoto_savePhoto in Ht.
             destruct (String.eqb_spec tid t); [contradiction | exact Ht]. }
           destruct (Inv t Hp) as [e [He [Ie We]]].
           exists e. split; [| auto].
           apply replaceFirst_other; [exact He | congruence].
      * rewrite hasPhoto_deletePhoto in Ht. apply andb_prop in Ht as [Hp Nt].
        destruct (String.eqb_spec t tid) as [|Nt']; [discriminate |].
        destruct (Inv t Hp) as [e [He [Ie We]]].
        exists e. split; [| auto].
        apply replaceFirst_other; [exact He | congruence].
    + rewrite (handleFormSubmit_adding f newId saveOk true st values E R).
      rewrite photosOwned_spec in Inv. apply photosOwned_spec.
      cbn [timers photos]. intros t Ht.
      assert (Old : hasPhoto t (photos st) = true ->
                    exists e, In e (timers st ++ [newTimer f values newId])%list /\
                              entryId e = t /\ wallpaper e = Some "photo").
      { intros Hp. destruct (Inv t Hp) as [e [He [Ie We]]].
        exists e. split; [apply in_or_app; left; exact He | auto]. }
      destruct (String.eqb_spec (valuesWallpaper values) "photo") as [W|W];
        cbn [negb] in Ht.
      * destruct (formPendingPhotoBlob f); [| exact (Old Ht)].
        destruct saveOk; [| exact (Old Ht)].
        rewrite hasPhoto_savePhoto in Ht.
        destruct (String.eqb_spec newId t) as [Et|Nt]; [| exact (Old Ht)].
        exists (newTimer f values newId).
        split; [apply in_or_app; right; left; reflexivity |].
        split; [exact Et |]. cbn [newTimer wallpaper]. rewrite W. reflexivity.
      * rewrite hasPhoto_deletePhoto in Ht. apply andb_prop in Ht as [Hp _].
        exact (Old Hp).
  - destruct (deleteTimer_cases f confirmed true st) as [E | [tid [_ [_ E]]]];
      rewrite E; [exact Inv |].
    rewrite photosOwned_spec in Inv. apply photosOwned_spec.
    cbn [timers photos]. intros t Ht.
    rewrite hasPhoto_deletePhoto in Ht. apply andb_prop in Ht as [Hp Nt].
    destruct (Inv t Hp) as [e [He [Ie We]]].
    exists e. split; [| auto].
    apply filter_In. split; [exact He |]. rewrite Ie. exact Nt.
Qed.

Lemma photos_stay_owned_witness :
  photosOwned (handleFormSubmit exampleEditForm "c" false true exampleState) = true /\
  photosOwned (deleteTimer exampleEditForm true true exampleState) = true.
Proof.
  destruct (photos_stay_owned exampleEditForm "c" true false exampleState) as [H1 H2].
  - reflexivity.
  - split; [apply H1; reflexivity | exact H2].
Defined.

(** A request that fails leaves a photo without its timer: the timer "a"
    of the example is deleted, its photo is still stored. *)
Example deleteTimer_failed_request :
  photosOwned exampleState = true
  /\ photosOwned (deleteTimer exampleEditForm true false exampleState) = false
  /\ hasPhoto "a" (photos (deleteTimer exampleEditForm true false exampleState)) = true.
Proof. repeat split. Qed.

(** X23.  Saving the form and deleting a timer keep it so that a timer holds a
    photo transform only when its wallpaper is 'photo', whether the
    requests to the photo store succeed or not. *)
Theorem transform_only_with_photo_kept {Transform Blob : Type}
    (f : @Form Transform Blob) (newId : string) (confirmed saveOk deleteOk : bool)
    (st : @AppState Transform Blob) :
  transformOnlyWithPhoto st = true ->
  transformOnlyWithPhoto (handleFormSubmit f newId saveOk deleteOk st) = true /\
  transformOnlyWithPhoto (deleteTimer f confirmed deleteOk st) = true.
Proof.
  unfold transformOnlyWithPhoto. intros Inv.
  assert (Ed : forall values e,
             (strictEq (wallpaper (editedEntry f values e)) "photo" ||
              match photoTransform (editedEntry f values e) with
              | Some _ => false | None => true end) = true).
  { intros values e. cbn [editedEntry wallpaper photoTransform strictEq].
    destruct (String.eqb (valuesWallpaper values) "photo"); reflexivity. }
  assert (Nw : forall values,
             (strictEq (wallpaper (newTimer f values newId)) "photo" ||
              match photoTransform (newTimer f values newId) with
              | Some _ => false | None => true end) = true).
  { intros values. cbn [newTimer wallpaper photoTransform strictEq].
    destruct (String.eqb (valuesWallpaper values) "photo"); reflexivity. }
  rewrite forallb_forall in Inv. split.
  - destruct (handleFormSubmit_cases f newId saveOk deleteOk st)
      as [E | [[values [tid [E [N R]]]] | [values [E R]]]].
    + rewrite E. apply forallb_forall. exact Inv.
    + rewrite (handleFormSubmit_editing f newId saveOk deleteOk st tid values E N R).
      cbn [timers]. apply forallb_forall. intros e' H.
      destruct (replaceFirst_In _ _ _ _ H) as [H1 | [e [_ [_ H1]]]].
      * auto.
      * rewrite H1. apply Ed.
    + rewrite (handleFormSubmit_adding f newId saveOk deleteOk st values E R).
      cbn [timers]. apply forallb_forall. intros e' H.
      apply in_app_or in H. destruct H as [H | [H | []]].
      * auto.
      * rewrite <- H. apply Nw.
  - destruct (deleteTimer_cases f confirmed deleteOk st) as [E | [tid [_ [_ E]]]];
      rewrite E; apply forallb_forall; [exact Inv |].
    cbn [timers]. intros e H. apply filter_In in H. destruct H as [H _]. auto.
Qed.

Lemma transform_only_with_photo_kept_witness :
  transformOnlyWithPhoto (handleFormSubmit exampleEditForm "c" true false exampleState)
  = true /\
  transformOnlyWithPhoto (deleteTimer exampleEditForm true false exampleState) = true.
Proof.
  apply (transform_only_with_photo_kept exampleEditForm "c" true true false exampleState).
  reflexivity.
Defined.

(** X24.  Saving the form and deleting a timer keep every timer of the list
    with a name and a date, whether the requests to the photo store
    succeed or not. *)
Theorem timers_stay_named_and_dated {Transform Blob : Type}
    (f : @Form Transform Blob) (newId : string) (confirmed saveOk deleteOk : bool)
    (st : @AppState Transform Blob) :
  namedAndDated st = true ->
  namedAndDated (handleFormSubmit f newId saveOk deleteOk st) = true /\
  namedAndDated (deleteTimer f confirmed deleteOk st) = true.
Proof.
  unfold namedAndDated. intros Inv. rewrite forallb_forall in Inv. split.
  - destruct (handleFormSubmit_cases f newId saveOk deleteOk st)
      as [E | [[values [tid [E [N R]]]] | [values [E R]]]].
    + rewrite E. apply forallb_forall. exact Inv.
    + rewrite (handleFormSubmit_editing f newId saveOk deleteOk st tid values E N R).
      destruct (readFormValues_Some f values R) as [Vn [Vd [_ [_ [Tn Td]]]]].
      cbn [timers]. apply forallb_forall. intros e' H.
      destruct (replaceFirst_In _ _ _ _ H) as [H1 | [e [_ [_ H1]]]].
      * auto.
      * rewrite H1. cbn [editedEntry entryTimer name date].
        rewrite Vn, Vd, Tn, Td. reflexivity.
    + rewrite (handleFormSubmit_adding f newId saveOk deleteOk st values E R).
      destruct (readFormValues_Some f values R) as [Vn [Vd [_ [_ [Tn Td]]]]].
      cbn [timers]. apply forallb_forall. intros e' H.
      apply in_app_or in H. destruct H as [H | [H | []]].
      * auto.
      * rewrite <- H. cbn [newTimer entryTimer name date].
        rewrite Vn, Vd, Tn, Td. reflexivity.
  - destruct (deleteTimer_cases f confirmed deleteOk st) as [E | [tid [_ [_ E]]]];
      rewrite E; apply forallb_forall; [exact Inv |].
    cbn [timers]. intros e H. apply filter_In in H. destruct H as [H _]. auto.
Qed.

Lemma timers_stay_named_and_dated_witness :
  namedAndDated (handleFormSubmit exampleNewForm "c" false true exampleState) = true /\
  namedAndDated (deleteTimer exampleEditForm true true exampleState) = true.
Proof.
  split.
  - apply (timers_stay_named_and_dated exampleNewForm "c" true false true exampleState).
    reflexivity.
  - apply (timers_stay_named_and_dated exampleEditForm "c" true true true exampleState).
    reflexivity.
Defined.

(** X25.  A confirmed delete removes the edited timer and nothing else: the
    timers left are those of another id, in their order, and the deleted
    timer is no longer the active one.  When the request to the photo
    store succeeds the photo of the deleted timer is gone and the other
    photos stay; when it fails every photo stays, that of the deleted
    timer too. *)
Theorem deleteTimer_removes_one {Transform Blob : Type}
    (f : @Form Transform Blob) (deleteOk : bool) (st : @AppState Transform Blob)
    (tid : string) :
  editingTimerId f = Some tid -> tid <> EmptyString ->
  let st' := deleteTimer f true deleteOk st in
  timers st' = filter (fun e => negb (String.eqb (entryId e) tid)) (timers st) /\
  (forall e, In e (timers st') <-> In e (timers st) /\ entryId e <> tid) /\
  (forall t, hasPhoto t (photos st') =
             if deleteOk && String.eqb t tid then false else hasPhoto t (photos st)) /\
  activeTimerId st' <> Some tid /\
  (activeTimerId st <> Some tid -> activeTimerId st' = activeTimerId st).
Proof.
  intros E N st'.
  assert (Est : st' = mkAppState
                  (filter (fun t => negb (String.eqb (entryId t) tid)) (timers st))
                  (if strictEq (activeTimerId st) tid then None else activeTimerId st)
                  (deletePhoto deleteOk tid (photos st))).
  { subst st'. unfold deleteTimer. rewrite E.
    destruct tid; [congruence | reflexivity]. }
  rewrite Est. clear Est st'. cbn [timers photos activeTimerId].
  split; [reflexivity |]. split; [| split; [| split]].
  - intros e. rewrite filter_In.
    destruct (String.eqb_spec (entryId e) tid); cbn [negb]; intuition congruence.
  - intros t. destruct deleteOk; cbn [andb]; [| reflexivity].
    rewrite hasPhoto_deletePhoto.
    destruct (String.eqb t tid); cbn [negb].
    + apply andb_false_r.
    + apply andb_true_r.
  - destruct (activeTimerId st) as [a|]; cbn [strictEq]; [| discriminate].
    destruct (String.eqb_spec a tid); congruence.
  - intros H. destruct (activeTimerId st) as [a|]; cbn [strictEq]; [| reflexivity].
    destruct (String.eqb_spec a tid); congruence.
Qed.

Lemma deleteTimer_removes_one_witness :
  timers (deleteTimer exampleEditForm true true exampleState) =
    [mkTimerEntry (mkTimer "b" "Job" "2020-05-04" "countup" (Some [])) (Some "aurora") None] /\
  hasPhoto "a" (photos (deleteTimer exampleEditForm true true exampleState)) = false.
Proof.
  destruct (deleteTimer_removes_one exampleEditForm true exampleState "a")
    as [H1 [_ [H2 _]]].
  - reflexivity.
  - discriminate.
  - split; [exact H1 | exact (H2 "a")].
Defined.
